(** * Gui-scraper: URL discovery, page extraction and crawl orchestration

    A shallow embedding of the crawl engine of [Gui-scraper.py]
    ([URLCollector], [is_allowed], [get_sitemap_urls], [get_allowed_urls],
    [scrape_content], [scrape_all_urls]) and the properties its
    specification states about it.

    Conventions.
    - Python [int] is [Z]; [len] of a list is [Z.of_nat (length _)].
    - Python [str] is [string], read as the UTF-8 bytes of the text: a
      character is the one to four bytes of its code point ([Py.chr]).
      [lower] changes the letters of the ASCII range, which is all that the
      tests of the source on ".xml" and on tag names look at; the white
      space that [strip] removes is all of Unicode's, as in Python.
    - A mutated object (the collector, the result list) is threaded through
      as explicit state; every observable effect (an HTTP request, a log
      line, a callback invocation, a sleep) is an event appended to a trace.
    - [requests], [bs4], [playwright], [random], [time] and the thread pool
      are outside the repository: what they answer is supplied by a world
      (oracle) argument. *)

From Stdlib Require Import ZArith QArith List String Ascii Bool Lia DecimalString.
From Stdlib Require Import Permutation.
Import ListNotations.

Open Scope string_scope.
Open Scope list_scope.
Open Scope Z_scope.

(** ** Python primitives used by the source *)

Module Py.

(** [len(xs)] *)
Definition len {A : Type} (xs : list A) : Z := Z.of_nat (List.length xs).

(** [xs[:n]]: the first [n] items, or all but the last [-n] when [n] is
    negative. *)
Definition slice_to {A : Type} (n : Z) (xs : list A) : list A :=
  if 0 <=? n then firstn (Z.to_nat n) xs
  else firstn (Z.to_nat (len xs + n)) xs.

(** [s.startswith(p)] *)
Fixpoint startswith (p s : string) : bool :=
  match p, s with
  | EmptyString, _ => true
  | String _ _, EmptyString => false
  | String a p', String b s' => if Ascii.eqb a b then startswith p' s' else false
  end.

(** [frag in s] on strings: [frag] occurs in [s] as a contiguous run. *)
Fixpoint str_in (frag s : string) : bool :=
  if startswith frag s then true
  else match s with
       | EmptyString => false
       | String _ s' => str_in frag s'
       end.

(** [s.endswith(suffix)]: some tail of [s] is [suffix]. *)
Fixpoint endswith (suffix s : string) : bool :=
  if String.eqb s suffix then true
  else match s with
       | EmptyString => false
       | String _ s' => endswith suffix s'
       end.

Definition lower_char (c : ascii) : ascii :=
  let n := nat_of_ascii c in
  if (65 <=? n)%nat && (n <=? 90)%nat then ascii_of_nat (n + 32) else c.

(** [s.lower()] *)
Fixpoint lower (s : string) : string :=
  match s with
  | EmptyString => EmptyString
  | String c s' => String (lower_char c) (lower s')
  end.

(** [chr(n)]: the character with code point [n], as its UTF-8 bytes. *)
Definition chr (n : N) : string :=
  let byte := fun k => ascii_of_N k in
  (if n <? 0x80 then String (byte n) ""
   else if n <? 0x800 then
     String (byte (0xC0 + n / 64)) (String (byte (0x80 + n mod 64)) "")
   else if n <? 0x10000 then
     String (byte (0xE0 + n / 4096))
       (String (byte (0x80 + (n / 64) mod 64)) (String (byte (0x80 + n mod 64)) ""))
   else
     String (byte (0xF0 + n / 262144))
       (String (byte (0x80 + (n / 4096) mod 64))
          (String (byte (0x80 + (n / 64) mod 64)) (String (byte (0x80 + n mod 64)) ""))))%N.

(** The characters [c] with [c.isspace()]: tab, line feed, vertical tab,
    form feed, carriage return, the four separators U+001C-U+001F, space,
    next line U+0085, no-break space U+00A0, U+1680, the spaces
    U+2000-U+200A, the line and paragraph separators U+2028 and U+2029,
    U+202F, U+205F and the ideographic space U+3000. *)
Definition whitespace : list string :=
  map chr [0x09; 0x0A; 0x0B; 0x0C; 0x0D; 0x1C; 0x1D; 0x1E; 0x1F; 0x20; 0x85; 0xA0;
           0x1680; 0x2000; 0x2001; 0x2002; 0x2003; 0x2004; 0x2005; 0x2006; 0x2007;
           0x2008; 0x2009; 0x200A; 0x2028; 0x2029; 0x202F; 0x205F; 0x3000]%N.

(** [c.isspace()] for a string [c] of one character. *)
Definition isspace (c : string) : bool := existsb (String.eqb c) whitespace.

(** [s.lstrip()]: a white space character is one, two or three bytes
    long. *)
Fixpoint lstrip (s : string) : string :=
  match s with
  | EmptyString => EmptyString
  | String a s1 =>
      if isspace (String a "") then lstrip s1
      else
        match s1 with
        | EmptyString => s
        | String b s2 =>
            if isspace (String a (String b "")) then lstrip s2
            else
              match s2 with
              | EmptyString => s
              | String c s3 =>
                  if isspace (String a (String b (String c ""))) then lstrip s3 else s
              end
        end
  end.

(** [s.rstrip()]: the text is cut where only white space follows. No
    white space character begins with a byte that continues a character
    (0x80-0xBF), so the cut falls between two characters. *)
Fixpoint rstrip (s : string) : string :=
  match s with
  | EmptyString => EmptyString
  | String a s' =>
      match lstrip s with
      | EmptyString => EmptyString
      | String _ _ => String a (rstrip s')
      end
  end.

(** [s.strip()] *)
Definition strip (s : string) : string := rstrip (lstrip s).

(** [str(n)] and [f"{n}"] for an [int]. *)
Definition str_of_int (n : Z) : string :=
  NilZero.string_of_int (Z.to_int n).

(** [bool(s)] for a string: non-empty. *)
Definition truthy (s : string) : bool :=
  match s with EmptyString => false | _ => true end.

End Py.

(** ** [URLCollector] *)

Record URLCollector : Type := mkURLCollector {
  limit : Z;            (* 0 = unlimited *)
  urls : list string
}.

(** [URLCollector.__init__] *)
Definition URLCollector_init (limit : Z) : URLCollector :=
  {| limit := limit; urls := [] |}.

Definition extend (self : URLCollector) (items : list string) : URLCollector :=
  {| limit := limit self; urls := urls self ++ items |}.

(** [URLCollector.add_urls]: the returned pair is the method's return value
    and the collector after the call. *)
Definition add_urls (self : URLCollector) (new_urls : list string)
  : bool * URLCollector :=
  if limit self <=? 0 then (true, extend self new_urls)
  else
    let remaining := limit self - Py.len (urls self) in
    if remaining <=? 0 then (false, self)
    else if Py.len new_urls >? remaining
         then (false, extend self (Py.slice_to remaining new_urls))
         else (true, extend self new_urls).

(** A sequence of [add_urls] calls on one collector: the return values in
    call order, and the collector after the last call. *)
Fixpoint add_urls_seq (self : URLCollector) (calls : list (list string))
  : list bool * URLCollector :=
  match calls with
  | [] => ([], self)
  | new_urls :: rest =>
      let '(r, self1) := add_urls self new_urls in
      let '(rs, self2) := add_urls_seq self1 rest in
      (r :: rs, self2)
  end.

(** ** [is_allowed] *)

Definition is_allowed (url : string) (disallowed_fragments : list string) : bool :=
  negb (existsb (fun fragment => Py.str_in fragment url) disallowed_fragments).

(** ** [ScrapeRecord]: the dict returned by [scrape_content] *)

Record Image : Type := mkImage {
  src : string;
  alt : string
}.

Record ScrapeRecord : Type := mkScrapeRecord {
  url : string;
  headings : list string;
  paragraphs : list string;
  images : list Image;
  meta_description : string;
  meta_keywords : string;
  meta_og_title : string
}.

(** ** Effects: a state monad with a trace, and fuel for recursion *)

Inductive Level : Type := INFO | WARNING | ERROR.

(** What the program does to the outside. *)
Inductive Event : Type :=
| Request (url : string)                  (* requests.get(url, headers=...) *)
| Render (url : string)                   (* the playwright block on url *)
| Logging (level : Level) (msg : string)  (* logging.info / warning / error *)
| LogCallback (msg : string)              (* log_callback(msg) *)
| PollSleep                               (* time.sleep(0.2) *)
| DelaySleep (delay : Q)                  (* time.sleep(delay) *)
| ProgressCallback (i total : Z) (msg : string)  (* progress_callback(i, total, msg) *)
| DataCallback (data : ScrapeRecord).     (* data_callback(data) *)

(** The result of a call that may recurse or loop without bound: the
    embedding runs it with a bound on the depth (or on the number of loop
    turns) and reports when the bound was hit. *)
Inductive Run (A : Type) : Type :=
| Returns (a : A)
| OutOfFuel.
Arguments Returns {A} a.
Arguments OutOfFuel {A}.

Definition M (S A : Type) : Type := S -> A * S.

Definition ret {S A : Type} (a : A) : M S A := fun s => (a, s).

Definition bind {S A B : Type} (m : M S A) (k : A -> M S B) : M S B :=
  fun s => let '(a, s1) := m s in k a s1.

Notation "x <- c1 ;; c2" := (bind c1 (fun x => c2))
  (at level 61, c1 at next level, right associativity).
Notation "c1 ;; c2" := (bind c1 (fun _ => c2))
  (at level 61, right associativity).

(** ** The parsed documents ([bs4]) *)

(** A parsed XML or HTML tree. The [BeautifulSoup] object itself is the
    root [Tag] (named "[document]"). *)
#[warnings="-register-all"]
Inductive Node : Type :=
| NavigableString (s : string)
| Tag (name : string) (attrs : list (string * string)) (contents : list Node).

Module Bs4.

(** [tag.descendants]: every node below [tag], in document order. *)
Fixpoint descendants (t : Node) : list Node :=
  match t with
  | NavigableString _ => []
  | Tag _ _ contents => flat_map (fun c => c :: descendants c) contents
  end.

(** [tag.find_all(f)] and [tag.find(f)] for a function [f] over tags. *)
Definition find_all (f : Node -> bool) (t : Node) : list Node :=
  filter f (descendants t).

Definition find (f : Node -> bool) (t : Node) : option Node :=
  List.find f (descendants t).

Definition all_strings (t : Node) : list string :=
  flat_map (fun d => match d with
                     | NavigableString s => [s]
                     | Tag _ _ _ => []
                     end) (descendants t).

(** [tag.text] *)
Definition text (t : Node) : string := String.concat "" (all_strings t).

(** [tag.get_text(strip=True)]: every string stripped, the empty ones
    dropped. *)
Definition get_text_strip (t : Node) : string :=
  String.concat "" (filter Py.truthy (map Py.strip (all_strings t))).

(** [tag.attrs.get(key)] *)
Fixpoint get (key : string) (attrs : list (string * string)) : option string :=
  match attrs with
  | [] => None
  | (k, v) :: rest => if String.eqb k key then Some v else get key rest
  end.

Definition attrs_of (t : Node) : list (string * string) :=
  match t with
  | NavigableString _ => []
  | Tag _ attrs _ => attrs
  end.

(** [lambda t: t.name and t.name.lower().endswith(suffix)] *)
Definition name_endswith (suffix : string) (t : Node) : bool :=
  match t with
  | NavigableString _ => false
  | Tag name _ _ => Py.truthy name && Py.endswith suffix (Py.lower name)
  end.

(** The filter of [find_all(name)] / [find_all([names])]. *)
Definition named (names : list string) (t : Node) : bool :=
  match t with
  | NavigableString _ => false
  | Tag name _ _ => existsb (String.eqb name) names
  end.

End Bs4.

(** ** The outside world *)

Record Response : Type := mkResponse {
  status_code : Z;
  soup : Node       (* BeautifulSoup(resp.content, "xml") or
                       BeautifulSoup(response.text, 'html.parser') *)
}.

(** What the libraries answer to one running call. An answer may depend on
    how often the call asked before: [requests_get] takes the number of
    requests the call has already made, the two flags the number of times
    the call has already read a flag. *)
Record World : Type := mkWorld {
  (* requests.get(url, ...) followed by raise_for_status(): [inl e] when a
     RequestException [e] is raised (network error or error status) *)
  requests_get : nat -> string -> string + Response;
  (* the playwright block: [inl e] on any exception, else the parse of
     page.content() *)
  playwright_content : string -> string + Node;
  stop_is_set : nat -> bool;       (* stop_event.is_set() *)
  pause_is_set : nat -> bool;      (* pause_event.is_set() *)
  uniform : Q -> Q -> Q;           (* random.uniform(a, b) *)
  format_2f : Q -> string;         (* f"{delay:.2f}" *)
  urljoin : string -> string -> string
}.

(** ** [get_sitemap_urls] and [get_allowed_urls] *)

(** A trace entry of discovery: the event, and how many URLs the collector
    held when it happened. *)
Record Entry : Type := mkEntry {
  held : Z;
  event : Event
}.

Record Discovery : Type := mkDiscovery {
  collector : URLCollector;
  history : list Entry;
  asked : nat
}.

Definition get_collector : M Discovery URLCollector :=
  fun s => (collector s, s).

Definition emit (e : Event) : M Discovery unit :=
  fun s => (tt, {| collector := collector s;
                   history := history s ++ [{| held := Py.len (urls (collector s)); event := e |}];
                   asked := asked s |}).

Definition do_request (w : World) (url : string) : M Discovery (string + Response) :=
  fun s => (requests_get w (asked s) url,
            {| collector := collector s;
               history := history s ++ [{| held := Py.len (urls (collector s)); event := Request url |}];
               asked := S (asked s) |}).

Definition collector_add_urls (new_urls : list string) : M Discovery bool :=
  fun s => let '(r, c) := add_urls (collector s) new_urls in
           (r, {| collector := c; history := history s; asked := asked s |}).

(** [if log_callback: log_callback(msg)]; the flag says whether a callback
    was passed. *)
Definition call_log {S : Type} (emit : Event -> M S unit) (log_callback : bool)
  (msg : string) : M S unit :=
  if log_callback then emit (LogCallback msg) else ret tt.

(** [collector.limit > 0 and len(collector.urls) >= collector.limit] *)
Definition limit_reached (c : URLCollector) : bool :=
  (limit c >? 0) && (Py.len (urls c) >=? limit c).

(** The [for tag in sitemap_tags] loop; [recur] is the recursive call. *)
Fixpoint sitemap_tags_loop (recur : string -> M Discovery (Run (list string)))
  (log_callback : bool) (sitemap_tags : list Node) : M Discovery (Run unit) :=
  match sitemap_tags with
  | [] => ret (Returns tt)
  | tag :: rest =>
      c <- get_collector ;;
      if limit_reached c then ret (Returns tt)      (* break *)
      else
        match Bs4.find (Bs4.name_endswith "loc") tag with
        | Some loc_tag =>
            let sub_sitemap_url := Py.strip (Bs4.text loc_tag) in
            call_log emit log_callback
              (String.concat "" ["[INFO] Traitement du sous-sitemap: "; sub_sitemap_url]) ;;
            r <- recur sub_sitemap_url ;;
            match r with
            | Returns _ => sitemap_tags_loop recur log_callback rest
            | OutOfFuel => ret OutOfFuel
            end
        | None => sitemap_tags_loop recur log_callback rest
        end
  end.

Fixpoint get_sitemap_urls (fuel : nat) (w : World) (sitemap_url : string)
  (disallowed : list string) (log_callback : bool)
  : M Discovery (Run (list string)) :=
  match fuel with
  | O => ret OutOfFuel
  | S fuel' =>
    c <- get_collector ;;
    if limit_reached c then ret (Returns (urls c))
    else
      resp <- do_request w sitemap_url ;;
      match resp with
      | inl e =>
          let message := String.concat ""
            ["[ERREUR] Impossible de récupérer '"; sitemap_url; "': "; e] in
          emit (Logging ERROR message) ;;
          call_log emit log_callback message ;;
          ret (Returns [])
      | inr resp =>
          let message := String.concat ""
            ["[OK] Récupération sitemap: "; sitemap_url;
             " (status="; Py.str_of_int (status_code resp); ")"] in
          emit (Logging INFO message) ;;
          call_log emit log_callback message ;;
          match Bs4.find (Bs4.name_endswith "sitemapindex") (soup resp) with
          | Some sitemapindex_tag =>
              let sitemap_tags :=
                Bs4.find_all (Bs4.name_endswith "sitemap") sitemapindex_tag in
              r <- sitemap_tags_loop
                     (fun u => get_sitemap_urls fuel' w u disallowed log_callback)
                     log_callback sitemap_tags ;;
              match r with
              | Returns _ => c <- get_collector ;; ret (Returns (urls c))
              | OutOfFuel => ret OutOfFuel
              end
          | None =>
              match Bs4.find (Bs4.name_endswith "urlset") (soup resp) with
              | Some urlset_tag =>
                  let loc_tags := Bs4.find_all (Bs4.name_endswith "loc") urlset_tag in
                  let urls_ := map Bs4.get_text_strip loc_tags in
                  let allowed_urls := filter (fun u => is_allowed u disallowed) urls_ in
                  collector_add_urls allowed_urls ;;
                  call_log emit log_callback
                    (String.concat "" ["[INFO] Ajout de "; Py.str_of_int (Py.len allowed_urls);
                                       " URLs autorisées depuis "; sitemap_url]) ;;
                  c <- get_collector ;; ret (Returns (urls c))
              | None =>
                  let message := String.concat ""
                    ["[WARN] '"; sitemap_url; "' n'est pas un sitemapindex ni un urlset reconnu."] in
                  emit (Logging WARNING message) ;;
                  call_log emit log_callback message ;;
                  c <- get_collector ;; ret (Returns (urls c))
              end
          end
      end
  end.

(** [get_allowed_urls]: the returned list, and the collector and trace the
    call leaves behind. *)
Definition get_allowed_urls (fuel : nat) (w : World) (sitemap_or_url : string)
  (disallowed : list string) (limit : Z) (log_callback : bool)
  : Run (list string) * Discovery :=
  let start := {| collector := URLCollector_init limit; history := []; asked := O |} in
  (if Py.str_in ".xml" (Py.lower sitemap_or_url) then
     r <- get_sitemap_urls fuel w sitemap_or_url disallowed log_callback ;;
     match r with
     | Returns _ => c <- get_collector ;; ret (Returns (urls c))
     | OutOfFuel => ret OutOfFuel
     end
   else
     (if is_allowed sitemap_or_url disallowed then
        collector_add_urls [sitemap_or_url] ;;
        call_log emit log_callback
          (String.concat "" ["[INFO] Ajout de l'URL unique: "; sitemap_or_url])
      else ret tt) ;;
     c <- get_collector ;; ret (Returns (urls c))) start.

(** ** [scrape_content] *)

(** The state of one running task: what it did so far, and how often it
    has read a flag and issued a request. *)
Record Task : Type := mkTask {
  events : list Event;
  reads : nat;
  requested : nat
}.

Definition start_task : Task := {| events := []; reads := O; requested := O |}.

Definition task_emit (e : Event) : M Task unit :=
  fun s => (tt, {| events := events s ++ [e]; reads := reads s; requested := requested s |}).

(** [stop_event.is_set()] *)
Definition read_stop (w : World) : M Task bool :=
  fun s => (stop_is_set w (reads s),
            {| events := events s; reads := S (reads s); requested := requested s |}).

(** [pause_event.is_set()] *)
Definition read_pause (w : World) : M Task bool :=
  fun s => (pause_is_set w (reads s),
            {| events := events s; reads := S (reads s); requested := requested s |}).

Definition task_request (w : World) (url : string) : M Task (string + Response) :=
  fun s => (requests_get w (requested s) url,
            {| events := events s ++ [Request url]; reads := reads s;
               requested := S (requested s) |}).

Definition task_render (w : World) (url : string) : M Task (string + Node) :=
  fun s => (playwright_content w url,
            {| events := events s ++ [Render url]; reads := reads s;
               requested := requested s |}).

(** [while pause_event.is_set(): time.sleep(0.2); if stop_event.is_set():
    return {}]. The answer [true] is the [return {}]; [fuel] bounds the
    number of turns. *)
Fixpoint wait_while_paused (fuel : nat) (w : World) : M Task (Run bool) :=
  match fuel with
  | O => ret OutOfFuel
  | S fuel' =>
      paused <- read_pause w ;;
      if paused then
        task_emit PollSleep ;;
        stopped <- read_stop w ;;
        if stopped then ret (Returns true) else wait_while_paused fuel' w
      else ret (Returns false)
  end.

(** The two fetch branches: [None] is the [return {}] of the [except]. *)
Definition fetch_soup (w : World) (url : string) (log_callback js_enabled : bool)
  : M Task (option Node) :=
  if js_enabled then
    content <- task_render w url ;;
    match content with
    | inr content =>
        let message := String.concat "" ["[OK] Scraping (JS) de: "; url] in
        task_emit (Logging INFO message) ;;
        call_log task_emit log_callback message ;;
        ret (Some content)
    | inl e =>
        let message := String.concat "" ["[ERREUR] Playwright a échoué pour "; url; ": "; e] in
        task_emit (Logging ERROR message) ;;
        call_log task_emit log_callback message ;;
        ret None
    end
  else
    response <- task_request w url ;;
    match response with
    | inr response =>
        let message := String.concat ""
          ["[OK] Scraping de: "; url; " (status="; Py.str_of_int (status_code response); ")"] in
        task_emit (Logging INFO message) ;;
        call_log task_emit log_callback message ;;
        ret (Some (soup response))
    | inl e =>
        let message := String.concat "" ["[ERREUR] Échec requête: "; url; " -> "; e] in
        task_emit (Logging ERROR message) ;;
        call_log task_emit log_callback message ;;
        ret None
    end.

(** [soup.find('meta', attrs={key: value})], then its ['content'] if it has
    one, else the empty string. *)
Definition meta_content (soup : Node) (key value : string) : string :=
  match Bs4.find (fun t => Bs4.named ["meta"] t &&
                           match Bs4.get key (Bs4.attrs_of t) with
                           | Some v => String.eqb v value
                           | None => false
                           end) soup with
  | Some tag => match Bs4.get "content" (Bs4.attrs_of tag) with
                | Some content => content
                | None => ""
                end
  | None => ""
  end.

(** The extraction part of [scrape_content], which has no effect. *)
Definition extract (w : World) (url : string) (soup : Node) : ScrapeRecord :=
  let headings_tags := Bs4.find_all (Bs4.named ["h1"; "h2"; "h3"; "h4"; "h5"; "h6"]) soup in
  let headings := map Bs4.get_text_strip headings_tags in
  let paragraphs_tags := Bs4.find_all (Bs4.named ["p"]) soup in
  let paragraphs := filter Py.truthy (map Bs4.get_text_strip paragraphs_tags) in
  let images_tags :=
    Bs4.find_all (fun t => Bs4.named ["img"] t &&
                           match Bs4.get "src" (Bs4.attrs_of t) with
                           | Some _ => true
                           | None => false
                           end) soup in
  let images :=
    map (fun img =>
           {| src := urljoin w url (match Bs4.get "src" (Bs4.attrs_of img) with
                                    | Some s => s
                                    | None => ""
                                    end);
              alt := match Bs4.get "alt" (Bs4.attrs_of img) with
                     | Some a => a
                     | None => ""
                     end |}) images_tags in
  {| url := url;
     headings := headings;
     paragraphs := paragraphs;
     images := images;
     meta_description := meta_content soup "name" "description";
     meta_keywords := meta_content soup "name" "keywords";
     meta_og_title := meta_content soup "property" "og:title" |}.

(** [scrape_content]: [Returns None] is the empty dict. [fuel] bounds each
    of the two pause loops. *)
Definition scrape_content (fuel : nat) (w : World) (url : string)
  (min_delay max_delay : Q) (log_callback js_enabled : bool)
  : M Task (Run (option ScrapeRecord)) :=
  stopped <- read_stop w ;;
  if stopped then ret (Returns None)
  else
    waited <- wait_while_paused fuel w ;;
    match waited with
    | OutOfFuel => ret OutOfFuel
    | Returns true => ret (Returns None)
    | Returns false =>
        fetched <- fetch_soup w url log_callback js_enabled ;;
        match fetched with
        | None => ret (Returns None)
        | Some soup =>
            let data := extract w url soup in
            stopped <- read_stop w ;;
            if stopped then ret (Returns None)
            else
              waited <- wait_while_paused fuel w ;;
              match waited with
              | OutOfFuel => ret OutOfFuel
              | Returns true => ret (Returns None)
              | Returns false =>
                  let delay := uniform w min_delay max_delay in
                  call_log task_emit log_callback
                    (String.concat "" ["[INFO] Pause de "; format_2f w delay;
                                       " secondes avant la prochaine requête."]) ;;
                  task_emit (DelaySleep delay) ;;
                  ret (Returns (Some data))
              end
        end
    end.

(** ** [scrape_all_urls] *)

(** The arguments of one [executor.submit(scrape_content, ...)]. The two
    event flags say whether the task watches the caller's event ([true]) or
    the fresh one made for a [None] argument, which nobody ever sets. *)
Record Call : Type := mkCall {
  call_url : string;
  call_min_delay : Q;
  call_max_delay : Q;
  call_pause_event : bool;
  call_stop_event : bool;
  call_log_callback : bool;
  call_js_enabled : bool
}.

(** A future: its position in submission order, and the submitted call. *)
Definition Future : Type := (nat * Call)%type.

(** The thread pool. The tasks run on its threads; the orchestrator sees
    the order in which the futures complete and what each one holds. A
    task that never finishes is not modelled. *)
Record Executor : Type := mkExecutor {
  (* at the k-th turn of as_completed: which of the futures still
     pending (in submission order, counted modulo their number)
     completes next *)
  completes_next : nat -> nat;
  (* future.result(): [inl exc] when the task raised [exc], else the dict
     it returned ([None] is the empty dict) *)
  future_result : Future -> string + option ScrapeRecord
}.

Fixpoint remove_nth {A : Type} (k : nat) (l : list A) : list A :=
  match l, k with
  | [], _ => []
  | _ :: rest, O => rest
  | x :: rest, S k' => x :: remove_nth k' rest
  end.

(** [concurrent.futures.as_completed]: the pending futures, each once, in
    the order the pool completes them. [n] is the number still pending. *)
Fixpoint as_completed (ex : Executor) (turn n : nat) (pending : list Future)
  : list Future :=
  match n with
  | O => []
  | S n' =>
      let k := (completes_next ex turn mod List.length pending)%nat in
      match nth_error pending k with
      | Some fut => fut :: as_completed ex (S turn) n' (remove_nth k pending)
      | None => []
      end
  end.

(** The consuming side: the list being built, what was emitted, and how
    many completions were looked at. *)
Record Crawl : Type := mkCrawl {
  results : list ScrapeRecord;
  emitted : list Event;
  observed : nat
}.

Definition start_crawl : Crawl := {| results := []; emitted := []; observed := O |}.

Definition crawl_emit (e : Event) : M Crawl unit :=
  fun s => (tt, {| results := results s; emitted := emitted s ++ [e]; observed := observed s |}).

Definition get_results : M Crawl (list ScrapeRecord) :=
  fun s => (results s, s).

(** [results.append(data)] *)
Definition results_append (data : ScrapeRecord) : M Crawl unit :=
  fun s => (tt, {| results := results s ++ [data]; emitted := emitted s; observed := observed s |}).

(** [stop_event.is_set()] at the head of a loop turn; a [stop_event] made
    by the function itself is never set. *)
Definition crawl_stop_is_set (w : World) (stop_event : bool) : M Crawl bool :=
  fun s => (if stop_event then stop_is_set w (observed s) else false,
            {| results := results s; emitted := emitted s; observed := S (observed s) |}).

(** The body of [for i, future in enumerate(as_completed(...), start=1)]. *)
Fixpoint completion_loop (w : World) (ex : Executor) (total : Z)
  (progress_callback stop_event log_callback data_callback : bool)
  (i : Z) (completed : list Future) : M Crawl unit :=
  match completed with
  | [] => ret tt
  | future :: rest =>
      let url := call_url (snd future) in
      stopped <- crawl_stop_is_set w stop_event ;;
      if stopped then ret tt                                  (* break *)
      else
        msg <- match future_result ex future with
               | inr (Some data) =>
                   results_append data ;;
                   let msg := String.concat ""
                     ["["; Py.str_of_int i; "/"; Py.str_of_int total; "] OK: "; url] in
                   (if data_callback then crawl_emit (DataCallback data) else ret tt) ;;
                   ret msg
               | inr None =>
                   ret (String.concat ""
                     ["["; Py.str_of_int i; "/"; Py.str_of_int total; "] Échec ou annulé: "; url])
               | inl exc =>
                   ret (String.concat ""
                     ["["; Py.str_of_int i; "/"; Py.str_of_int total; "] Exception pour "; url;
                      ": "; exc])
               end ;;
        crawl_emit (Logging INFO msg) ;;
        (if progress_callback then crawl_emit (ProgressCallback i total msg) else ret tt) ;;
        call_log crawl_emit log_callback msg ;;
        completion_loop w ex total progress_callback stop_event log_callback data_callback
          (i + 1) rest
  end.

(** [enumerate(xs)], the index counted in submission order. *)
Fixpoint enumerate {A : Type} (start : nat) (xs : list A) : list (nat * A) :=
  match xs with
  | [] => []
  | x :: rest => (start, x) :: enumerate (S start) rest
  end.

(** The futures of [future_to_url], in submission order. *)
Definition submit_all (urls : list string) (min_delay max_delay : Q)
  (pause_event stop_event log_callback js_enabled : bool) : list Future :=
  enumerate O (map (fun url => {| call_url := url;
                                  call_min_delay := min_delay;
                                  call_max_delay := max_delay;
                                  call_pause_event := pause_event;
                                  call_stop_event := stop_event;
                                  call_log_callback := log_callback;
                                  call_js_enabled := js_enabled |}) urls).

(** [scrape_all_urls]: [inl] is the [ValueError] of a [ThreadPoolExecutor]
    asked for no worker, [inr] the returned list; with it, what the call
    emitted and how many completions it looked at. *)
Definition scrape_all_urls (w : World) (ex : Executor) (urls : list string)
  (min_delay max_delay : Q) (workers : Z)
  (progress_callback pause_event stop_event log_callback data_callback js_enabled : bool)
  : (string + list ScrapeRecord) * Crawl :=
  let total := Py.len urls in
  (if total =? 0 then
     rs <- get_results ;; ret (inr rs)
   else if workers <=? 0 then
     ret (inl "max_workers must be greater than 0")
   else
     let future_to_url :=
       submit_all urls min_delay max_delay pause_event stop_event log_callback js_enabled in
     completion_loop w ex total progress_callback stop_event log_callback data_callback
       1 (as_completed ex O (List.length future_to_url) future_to_url) ;;
     rs <- get_results ;; ret (inr rs)) start_crawl.

(** ** Definitions on the side of the specification *)

(** The reference definition of [addURLs], in the words of the
    specification (section 4.1). *)
Inductive Signal : Type := Continue | Stop.

Definition signal_of_bool (b : bool) : Signal := if b then Continue else Stop.

Definition addURLs_spec (limit : Z) (urls newURLs : list string)
  : list string * Signal :=
  if limit <=? 0 then (urls ++ newURLs, Continue)
  else
    let remaining := limit - Z.of_nat (List.length urls) in
    if remaining <=? 0 then (urls, Stop)
    else if remaining <? Z.of_nat (List.length newURLs)
         then (urls ++ firstn (Z.to_nat remaining) newURLs, Stop)
         else (urls ++ newURLs, Continue).

(** "[fragment] is a substring of [url]", case-sensitive: the characters
    of [fragment] occur in [url] side by side. *)
Definition Substring (fragment url : string) : Prop :=
  exists pre post, url = (pre ++ fragment ++ post)%string.

Definition is_request (e : Event) : bool :=
  match e with
  | Request _ => true
  | _ => false
  end.

(** What discovery may do between two of its states, for a disallowed
    list [d]: keep the limit, append URLs that pass [is_allowed], and
    issue requests only while the limit is not reached. *)
Definition request_in_time (lim : Z) (en : Entry) : Prop :=
  is_request (event en) = true -> lim <= 0 \/ held en < lim.

Definition discovery_step (d : list string) (s s' : Discovery) : Prop :=
  limit (collector s') = limit (collector s) /\
  (exists added, urls (collector s') = urls (collector s) ++ added /\
                 Forall (fun u => is_allowed u d = true) added) /\
  (exists new, history s' = history s ++ new /\
               Forall (request_in_time (limit (collector s))) new).

(** ** A sample site

    A sitemap index with two leaves of three URLs each; one URL of the
    first leaf matches the disallowed fragment "/private/". Every other
    address answers 404. *)

Definition loc (u : string) : Node := Tag "loc" [] [NavigableString u].

Definition sample_index : Node :=
  Tag "[document]" []
    [Tag "sitemapindex" [("xmlns", "http://www.sitemaps.org/schemas/sitemap/0.9")]
       [Tag "sitemap" [] [loc "https://ex.org/a.xml"];
        Tag "sitemap" [] [loc "
          https://ex.org/b.xml "];
        Tag "sitemap" [] [loc "https://ex.org/gone.xml"];
        Tag "sitemap" [] [loc "https://ex.org/a.xml"]]].

Definition sample_urlset_a : Node :=
  Tag "urlset" []
    [Tag "url" [] [loc "https://ex.org/a1"];
     Tag "url" [] [loc "https://ex.org/private/a2"];
     Tag "url" [] [loc " https://ex.org/a3 "]].

Definition sample_leaf_a : Node := Tag "[document]" [] [sample_urlset_a].

Definition sample_leaf_b : Node :=
  Tag "[document]" []
    [Tag "ns:URLSet" []
       [Tag "ns:url" [] [Tag "ns:loc" [] [NavigableString "https://ex.org/b1"]];
        Tag "ns:url" [] [Tag "ns:loc" [] [NavigableString "https://ex.org/b2"]];
        Tag "ns:url" [] [Tag "ns:loc" [] [NavigableString "https://ex.org/b3"]]]].

Definition sample_page : Node :=
  Tag "[document]" []
    [Tag "html" []
       [Tag "head" []
          [Tag "meta" [("name", "description"); ("content", "A page")] [];
           Tag "meta" [("property", "og:title"); ("content", "Title")] []];
        Tag "body" []
          [Tag "h1" [] [NavigableString " Hello "];
           Tag "p" [] [NavigableString "First "; Tag "b" [] [NavigableString "bold"]];
           Tag "p" [] [NavigableString "   "];
           Tag "img" [("src", "/logo.png")] [];
           Tag "img" [("alt", "no source")] []]]].

Definition sample_requests_get (n : nat) (u : string) : string + Response :=
  if String.eqb u "https://ex.org/sitemap.xml" then inr {| status_code := 200; soup := sample_index |}
  else if String.eqb u "https://ex.org/a.xml" then inr {| status_code := 200; soup := sample_leaf_a |}
  else if String.eqb u "https://ex.org/b.xml" then inr {| status_code := 200; soup := sample_leaf_b |}
  else if String.eqb u "https://ex.org/a1" then inr {| status_code := 200; soup := sample_page |}
  else inl "404 Client Error: Not Found".

(** [stop_at] and [pause_until] say at which flag reading the stop flag
    becomes set and the pause flag stops being set. *)
Definition sample_world (stop_at pause_until : nat) : World :=
  {| requests_get := sample_requests_get;
     playwright_content := fun u => inl "browser not installed";
     stop_is_set := fun n => (stop_at <=? n)%nat;
     pause_is_set := fun n => (n <? pause_until)%nat;
     uniform := fun a b => a;
     format_2f := fun q => "1.00";
     urljoin := fun base u => String.concat "" ["https://ex.org"; u] |}.

Definition start_discovery (lim : Z) : Discovery :=
  {| collector := URLCollector_init lim; history := []; asked := O |}.

(** The request or render that [scrape_content] issues for [url], and what
    it means that it fails (the task's first and only fetch). *)
Definition fetch_event (js_enabled : bool) (url : string) : Event :=
  if js_enabled then Render url else Request url.

Definition fetch_fails (w : World) (js_enabled : bool) (n : nat) (url : string) : Prop :=
  if js_enabled then exists e, playwright_content w url = inl e
  else exists e, requests_get w n url = inl e.

Definition is_delay (e : Event) : bool :=
  match e with
  | DelaySleep _ => true
  | _ => false
  end.

(** The lines of one log message: the log file, then the callback if any. *)
Definition logged (level : Level) (log_callback : bool) (msg : string) : list Event :=
  Logging level msg :: (if log_callback then [LogCallback msg] else []).

(** The pool of the sample site: each task runs [scrape_content] in a
    world where nobody pauses or stops, and the futures complete last
    submitted first. *)
Definition sample_executor : Executor :=
  {| completes_next := fun turn => 1%nat;
     future_result := fun fut =>
       let c := snd fut in
       match fst (scrape_content 3 (sample_world 100 0) (call_url c)
                    (call_min_delay c) (call_max_delay c)
                    (call_log_callback c) (call_js_enabled c) start_task) with
       | Returns data => inr data
       | OutOfFuel => inl "still paused"
       end |}.

(** The completions the loop of [scrape_all_urls] looks at: those before
    the first one at which it sees the stop flag set. [t] counts the
    completions looked at so far. *)
Fixpoint seen (w : World) (stop_event : bool) (t : nat) (done : list Future)
  : list Future :=
  match done with
  | [] => []
  | fut :: rest =>
      if (if stop_event then stop_is_set w t else false) then []
      else fut :: seen w stop_event (S t) rest
  end.

(** The records among the results of some futures. *)
Definition successes (ex : Executor) (futs : list Future) : list ScrapeRecord :=
  flat_map (fun fut => match future_result ex fut with
                       | inr (Some data) => [data]
                       | _ => []
                       end) futs.

Fixpoint numbered_from {A : Type} (i : Z) (xs : list A) : list (Z * A) :=
  match xs with
  | [] => []
  | x :: rest => (i, x) :: numbered_from (i + 1) rest
  end.

(** The first arguments of the progress callback's invocations. *)
Definition progress_numbers (evs : list Event) : list Z :=
  flat_map (fun e => match e with
                     | ProgressCallback i _ _ => [i]
                     | _ => []
                     end) evs.

(** The status message of the [i]-th completion, with the wording for an
    empty result left open. *)
Definition status_message (empty_text : string) (i total : Z) (u : string)
  (res : string + option ScrapeRecord) : string :=
  match res with
  | inr (Some _) =>
      String.concat "" ["["; Py.str_of_int i; "/"; Py.str_of_int total; "] OK: "; u]
  | inr None =>
      String.concat "" ["["; Py.str_of_int i; "/"; Py.str_of_int total; "] "; empty_text; ": "; u]
  | inl exc =>
      String.concat "" ["["; Py.str_of_int i; "/"; Py.str_of_int total; "] Exception pour "; u;
                        ": "; exc]
  end.

(** What one observed completion emits: the record to the data callback,
    then the status message to the log file, to the progress callback and
    to the log callback. *)
Definition completion_events (empty_text : string) (ex : Executor) (total : Z)
  (progress_callback log_callback data_callback : bool) (numbered : Z * Future)
  : list Event :=
  let '(i, fut) := numbered in
  let res := future_result ex fut in
  let msg := status_message empty_text i total (call_url (snd fut)) res in
  match res with
  | inr (Some data) => if data_callback then [DataCallback data] else []
  | _ => []
  end
  ++ [Logging INFO msg]
  ++ (if progress_callback then [ProgressCallback i total msg] else [])
  ++ (if log_callback then [LogCallback msg] else []).

(** Claim C8 for a given wording of the empty result: every completion the
    loop looks at emits exactly its status message, to the log file, the
    progress callback and the log callback. *)
Definition status_messages_are (empty_text : string) : Prop :=
  forall (w : World) (ex : Executor) (urls : list string) (min_delay max_delay : Q)
         (workers : Z)
         (progress_callback pause_event stop_event log_callback data_callback js_enabled : bool),
    1 <= workers ->
    let futs := submit_all urls min_delay max_delay pause_event stop_event
                  log_callback js_enabled in
    let done := as_completed ex O (List.length futs) futs in
    emitted (snd (scrape_all_urls w ex urls min_delay max_delay workers progress_callback
                    pause_event stop_event log_callback data_callback js_enabled))
    = flat_map (completion_events empty_text ex (Py.len urls)
                  progress_callback log_callback data_callback)
        (numbered_from 1 (seen w stop_event O done)).

(** Claim C4, for the runs that satisfy [runs]: [N] progress notifications
    numbered 1..N, and the records of the successful tasks returned in
    completion order. *)
Definition all_completions_reported
  (runs : World -> list string -> bool -> Prop) : Prop :=
  forall (w : World) (ex : Executor) (urls : list string) (min_delay max_delay : Q)
         (workers : Z)
         (pause_event stop_event log_callback data_callback js_enabled : bool),
    1 <= workers ->
    runs w urls stop_event ->
    let futs := submit_all urls min_delay max_delay pause_event stop_event
                  log_callback js_enabled in
    let done := as_completed ex O (List.length futs) futs in
    let '(r, s) := scrape_all_urls w ex urls min_delay max_delay workers true
                     pause_event stop_event log_callback data_callback js_enabled in
    progress_numbers (emitted s) = map Z.of_nat (seq 1 (List.length urls)) /\
    Permutation done futs /\
    r = inr (successes ex done) /\
    List.length (successes ex done) = List.length (successes ex futs).

(** The stop flag is not seen set at any completion. *)
Definition never_stopped (w : World) (urls : list string) (stop_event : bool) : Prop :=
  stop_event = true ->
  forall n, (n < List.length urls)%nat -> stop_is_set w n = false.

(** ** A failed branch of discovery *)

(** The trace entries of events that happen while the collector is [c]. *)
Definition stamped (c : URLCollector) (evs : list Event) : list Entry :=
  map (fun e => {| held := Py.len (urls c); event := e |}) evs.

(** The state of discovery after the events [evs] happened and left the
    collector alone. *)
Definition after_events (s : Discovery) (evs : list Event) : Discovery :=
  {| collector := collector s;
     history := history s ++ stamped (collector s) evs;
     asked := (asked s + List.length (filter is_request evs))%nat |}.

(** What a request for [sitemap_url] that fails with [e] leaves in the
    trace: the request, then the error line in the log file and to the
    callback. *)
Definition failed_fetch (sitemap_url e : string) (log_callback : bool) : list Event :=
  Request sitemap_url ::
  logged ERROR log_callback
    (String.concat "" ["[ERREUR] Impossible de récupérer '"; sitemap_url; "': "; e]).

(** The line that announces a sub-sitemap to the callback. *)
Definition announced (log_callback : bool) (sub_sitemap_url : string) : list Event :=
  if log_callback
  then [LogCallback
          (String.concat "" ["[INFO] Traitement du sous-sitemap: "; sub_sitemap_url])]
  else [].

(** ** Further definitions on the side of the properties *)

Definition is_log_callback (e : Event) : bool :=
  match e with
  | LogCallback _ => true
  | _ => false
  end.

(** The events of discovery: requests, lines of the log file and, only
    when a callback was passed ([cb = true]), invocations of the log
    callback. *)
Definition discovery_event (cb : bool) (e : Event) : Prop :=
  match e with
  | Request _ => True
  | Logging _ _ => True
  | LogCallback _ => cb = true
  | _ => False
  end.

(** What else discovery keeps between two of its states: the limit, the
    bound of the collector by a positive limit, and a trace that grows by
    events of discovery only. *)
Definition discovery_keeps (cb : bool) (s s' : Discovery) : Prop :=
  limit (collector s') = limit (collector s) /\
  (0 < limit (collector s) ->
   Py.len (urls (collector s)) <= limit (collector s) ->
   Py.len (urls (collector s')) <= limit (collector s)) /\
  (exists new, history s' = history s ++ new /\
               Forall (fun en => discovery_event cb (event en)) new).

(** A world whose answer to a request does not depend on how many
    requests came before. *)
Definition steady (w : World) : Prop :=
  forall n u, requests_get w n u = requests_get w O u.

(** Discovery reduced to what it does to the collector, for a fixed
    answer per address: the loop over the entries of an index, and the
    visit of one sitemap. *)
Fixpoint collect_loop (recur : string -> URLCollector -> Run URLCollector)
  (sitemap_tags : list Node) (c : URLCollector) : Run URLCollector :=
  match sitemap_tags with
  | [] => Returns c
  | tag :: rest =>
      if limit_reached c then Returns c
      else
        match Bs4.find (Bs4.name_endswith "loc") tag with
        | Some loc_tag =>
            match recur (Py.strip (Bs4.text loc_tag)) c with
            | Returns c1 => collect_loop recur rest c1
            | OutOfFuel => OutOfFuel
            end
        | None => collect_loop recur rest c
        end
  end.

Fixpoint collect (fuel : nat) (answer : string -> string + Response)
  (disallowed : list string) (sitemap_url : string) (c : URLCollector)
  : Run URLCollector :=
  match fuel with
  | O => OutOfFuel
  | S fuel' =>
      if limit_reached c then Returns c
      else
        match answer sitemap_url with
        | inl _ => Returns c
        | inr resp =>
            match Bs4.find (Bs4.name_endswith "sitemapindex") (soup resp) with
            | Some sitemapindex_tag =>
                collect_loop (collect fuel' answer disallowed)
                  (Bs4.find_all (Bs4.name_endswith "sitemap") sitemapindex_tag) c
            | None =>
                match Bs4.find (Bs4.name_endswith "urlset") (soup resp) with
                | Some urlset_tag =>
                    Returns (snd (add_urls c
                      (filter (fun u => is_allowed u disallowed)
                         (map Bs4.get_text_strip
                            (Bs4.find_all (Bs4.name_endswith "loc") urlset_tag)))))
                | None => Returns c
                end
            end
        end
  end.

(** A run of discovery and a run of [collect] end alike. *)
Definition agrees {A : Type} (r : Run A) (s' : Discovery) (rc : Run URLCollector) : Prop :=
  match rc with
  | Returns c' => (exists x, r = Returns x) /\ collector s' = c'
  | OutOfFuel => r = OutOfFuel
  end.

(** The collector [cl], limited to [lim], holds the first [lim] URLs of
    the unlimited collector [cu]. *)
Definition truncates (lim : Z) (cl cu : URLCollector) : Prop :=
  limit cl = lim /\ limit cu <= 0 /\
  urls cl = firstn (Z.to_nat lim) (urls cu).

Definition is_fetch (e : Event) : bool :=
  match e with
  | Request _ | Render _ => true
  | _ => false
  end.

(** The sample site with the pause flag always set, and the stop flag set
    from the flag reading [stop_at] on. *)
Definition paused_world (stop_at : nat) : World :=
  {| requests_get := sample_requests_get;
     playwright_content := fun u => inl "browser not installed";
     stop_is_set := fun n => (stop_at <=? n)%nat;
     pause_is_set := fun n => true;
     uniform := fun a b => a;
     format_2f := fun q => "1.00";
     urljoin := fun base u => String.concat "" ["https://ex.org"; u] |}.

(** The records handed to the data callback, in order. *)
Definition data_callbacks (evs : list Event) : list ScrapeRecord :=
  flat_map (fun e => match e with
                     | DataCallback data => [data]
                     | _ => []
                     end) evs.

Definition is_progress_callback (e : Event) : bool :=
  match e with
  | ProgressCallback _ _ _ => true
  | _ => false
  end.

Definition is_data_callback (e : Event) : bool :=
  match e with
  | DataCallback _ => true
  | _ => false
  end.

(** ** The window ([ScraperGUI]): parameters, background task, buttons *)

(** [s.split(sep)] for a one-character separator. *)
Fixpoint str_split (sep : ascii) (s : string) : list string :=
  match s with
  | EmptyString => [EmptyString]
  | String c s' =>
      if Ascii.eqb c sep then EmptyString :: str_split sep s'
      else match str_split sep s' with
           | piece :: rest => String c piece :: rest
           | [] => [String c EmptyString]
           end
  end.

(** What the entry fields hold when "Commencer" is pressed (the values the
    [get()] of the Tk variables return). *)
Record Form : Type := mkForm {
  sitemap_url_var : string;
  disallowed_var : string;
  csv_var : string;
  min_delay_var : Q;
  max_delay_var : Q;
  concurrency_var : Z;
  limit_var : Z;
  js_enabled_var : bool
}.

(** The local variables that [on_start] hands to its background task. *)
Record Params : Type := mkParams {
  sitemap_or_url : string;
  disallowed_list : list string;
  csv_filename : string;
  min_delay : Q;
  max_delay : Q;
  workers : Z;
  limit_ : Z;
  js_enabled : bool
}.

(** [a < b] on delays. *)
Definition Qlt_bool (a b : Q) : bool := negb (Qle_bool b a).

(** The parameter part of [on_start] (reading the fields, the four basic
    checks, the disallowed list): [inl] is the error line passed to
    [log_to_gui] before the [return], [inr] the parameters of the run. *)
Definition on_start_params (f : Form) : string + Params :=
  let sitemap_or_url := Py.strip (sitemap_url_var f) in
  let disallowed_string := Py.strip (disallowed_var f) in
  let csv_filename := Py.strip (csv_var f) in
  let min_delay := min_delay_var f in
  let max_delay := max_delay_var f in
  let workers := concurrency_var f in
  let limit := limit_var f in
  let js_enabled := js_enabled_var f in
  if negb (Py.truthy sitemap_or_url) then
    inl "[ERREUR] Veuillez saisir un sitemap ou une URL."
  else if Qlt_bool min_delay 0 || Qlt_bool max_delay min_delay then
    inl "[ERREUR] Les valeurs de délai min/max sont invalides."
  else if workers <? 1 then
    inl "[ERREUR] Le nombre de threads doit être >= 1."
  else if limit <? 0 then
    inl "[ERREUR] La limite doit être >= 0."
  else
    let disallowed_list :=
      if Py.truthy disallowed_string then
        map Py.strip
          (filter (fun x => Py.truthy (Py.strip x)) (str_split "," disallowed_string))
      else [] in
    inr {| sitemap_or_url := sitemap_or_url;
           disallowed_list := disallowed_list;
           csv_filename := csv_filename;
           min_delay := min_delay;
           max_delay := max_delay;
           workers := workers;
           limit_ := limit;
           js_enabled := js_enabled |}.

(** What the background thread does, in the order it does it: the events
    of discovery and of the crawl loop (its log callback is [log_to_gui],
    its progress and data callbacks are the two local functions of
    [background_task]), and the calls of its own. *)
Inductive GuiEvent : Type :=
| Core (e : Event)
| SetProgressMax (total : Z)                    (* root.after(0, set_progress_max(total)) *)
| SaveCsv (data_list : list ScrapeRecord) (filename : string)
                                                (* save_results_to_csv(data_list, filename) *)
| ExecutorNone                                  (* self.executor = None *)
| StartButtonNormal.                            (* start_button.config(state="normal") *)

(** An exception that leaves [background_task]. *)
Inductive Exception : Type :=
| RecursionError               (* the calls of get_sitemap_urls nest deeper than
                                  the interpreter allows *)
| ValueError (msg : string)    (* ThreadPoolExecutor(max_workers=workers) *)
| CsvError (msg : string).     (* whatever save_results_to_csv raises *)

(** How a call ended. *)
Inductive Ended : Type :=
| Finished
| Raised (exc : Exception).

Definition finally_ : list GuiEvent := [ExecutorNone; StartButtonNormal].

(** [background_task] of [on_start]. [fuel] is the depth to which the
    interpreter lets the calls of [get_sitemap_urls] nest: a call one
    level deeper raises [RecursionError] (placed here at the entry of that
    call), which no [except] clause of discovery catches, so that it leaves
    [get_allowed_urls] and the [try] block through the [finally] clause.
    [disk_error] is the exception that writing the CSV file raises, if it
    does. *)
Definition background_task (fuel : nat) (w : World) (ex : Executor)
  (disk_error : option string) (p : Params) : Ended * list GuiEvent :=
  let '(found, discovery) :=
    get_allowed_urls fuel w (sitemap_or_url p) (disallowed_list p) (limit_ p) true in
  let trace1 := map (fun en => Core (event en)) (history discovery) in
  match found with
  | OutOfFuel => (Raised RecursionError, trace1 ++ finally_)
  | Returns urls =>
      let total_urls := Py.len urls in
      let msg_urls :=
        String.concat "" ["[INFO] Total d'URLs trouvées : "; Py.str_of_int total_urls] in
      let trace2 := trace1 ++ [Core (Logging INFO msg_urls); Core (LogCallback msg_urls)] in
      if total_urls =? 0 then
        (Finished,
         trace2 ++ [Core (LogCallback "[INFO] Aucune URL à scraper.")] ++ finally_)
      else
        let trace3 := trace2 ++ [SetProgressMax total_urls] in
        let '(scraped, crawl) :=
          scrape_all_urls w ex urls (min_delay p) (max_delay p) (workers p)
            true true true true true (js_enabled p) in
        let trace4 := trace3 ++ map Core (emitted crawl) in
        match scraped with
        | inl exc => (Raised (ValueError exc), trace4 ++ finally_)
        | inr scraped_data =>
            if negb (stop_is_set w (observed crawl)) then
              let trace5 := trace4 ++ [SaveCsv scraped_data (csv_filename p)] in
              match disk_error with
              | Some exc => (Raised (CsvError exc), trace5 ++ finally_)
              | None =>
                  (Finished,
                   trace5
                   ++ [Core (Logging INFO
                         (String.concat ""
                            ["[FIN] "; Py.str_of_int (Py.len scraped_data);
                             " lignes sauvegardées dans "; csv_filename p]));
                       Core (LogCallback
                         (String.concat ""
                            ["[FIN] Scraping terminé. Résultats dans '"; csv_filename p; "'"]))]
                   ++ finally_)
              end
            else
              (Finished,
               trace4
               ++ [Core (LogCallback "[INFO] Scraping interrompu par l'utilisateur.")]
               ++ finally_)
        end
  end.

(** The flags and the pause button of the window. *)
Record Controls : Type := mkControls {
  pause_flag : bool;        (* self.pause_event.is_set() *)
  stop_flag : bool;         (* self.stop_event.is_set() *)
  is_paused : bool;
  pause_button : string     (* the text of the pause button *)
}.

(** [__init__] *)
Definition controls_init : Controls :=
  {| pause_flag := false; stop_flag := false; is_paused := false; pause_button := "Pause" |}.

(** [on_pause]: the controls after the click, and the line it logs. *)
Definition on_pause (c : Controls) : Controls * string :=
  if negb (is_paused c) then
    ({| pause_flag := true; stop_flag := stop_flag c; is_paused := true;
        pause_button := "Reprendre" |},
     "[INFO] Scraping mis en pause.")
  else
    ({| pause_flag := false; stop_flag := stop_flag c; is_paused := false;
        pause_button := "Pause" |},
     "[INFO] Reprise du scraping.").

(** [on_stop] ([self.executor] is [None] throughout the program, so the
    shutdown branch is never taken). *)
Definition on_stop (c : Controls) : Controls * string :=
  ({| pause_flag := pause_flag c; stop_flag := true; is_paused := is_paused c;
      pause_button := pause_button c |},
   "[INFO] Arrêt demandé. Les tâches en attente seront annulées.").

(** What [on_start] does to the controls, before it reads the fields. *)
Definition on_start_reset (c : Controls) : Controls :=
  {| pause_flag := false; stop_flag := false; is_paused := false; pause_button := "Pause" |}.

Inductive Click : Type := Commencer | PauseReprendre | Arreter.

Definition click (c : Controls) (b : Click) : Controls :=
  match b with
  | Commencer => on_start_reset c
  | PauseReprendre => fst (on_pause c)
  | Arreter => fst (on_stop c)
  end.

(** Whether the stop button was the last of "Commencer" and "Arrêter" to
    be clicked. *)
Fixpoint stop_pending (pending : bool) (clicks : list Click) : bool :=
  match clicks with
  | [] => pending
  | Commencer :: rest => stop_pending false rest
  | Arreter :: rest => stop_pending true rest
  | PauseReprendre :: rest => stop_pending pending rest
  end.

(** The number of clicks on the pause button since the last "Commencer"
    is odd. *)
Fixpoint pause_pending (pending : bool) (clicks : list Click) : bool :=
  match clicks with
  | [] => pending
  | Commencer :: rest => pause_pending false rest
  | PauseReprendre :: rest => pause_pending (negb pending) rest
  | Arreter :: rest => pause_pending pending rest
  end.

Definition sample_form : Form :=
  {| sitemap_url_var := " https://ex.org/sitemap.xml ";
     disallowed_var := " /private/ , ,/tmp,";
     csv_var := "out.csv";
     min_delay_var := 1;
     max_delay_var := 3;
     concurrency_var := 2;
     limit_var := 4;
     js_enabled_var := false |}.

(** A text of white space characters only (the empty text included). *)
Inductive blank : string -> Prop :=
| blank_empty : blank ""
| blank_space (c s : string) : In c Py.whitespace -> blank s -> blank (c ++ s).

(** A text with no white space character at either end. *)
Definition trimmed (x : string) : Prop :=
  forall c, In c Py.whitespace ->
            Py.startswith c x = false /\ Py.endswith c x = false.

(** A fragment of the disallowed list as [on_start] builds it: not empty,
    without a comma, without white space at either end. *)
Definition fragment_ok (x : string) : Prop :=
  x <> "" /\ ~ In ","%char (list_ascii_of_string x) /\ trimmed x.

(** The no-break space, and a form filled in with it. *)
Definition nbsp : string := Py.chr 0xA0.

Definition nbsp_form : Form :=
  {| sitemap_url_var := String.concat "" [nbsp; "https://ex.org/sitemap.xml"; nbsp; " "];
     disallowed_var := String.concat "" [" /private/ ,"; nbsp; ","; nbsp; "/tmp"; nbsp; ","];
     csv_var := "out.csv";
     min_delay_var := 1;
     max_delay_var := 3;
     concurrency_var := 2;
     limit_var := 4;
     js_enabled_var := false |}.

(** A page with a paragraph of one no-break space ([<p>&nbsp;</p>]), and
    a heading padded with white space of several kinds. *)
Definition nbsp_page : Node :=
  Tag "[document]" []
    [Tag "h2" [] [NavigableString (String.concat "" [Py.chr 0x3000; "Titre"; nbsp; " "])];
     Tag "p" [] [NavigableString nbsp];
     Tag "p" [] [NavigableString "ok"];
     Tag "p" [] [NavigableString (Py.chr 0x2003); Tag "i" [] [NavigableString " "]]].

Definition nbsp_world : World :=
  {| requests_get := fun _ _ => inr {| status_code := 200; soup := nbsp_page |};
     playwright_content := fun _ => inl "browser not installed";
     stop_is_set := fun _ => false;
     pause_is_set := fun _ => false;
     uniform := fun a _ => a;
     format_2f := fun _ => "1.00";
     urljoin := fun _ u => u |}.

(** A sitemap index that lists itself. *)
Definition self_index : Node :=
  Tag "[document]" []
    [Tag "sitemapindex" [] [Tag "sitemap" [] [loc "https://ex.org/self.xml"]]].

Definition self_world : World :=
  {| requests_get := fun _ _ => inr {| status_code := 200; soup := self_index |};
     playwright_content := fun _ => inl "browser not installed";
     stop_is_set := fun _ => false;
     pause_is_set := fun _ => false;
     uniform := fun a _ => a;
     format_2f := fun _ => "1.00";
     urljoin := fun _ u => u |}.

(** The GuiEvents that are events of discovery or of the crawl loop. *)
Definition core_events (trace : list GuiEvent) : list Event :=
  flat_map (fun g => match g with
                     | Core e => [e]
                     | _ => []
                     end) trace.

(** The CSV files written: rows and file name. *)
Definition saves (trace : list GuiEvent) : list (list ScrapeRecord * string) :=
  flat_map (fun g => match g with
                     | SaveCsv data_list filename => [(data_list, filename)]
                     | _ => []
                     end) trace.

(** The sizes announced to the progress bar. *)
Definition progress_maxima (trace : list GuiEvent) : list Z :=
  flat_map (fun g => match g with
                     | SetProgressMax total => [total]
                     | _ => []
                     end) trace.

(** * Properties *)

(** ** The model at work *)

Example slice_to_3 : Py.slice_to 2 ["a"; "b"; "c"] = ["a"; "b"].
Proof. reflexivity. Qed.

Example slice_to_neg : Py.slice_to (-1) ["a"; "b"; "c"] = ["a"; "b"].
Proof. reflexivity. Qed.

Example str_in_ex : Py.str_in "/tag/" "https://x.org/tag/a" = true.
Proof. reflexivity. Qed.

Example lower_ex : Py.lower "Site.XML" = "site.xml".
Proof. reflexivity. Qed.

Example strip_ex : Py.strip "  a b
 " = "a b".
Proof. reflexivity. Qed.

(** Characters outside ASCII are their UTF-8 bytes, and the white space
    of Unicode is stripped like a space. *)
Example chr_ex : Py.chr 0xE9 = "é" /\ Py.chr 0x20AC = "€".
Proof. split; reflexivity. Qed.

Example strip_unicode_ex :
  Py.strip (String.concat "" [Py.chr 0xA0; " a"; Py.chr 0x2003; "b "; Py.chr 0x3000])
  = String.concat "" ["a"; Py.chr 0x2003; "b"] /\
  Py.strip (String.concat "" [Py.chr 0xA0; Py.chr 0x2028; " "]) = "".
Proof. split; reflexivity. Qed.

Example str_of_int_ex : Py.str_of_int 12 = "12" /\ Py.str_of_int 0 = "0".
Proof. split; reflexivity. Qed.

Example add_urls_ex :
  add_urls {| limit := 2; urls := ["a"] |} ["b"; "c"] =
  (false, {| limit := 2; urls := ["a"; "b"] |}).
Proof. reflexivity. Qed.

Example endswith_ex :
  Bs4.name_endswith "loc" (Tag "ns:LOC" [] []) = true /\
  Bs4.name_endswith "sitemap" (Tag "sitemapindex" [] []) = false.
Proof. split; reflexivity. Qed.

(** The scenario of the specification: two leaves of three URLs, one of
    them disallowed, limit 4. The third and fourth entries of the index
    are never requested. *)
Example discovery_scenario :
  let '(r, s) := get_allowed_urls 5 (sample_world 100 0) "https://ex.org/sitemap.xml"
                   ["/private/"] 4 false in
  r = Returns ["https://ex.org/a1"; "https://ex.org/a3";
               "https://ex.org/b1"; "https://ex.org/b2"] /\
  filter (fun en => is_request (event en)) (history s)
  = [{| held := 0; event := Request "https://ex.org/sitemap.xml" |};
     {| held := 0; event := Request "https://ex.org/a.xml" |};
     {| held := 2; event := Request "https://ex.org/b.xml" |}].
Proof. vm_compute. split; reflexivity. Qed.

(** Without a limit the failing third entry adds nothing, and the fourth
    entry is still processed. *)
Example discovery_failed_branch :
  fst (get_allowed_urls 5 (sample_world 100 0) "https://ex.org/sitemap.xml"
         ["/private/"] 0 false)
  = Returns ["https://ex.org/a1"; "https://ex.org/a3";
             "https://ex.org/b1"; "https://ex.org/b2"; "https://ex.org/b3";
             "https://ex.org/a1"; "https://ex.org/a3"].
Proof. vm_compute. reflexivity. Qed.

(** A sitemap index that lists itself is followed as deep as the fuel
    allows. *)
Example discovery_cycle :
  let w := {| requests_get := fun _ _ =>
                inr {| status_code := 200;
                       soup := Tag "[document]" []
                                 [Tag "sitemapindex" [] [Tag "sitemap" [] [loc "self.xml"]]] |};
              playwright_content := fun _ => inl "";
              stop_is_set := fun _ => false;
              pause_is_set := fun _ => false;
              uniform := fun a _ => a;
              format_2f := fun _ => "";
              urljoin := fun _ u => u |} in
  fst (get_allowed_urls 7 w "self.xml" [] 3 false) = OutOfFuel.
Proof. vm_compute. reflexivity. Qed.

Example scrape_content_ok :
  scrape_content 5 (sample_world 100 0) "https://ex.org/a1" 1 3 true false start_task
  = (Returns (Some {| url := "https://ex.org/a1";
                      headings := ["Hello"];
                      paragraphs := ["Firstbold"];
                      images := [{| src := "https://ex.org/logo.png"; alt := "" |}];
                      meta_description := "A page";
                      meta_keywords := "";
                      meta_og_title := "Title" |}),
     {| events := [Request "https://ex.org/a1";
                   Logging INFO "[OK] Scraping de: https://ex.org/a1 (status=200)";
                   LogCallback "[OK] Scraping de: https://ex.org/a1 (status=200)";
                   LogCallback "[INFO] Pause de 1.00 secondes avant la prochaine requête.";
                   DelaySleep 1];
        reads := 4; requested := 1 |}).
Proof. vm_compute. reflexivity. Qed.

(** Paused for one poll, then stopped after the fetch: no delay. *)
Example scrape_content_stopped_late :
  scrape_content 5 (sample_world 4 2) "https://ex.org/a1" 1 3 false false start_task
  = (Returns None,
     {| events := [PollSleep; Request "https://ex.org/a1";
                   Logging INFO "[OK] Scraping de: https://ex.org/a1 (status=200)"];
        reads := 5; requested := 1 |}).
Proof. vm_compute. reflexivity. Qed.

Example as_completed_ex :
  map fst (as_completed sample_executor O 3
             (submit_all ["u0"; "u1"; "u2"] 1 3 true true true false))
  = [1%nat; 2%nat; 0%nat].
Proof. vm_compute. reflexivity. Qed.

Example scrape_all_urls_no_worker :
  fst (scrape_all_urls (sample_world 100 0) sample_executor ["https://ex.org/a1"]
         1 3 0 true true true true true false)
  = inl "max_workers must be greater than 0".
Proof. vm_compute. reflexivity. Qed.

(** ** Python primitives *)

Lemma len_nonneg {A : Type} (xs : list A) : 0 <= Py.len xs.
Proof. unfold Py.len. lia. Qed.

Lemma len_app {A : Type} (xs ys : list A) : Py.len (xs ++ ys) = Py.len xs + Py.len ys.
Proof. unfold Py.len. rewrite length_app. lia. Qed.

Lemma slice_to_firstn {A : Type} (n : Z) (xs : list A) :
  0 <= n -> Py.slice_to n xs = firstn (Z.to_nat n) xs.
Proof.
  intros Hn. unfold Py.slice_to.
  destruct (Z.leb_spec 0 n); [reflexivity | lia].
Qed.

Lemma len_slice_to {A : Type} (n : Z) (xs : list A) :
  0 <= n -> n <= Py.len xs -> Py.len (Py.slice_to n xs) = n.
Proof.
  intros H0 Hn. rewrite slice_to_firstn by assumption.
  unfold Py.len in *. rewrite length_firstn. lia.
Qed.

(** ** [URLCollector.add_urls] *)

Lemma add_urls_limit (c : URLCollector) (new_urls : list string) :
  limit (snd (add_urls c new_urls)) = limit c.
Proof.
  unfold add_urls.
  destruct (limit c <=? 0); [reflexivity |].
  destruct (limit c - Py.len (urls c) <=? 0); [reflexivity |].
  destruct (Py.len new_urls >? limit c - Py.len (urls c)); reflexivity.
Qed.

Lemma add_urls_bounded (c : URLCollector) (new_urls : list string) :
  0 < limit c -> Py.len (urls c) <= limit c ->
  Py.len (urls (snd (add_urls c new_urls))) <= limit c.
Proof.
  intros Hpos Hle. unfold add_urls.
  destruct (Z.leb_spec (limit c) 0); [lia |].
  destruct (Z.leb_spec (limit c - Py.len (urls c)) 0); [exact Hle |].
  destruct (Z.gtb_spec (Py.len new_urls) (limit c - Py.len (urls c))); simpl.
  - rewrite len_app, len_slice_to; lia.
  - rewrite len_app. lia.
Qed.

Lemma add_urls_full (c : URLCollector) (new_urls : list string) :
  0 < limit c -> limit c <= Py.len (urls c) ->
  add_urls c new_urls = (false, c).
Proof.
  intros Hpos Hfull. unfold add_urls.
  destruct (Z.leb_spec (limit c) 0); [lia |].
  destruct (Z.leb_spec (limit c - Py.len (urls c)) 0); [reflexivity | lia].
Qed.

Lemma add_urls_seq_limit (calls : list (list string)) :
  forall c, limit (snd (add_urls_seq c calls)) = limit c.
Proof.
  induction calls as [| new_urls rest IH]; intros c; simpl; [reflexivity |].
  pose proof (add_urls_limit c new_urls) as Hl.
  destruct (add_urls c new_urls) as [r c1]. simpl in Hl.
  specialize (IH c1). destruct (add_urls_seq c1 rest) as [rs c2]. simpl in *.
  congruence.
Qed.

Lemma add_urls_seq_bounded (calls : list (list string)) :
  forall c, 0 < limit c -> Py.len (urls c) <= limit c ->
            Py.len (urls (snd (add_urls_seq c calls))) <= limit c.
Proof.
  induction calls as [| new_urls rest IH]; intros c Hpos Hle; simpl; [exact Hle |].
  pose proof (add_urls_limit c new_urls) as Hl.
  pose proof (add_urls_bounded c new_urls Hpos Hle) as Hb.
  destruct (add_urls c new_urls) as [r c1]. simpl in Hl, Hb.
  specialize (IH c1). destruct (add_urls_seq c1 rest) as [rs c2]. simpl in *.
  rewrite Hl in IH. apply IH; assumption.
Qed.

Lemma add_urls_seq_full (calls : list (list string)) (c : URLCollector) :
  0 < limit c -> limit c <= Py.len (urls c) ->
  add_urls_seq c calls = (repeat false (List.length calls), c).
Proof.
  intros Hpos Hfull.
  induction calls as [| new_urls rest IH]; simpl; [reflexivity |].
  rewrite add_urls_full by assumption. rewrite IH. reflexivity.
Qed.

(** C1. On a collector created with a limit > 0, after any sequence of
    [add_urls] calls [len(urls) <= limit]; and once [len(urls) == limit],
    every later call returns [False] (stop) and leaves the collector as it
    is. *)
Theorem C1_add_urls_respects_limit :
  forall (lim : Z) (calls later : list (list string)),
    0 < lim ->
    let c := snd (add_urls_seq (URLCollector_init lim) calls) in
    Py.len (urls c) <= lim /\
    (Py.len (urls c) = lim ->
     add_urls_seq c later = (repeat false (List.length later), c)).
Proof.
  intros lim calls later Hpos c.
  assert (Hlim : limit c = lim) by (unfold c; apply add_urls_seq_limit).
  split.
  - unfold c. apply (add_urls_seq_bounded calls (URLCollector_init lim)); simpl.
    + exact Hpos.
    + unfold Py.len. simpl. lia.
  - intros Hfull. apply add_urls_seq_full; lia.
Qed.

Lemma C1_add_urls_respects_limit_witness :
  let c := snd (add_urls_seq (URLCollector_init 2) [["a"]; ["b"; "c"]]) in
  Py.len (urls c) <= 2 /\
  (Py.len (urls c) = 2 ->
   add_urls_seq c [["d"]; []] = (repeat false 2%nat, c)).
Proof.
  apply (C1_add_urls_respects_limit 2 [["a"]; ["b"; "c"]] [["d"]; []]). lia.
Defined.

(** C2. One [add_urls] call is the four-case reference definition: with
    [limit <= 0] everything is appended and the answer is continue; else,
    with [remaining = limit - len(urls)], nothing is appended and the answer
    is stop when [remaining <= 0]; exactly the first [remaining] items, in
    their order, are appended and the answer is stop when
    [len(new_urls) > remaining]; everything is appended and the answer is
    continue otherwise. The limit itself never changes. *)
Theorem C2_add_urls_four_cases :
  forall (c : URLCollector) (new_urls : list string),
    let '(r, c') := add_urls c new_urls in
    (urls c', signal_of_bool r) = addURLs_spec (limit c) (urls c) new_urls /\
    limit c' = limit c /\
    (limit c <= 0 -> urls c' = urls c ++ new_urls /\ r = true) /\
    (0 < limit c -> limit c - Py.len (urls c) <= 0 -> urls c' = urls c /\ r = false) /\
    (0 < limit c -> 0 < limit c - Py.len (urls c) < Py.len new_urls ->
     r = false /\
     exists added dropped,
       urls c' = urls c ++ added /\ new_urls = added ++ dropped /\
       Py.len added = limit c - Py.len (urls c)) /\
    (0 < limit c -> 0 < limit c - Py.len (urls c) ->
     Py.len new_urls <= limit c - Py.len (urls c) ->
     urls c' = urls c ++ new_urls /\ r = true).
Proof.
  intros c new_urls. unfold add_urls, addURLs_spec, Py.len.
  fold (Py.len (urls c)). fold (Py.len new_urls).
  destruct (Z.leb_spec (limit c) 0) as [Hl | Hl].
  { simpl. repeat split; try reflexivity; intros; lia. }
  destruct (Z.leb_spec (limit c - Py.len (urls c)) 0) as [Hr | Hr].
  { simpl. repeat split; try reflexivity; intros; lia. }
  destruct (Z.gtb_spec (Py.len new_urls) (limit c - Py.len (urls c))) as [Hg | Hg];
    destruct (Z.ltb_spec (limit c - Py.len (urls c)) (Py.len new_urls)) as [Hg' | Hg'];
    try lia; simpl.
  - rewrite slice_to_firstn by lia.
    repeat split; try reflexivity; try (intros; lia).
    exists (firstn (Z.to_nat (limit c - Py.len (urls c))) new_urls),
           (skipn (Z.to_nat (limit c - Py.len (urls c))) new_urls).
    repeat split.
    + symmetry. apply firstn_skipn.
    + rewrite <- slice_to_firstn by lia. apply len_slice_to; lia.
  - repeat split; try reflexivity; intros; lia.
Qed.

Lemma C2_add_urls_four_cases_witness :
  add_urls {| limit := 2; urls := ["a"] |} ["b"; "c"] =
    (false, {| limit := 2; urls := ["a"; "b"] |}) /\
  exists added dropped,
    ["a"; "b"] = ["a"] ++ added /\ ["b"; "c"] = added ++ dropped /\ Py.len added = 2 - 1.
Proof.
  pose proof (C2_add_urls_four_cases {| limit := 2; urls := ["a"] |} ["b"; "c"]) as H.
  cbv beta iota zeta delta [add_urls] in H.
  change (add_urls {| limit := 2; urls := ["a"] |} ["b"; "c"])
    with (false, {| limit := 2; urls := ["a"; "b"] |}).
  split; [reflexivity |].
  destruct H as [_ [_ [_ [_ [H _]]]]].
  destruct H as [_ H]; [simpl; lia | unfold Py.len; simpl; lia |].
  exact H.
Defined.

(** ** [is_allowed] *)

Lemma startswith_spec (p s : string) :
  Py.startswith p s = true <-> exists post, s = (p ++ post)%string.
Proof.
  revert s. induction p as [| a p IH]; intros s; simpl.
  - split; [intros _; exists s; reflexivity | reflexivity].
  - destruct s as [| b s].
    + split; [discriminate | intros [post H]; discriminate].
    + destruct (Ascii.eqb_spec a b) as [-> | Hab].
      * rewrite IH. split; intros [post H]; exists post; congruence.
      * split; [discriminate | intros [post H]; congruence].
Qed.

Lemma str_in_unfold (frag s : string) :
  Py.str_in frag s =
  if Py.startswith frag s then true
  else match s with
       | EmptyString => false
       | String _ s' => Py.str_in frag s'
       end.
Proof. destruct s; reflexivity. Qed.

Lemma str_in_spec (frag s : string) :
  Py.str_in frag s = true <-> Substring frag s.
Proof.
  unfold Substring. induction s as [| c s IH]; rewrite str_in_unfold.
  - destruct (Py.startswith frag "") eqn:Hp.
    + split; [intros _ | reflexivity].
      apply startswith_spec in Hp. destruct Hp as [post Hp].
      exists "", post. exact Hp.
    + split; [discriminate |].
      intros [pre [post H]]. destruct pre; [| discriminate].
      assert (Py.startswith frag "" = true) by (apply startswith_spec; exists post; exact H).
      congruence.
  - destruct (Py.startswith frag (String c s)) eqn:Hp.
    + split; [intros _ | reflexivity].
      apply startswith_spec in Hp. destruct Hp as [post Hp].
      exists "", post. exact Hp.
    + rewrite IH. split.
      * intros [pre [post H]]. exists (String c pre), post. simpl. congruence.
      * intros [pre [post H]]. destruct pre as [| c' pre].
        -- assert (Py.startswith frag (String c s) = true)
             by (apply startswith_spec; exists post; exact H).
           congruence.
        -- simpl in H. exists pre, post. congruence.
Qed.

Lemma is_allowed_spec (url : string) (disallowed : list string) :
  is_allowed url disallowed = true <->
  forall fragment, In fragment disallowed -> ~ Substring fragment url.
Proof.
  unfold is_allowed. rewrite negb_true_iff. split.
  - intros H fragment Hin Hsub.
    apply str_in_spec in Hsub.
    assert (existsb (fun f => Py.str_in f url) disallowed = true)
      by (apply existsb_exists; exists fragment; auto).
    congruence.
  - intros H. destruct (existsb _ disallowed) eqn:E; [| reflexivity].
    apply existsb_exists in E. destruct E as [f [Hin Hf]].
    apply str_in_spec in Hf. exfalso. exact (H f Hin Hf).
Qed.

Lemma is_allowed_false (url : string) (disallowed : list string) :
  is_allowed url disallowed = false <->
  exists fragment, In fragment disallowed /\ Substring fragment url.
Proof.
  unfold is_allowed. rewrite negb_false_iff, existsb_exists.
  split; intros [f [Hin Hf]]; exists f; split; auto; apply str_in_spec; exact Hf.
Qed.

Lemma filter_is_allowed_nil (xs : list string) :
  filter (fun u => is_allowed u []) xs = xs.
Proof. induction xs as [| x xs IH]; simpl; [reflexivity | now rewrite IH]. Qed.

(** ** Discovery: what every run of [get_sitemap_urls] keeps *)

Lemma add_urls_appends (c : URLCollector) (new_urls : list string) :
  exists added dropped,
    urls (snd (add_urls c new_urls)) = urls c ++ added /\
    new_urls = added ++ dropped /\
    (limit c <= 0 \/ Py.len (urls c) + Py.len new_urls <= limit c -> dropped = []).
Proof.
  unfold add_urls.
  destruct (Z.leb_spec (limit c) 0) as [Hl | Hl].
  { exists new_urls, []. simpl. rewrite app_nil_r. auto. }
  destruct (Z.leb_spec (limit c - Py.len (urls c)) 0) as [Hr | Hr].
  { exists [], new_urls. simpl. rewrite app_nil_r. repeat split.
    intros [H | H]; [lia |].
    pose proof (len_nonneg new_urls) as Hn.
    assert (Hz : Py.len new_urls = 0) by lia.
    unfold Py.len in Hz. destruct new_urls; [reflexivity | simpl in Hz; lia]. }
  destruct (Z.gtb_spec (Py.len new_urls) (limit c - Py.len (urls c))) as [Hg | Hg].
  - exists (firstn (Z.to_nat (limit c - Py.len (urls c))) new_urls),
           (skipn (Z.to_nat (limit c - Py.len (urls c))) new_urls).
    simpl. rewrite slice_to_firstn by lia. repeat split.
    + symmetry. apply firstn_skipn.
    + intros [H | H]; lia.
  - exists new_urls, []. simpl. rewrite app_nil_r. auto.
Qed.

Lemma limit_reached_false (c : URLCollector) :
  limit_reached c = false <-> limit c <= 0 \/ Py.len (urls c) < limit c.
Proof.
  unfold limit_reached.
  destruct (Z.gtb_spec (limit c) 0); destruct (Z.geb_spec (Py.len (urls c)) (limit c));
    simpl; split; intros; try reflexivity; try discriminate; lia.
Qed.

Lemma limit_reached_true (c : URLCollector) :
  limit_reached c = true <-> 0 < limit c /\ limit c <= Py.len (urls c).
Proof.
  unfold limit_reached.
  destruct (Z.gtb_spec (limit c) 0); destruct (Z.geb_spec (Py.len (urls c)) (limit c));
    simpl; split; intros; try reflexivity; try discriminate; lia.
Qed.

Section DiscoverySteps.

Variable d : list string.

Lemma filter_is_allowed_Forall (xs : list string) :
  Forall (fun u => is_allowed u d = true) (filter (fun u => is_allowed u d) xs).
Proof.
  apply Forall_forall. intros u Hin. apply filter_In in Hin. tauto.
Qed.

Lemma discovery_step_refl (s : Discovery) : discovery_step d s s.
Proof.
  repeat split; exists []; rewrite app_nil_r; auto.
Qed.

Lemma discovery_step_trans (s1 s2 s3 : Discovery) :
  discovery_step d s1 s2 -> discovery_step d s2 s3 -> discovery_step d s1 s3.
Proof.
  intros [L1 [[a1 [U1 A1]] [n1 [H1 R1]]]] [L2 [[a2 [U2 A2]] [n2 [H2 R2]]]].
  repeat split.
  - congruence.
  - exists (a1 ++ a2). rewrite U2, U1, app_assoc. split; [reflexivity |].
    apply Forall_app; auto.
  - exists (n1 ++ n2). rewrite H2, H1, app_assoc. split; [reflexivity |].
    apply Forall_app; split; [assumption |]. rewrite <- L1. exact R2.
Qed.

Lemma emit_step (e : Event) (s : Discovery) :
  is_request e = false -> discovery_step d s (snd (emit e s)).
Proof.
  intros He. unfold emit. simpl. repeat split.
  - exists []. rewrite app_nil_r. auto.
  - eexists. split; [reflexivity |]. constructor; [| constructor].
    unfold request_in_time. simpl. congruence.
Qed.

Lemma call_log_step (log_callback : bool) (msg : string) (s : Discovery) :
  discovery_step d s (snd (call_log emit log_callback msg s)).
Proof.
  unfold call_log. destruct log_callback.
  - apply emit_step. reflexivity.
  - apply discovery_step_refl.
Qed.

Lemma do_request_step (w : World) (u : string) (s : Discovery) :
  limit_reached (collector s) = false ->
  discovery_step d s (snd (do_request w u s)).
Proof.
  intros Hfree. apply limit_reached_false in Hfree.
  unfold do_request. simpl. repeat split.
  - exists []. rewrite app_nil_r. auto.
  - eexists. split; [reflexivity |]. constructor; [| constructor].
    unfold request_in_time. simpl. intros _. exact Hfree.
Qed.

Lemma collector_add_urls_step (new_urls : list string) (s : Discovery) :
  Forall (fun u => is_allowed u d = true) new_urls ->
  discovery_step d s (snd (collector_add_urls new_urls s)).
Proof.
  intros Hall. unfold collector_add_urls.
  pose proof (add_urls_limit (collector s) new_urls) as Hl.
  destruct (add_urls_appends (collector s) new_urls) as [added [dropped [Hu [Hn _]]]].
  destruct (add_urls (collector s) new_urls) as [r c]. simpl in *.
  repeat split.
  - exact Hl.
  - exists added. split; [exact Hu |].
    rewrite Hn in Hall. apply Forall_app in Hall. tauto.
  - exists []. rewrite app_nil_r. auto.
Qed.

End DiscoverySteps.

Create HintDb discovery.
#[local] Hint Resolve discovery_step_refl filter_is_allowed_Forall : discovery.

(** [next_action d] names the state that the first action of the goal's
    computation leaves behind and records the step it made;
    [chain_steps] then composes the recorded steps. *)
Ltac next_action d :=
  let H := fresh "Hstep" in
  match goal with
  | |- context [emit ?ev ?s0] =>
      pose proof (emit_step d ev s0 eq_refl) as H;
      destruct (emit ev s0) as [[] ?]
  | |- context [call_log emit ?cb ?m ?s0] =>
      pose proof (call_log_step d cb m s0) as H;
      destruct (call_log emit cb m s0) as [[] ?]
  | |- context [collector_add_urls ?new ?s0] =>
      pose proof (collector_add_urls_step d new s0 (filter_is_allowed_Forall d _)) as H;
      destruct (collector_add_urls new s0) as [? ?]
  end;
  cbn [snd] in H.

Ltac chain_steps :=
  cbn [snd];
  repeat (eapply discovery_step_trans; [eassumption |]);
  eauto with discovery.

Section DiscoveryInvariant.

Variable d : list string.
Variable w : World.
Variable log_callback : bool.

Lemma sitemap_tags_loop_step (recur : string -> M Discovery (Run (list string))) :
  (forall u s, discovery_step d s (snd (recur u s))) ->
  forall tags s,
    discovery_step d s (snd (sitemap_tags_loop recur log_callback tags s)).
Proof.
  intros Hrec tags. induction tags as [| tag rest IH]; intros s; cbn [sitemap_tags_loop].
  - apply discovery_step_refl.
  - unfold bind, get_collector.
    destruct (limit_reached (collector s)); [apply discovery_step_refl |].
    destruct (Bs4.find (Bs4.name_endswith "loc") tag) as [loc_tag |]; [| apply IH].
    next_action d.
    match goal with |- context [recur ?u ?s0] =>
      pose proof (Hrec u s0) as Hsub; destruct (recur u s0) as [[] s2]; cbn [snd] in Hsub
    end.
    + eapply discovery_step_trans; [eassumption |].
      eapply discovery_step_trans; [eassumption | apply IH].
    + chain_steps.
Qed.

Lemma get_sitemap_urls_step :
  forall fuel u s,
    discovery_step d s (snd (get_sitemap_urls fuel w u d log_callback s)).
Proof.
  induction fuel as [| fuel IH]; intros u s; cbn [get_sitemap_urls].
  - apply discovery_step_refl.
  - unfold bind, get_collector.
    destruct (limit_reached (collector s)) eqn:Hfull; [apply discovery_step_refl |].
    pose proof (do_request_step d w u s Hfull) as Hreq.
    destruct (do_request w u s) as [[e | resp] s1]; cbn [snd] in Hreq.
    { do 2 next_action d. chain_steps. }
    do 2 next_action d.
    destruct (Bs4.find (Bs4.name_endswith "sitemapindex") (soup resp)) as [index_tag |].
    { match goal with |- context [sitemap_tags_loop ?rc log_callback ?tags ?s0] =>
        pose proof (sitemap_tags_loop_step rc (fun u0 s0 => IH u0 s0) tags s0) as Hloop;
        destruct (sitemap_tags_loop rc log_callback tags s0) as [[] s4]; cbn [snd] in Hloop
      end; chain_steps. }
    destruct (Bs4.find (Bs4.name_endswith "urlset") (soup resp)) as [urlset_tag |];
      do 2 next_action d; chain_steps.
Qed.

End DiscoveryInvariant.

(** ** Discovery: single steps *)

Lemma get_sitemap_urls_full (fuel : nat) (w : World) (u : string) (d : list string)
  (log_callback : bool) (s : Discovery) :
  limit_reached (collector s) = true ->
  get_sitemap_urls (S fuel) w u d log_callback s = (Returns (urls (collector s)), s).
Proof.
  intros Hfull. simpl. unfold bind, get_collector. rewrite Hfull. reflexivity.
Qed.

Lemma sitemap_tags_loop_full (recur : string -> M Discovery (Run (list string)))
  (log_callback : bool) (tags : list Node) (s : Discovery) :
  limit_reached (collector s) = true ->
  sitemap_tags_loop recur log_callback tags s = (Returns tt, s).
Proof.
  intros Hfull. destruct tags as [| tag rest]; simpl; [reflexivity |].
  unfold bind, get_collector. rewrite Hfull. reflexivity.
Qed.

(** The state the url-set branch leaves behind. *)
Lemma get_sitemap_urls_urlset (fuel : nat) (w : World) (u : string) (d : list string)
  (log_callback : bool) (s : Discovery) (resp : Response) (urlset_tag : Node) :
  limit_reached (collector s) = false ->
  requests_get w (asked s) u = inr resp ->
  Bs4.find (Bs4.name_endswith "sitemapindex") (soup resp) = None ->
  Bs4.find (Bs4.name_endswith "urlset") (soup resp) = Some urlset_tag ->
  let locs := map Bs4.get_text_strip (Bs4.find_all (Bs4.name_endswith "loc") urlset_tag) in
  let '(r, s') := get_sitemap_urls (S fuel) w u d log_callback s in
  collector s' = snd (add_urls (collector s) (filter (fun x => is_allowed x d) locs)) /\
  r = Returns (urls (collector s')).
Proof.
  intros Hfree Hok Hindex Hset. simpl. unfold bind, get_collector, do_request.
  rewrite Hfree, Hok. unfold call_log, emit, ret, collector_add_urls.
  destruct log_callback; simpl; rewrite Hindex, Hset; simpl;
    destruct (add_urls (collector s) _) as [b c]; simpl; split; reflexivity.
Qed.

(** C3. With a limit > 0: a call of [get_sitemap_urls] on a full collector
    returns the collected list at once and does nothing else; the loop over
    the sub-sitemaps of an index stops at once when the collector is full;
    and in every run, each request was issued at a moment when the
    collector held fewer URLs than the limit. *)
Theorem C3_no_fetch_once_limit_reached :
  forall (fuel : nat) (w : World) (sitemap_url : string) (disallowed : list string)
         (log_callback : bool) (s : Discovery),
    0 < limit (collector s) ->
    (limit (collector s) <= Py.len (urls (collector s)) ->
     get_sitemap_urls (S fuel) w sitemap_url disallowed log_callback s
       = (Returns (urls (collector s)), s) /\
     forall recur tags,
       sitemap_tags_loop recur log_callback tags s = (Returns tt, s)) /\
    (exists new,
       history (snd (get_sitemap_urls fuel w sitemap_url disallowed log_callback s))
         = history s ++ new /\
       Forall (fun en => is_request (event en) = true ->
                         held en < limit (collector s)) new).
Proof.
  intros fuel w u d cb s Hpos. split.
  - intros Hfull.
    assert (Hr : limit_reached (collector s) = true)
      by (apply limit_reached_true; lia).
    split.
    + apply get_sitemap_urls_full. exact Hr.
    + intros recur tags. apply sitemap_tags_loop_full. exact Hr.
  - destruct (get_sitemap_urls_step d w cb fuel u s) as [_ [_ [new [Hh Hn]]]].
    exists new. split; [exact Hh |].
    eapply Forall_impl; [| exact Hn].
    intros en Hen Hreq. destruct (Hen Hreq); [lia | assumption].
Qed.

Lemma C3_no_fetch_once_limit_reached_witness :
  let s := {| collector := {| limit := 2; urls := ["https://ex.org/a1"; "https://ex.org/a3"] |};
              history := []; asked := 2%nat |} in
  (limit (collector s) <= Py.len (urls (collector s)) ->
   get_sitemap_urls 3 (sample_world 9 0) "https://ex.org/b.xml" ["/private/"] true s
     = (Returns (urls (collector s)), s) /\
   forall recur tags,
     sitemap_tags_loop recur true tags s = (Returns tt, s)) /\
  (exists new,
     history (snd (get_sitemap_urls 2 (sample_world 9 0) "https://ex.org/b.xml"
                     ["/private/"] true s))
       = history s ++ new /\
     Forall (fun en => is_request (event en) = true ->
                       held en < limit (collector s)) new).
Proof.
  intros s.
  apply (C3_no_fetch_once_limit_reached 2 (sample_world 9 0) "https://ex.org/b.xml"
           ["/private/"] true s).
  simpl. lia.
Defined.

(** ** Discovery: a failed branch *)

Lemma stamped_app (c : URLCollector) (a b : list Event) :
  stamped c (a ++ b) = stamped c a ++ stamped c b.
Proof. unfold stamped. apply map_app. Qed.

(** The state a failed request leaves behind, in full. *)
Lemma get_sitemap_urls_failed (fuel : nat) (w : World) (u : string) (d : list string)
  (log_callback : bool) (s : Discovery) (e : string) :
  limit_reached (collector s) = false ->
  requests_get w (asked s) u = inl e ->
  get_sitemap_urls (S fuel) w u d log_callback s
    = (Returns [], after_events s (failed_fetch u e log_callback)).
Proof.
  intros Hfree Hfail. cbn [get_sitemap_urls]. unfold bind, get_collector, do_request.
  rewrite Hfree, Hfail. unfold call_log, emit, ret, after_events, failed_fetch, logged, stamped.
  destruct log_callback; cbn [collector history asked map filter is_request List.length];
    rewrite <- !app_assoc, Nat.add_1_r; reflexivity.
Qed.

(** The entry of an index whose request fails: the loop goes on with the
    entries after it. *)
Lemma sitemap_tags_loop_failed (fuel : nat) (w : World) (u : string) (d : list string)
  (log_callback : bool) (s : Discovery) (e : string) (tag loc_tag : Node) (rest : list Node) :
  limit_reached (collector s) = false ->
  requests_get w (asked s) u = inl e ->
  Bs4.find (Bs4.name_endswith "loc") tag = Some loc_tag ->
  Py.strip (Bs4.text loc_tag) = u ->
  let recur := fun u0 => get_sitemap_urls (S fuel) w u0 d log_callback in
  sitemap_tags_loop recur log_callback (tag :: rest) s
  = sitemap_tags_loop recur log_callback rest
      (after_events s (announced log_callback u ++ failed_fetch u e log_callback)).
Proof.
  intros Hfree Hfail Hloc Hurl recur.
  cbn [sitemap_tags_loop]. unfold bind at 1. unfold get_collector.
  rewrite Hfree, Hloc, Hurl. unfold bind at 1.
  assert (Hlog : call_log emit log_callback
                   (String.concat "" ["[INFO] Traitement du sous-sitemap: "; u]) s
                 = (tt, after_events s (announced log_callback u))).
  { unfold call_log, emit, ret, after_events, announced, stamped.
    destruct log_callback; cbn [map filter is_request List.length];
      rewrite ?app_nil_r, ?Nat.add_0_r; [reflexivity | destruct s; reflexivity]. }
  rewrite Hlog. unfold bind at 1. unfold recur at 1.
  rewrite (get_sitemap_urls_failed fuel w u d log_callback _ e).
  - f_equal. unfold after_events. cbn [collector history asked].
    rewrite stamped_app, filter_app, length_app, <- app_assoc, Nat.add_assoc. reflexivity.
  - exact Hfree.
  - cbn [after_events asked]. unfold announced.
    destruct log_callback; cbn [filter is_request List.length]; rewrite Nat.add_0_r; exact Hfail.
Qed.

(** A call that finds the collector not full begins with its request; the
    rest of the call only adds to the trace. *)
Lemma get_sitemap_urls_requests (fuel : nat) (w : World) (u : string) (d : list string)
  (log_callback : bool) (s : Discovery) :
  limit_reached (collector s) = false ->
  exists more,
    history (snd (get_sitemap_urls (S fuel) w u d log_callback s))
    = history s ++ stamped (collector s) [Request u] ++ more.
Proof.
  intros Hfree.
  assert (Hstep : discovery_step d (snd (do_request w u s))
                    (snd (get_sitemap_urls (S fuel) w u d log_callback s))).
  { cbn [get_sitemap_urls]. unfold bind, get_collector. rewrite Hfree.
    destruct (do_request w u s) as [[e | resp] s1]; cbn [snd].
    { do 2 next_action d. chain_steps. }
    do 2 next_action d.
    destruct (Bs4.find (Bs4.name_endswith "sitemapindex") (soup resp)) as [index_tag |].
    { match goal with |- context [sitemap_tags_loop ?rc log_callback ?tags ?s0] =>
        pose proof (sitemap_tags_loop_step d log_callback rc
                      (fun u0 s0 => get_sitemap_urls_step d w log_callback fuel u0 s0)
                      tags s0) as Hloop;
        destruct (sitemap_tags_loop rc log_callback tags s0) as [[] s4]; cbn [snd] in Hloop
      end; chain_steps. }
    destruct (Bs4.find (Bs4.name_endswith "urlset") (soup resp)) as [urlset_tag |];
      do 2 next_action d; chain_steps. }
  destruct Hstep as [_ [_ [more [Hh _]]]].
  exists more. rewrite Hh. unfold do_request. cbn [snd history stamped map].
  rewrite <- app_assoc. reflexivity.
Qed.

(** C7. When the request for a sitemap node fails: the call returns
    normally, with an empty list; it leaves the collector as it was and
    the request and the error line in the trace; the loop over the
    sub-sitemaps of an index goes on with the entries after the failed
    one, from that same collector; the entry that follows the failed one
    is requested next; and resolution as a whole returns normally, with an
    empty list, when it is the root sitemap that fails. *)
Theorem C7_failed_fetch_contributes_nothing :
  forall (fuel : nat) (w : World) (sitemap_url : string) (disallowed : list string)
         (log_callback : bool) (s : Discovery) (e : string),
    limit_reached (collector s) = false ->
    requests_get w (asked s) sitemap_url = inl e ->
    let recur := fun u => get_sitemap_urls (S fuel) w u disallowed log_callback in
    let failed := failed_fetch sitemap_url e log_callback in
    get_sitemap_urls (S fuel) w sitemap_url disallowed log_callback s
      = (Returns [], after_events s failed) /\
    collector (after_events s failed) = collector s /\
    (forall tag rest loc_tag,
       Bs4.find (Bs4.name_endswith "loc") tag = Some loc_tag ->
       Py.strip (Bs4.text loc_tag) = sitemap_url ->
       sitemap_tags_loop recur log_callback (tag :: rest) s
         = sitemap_tags_loop recur log_callback rest
             (after_events s (announced log_callback sitemap_url ++ failed))) /\
    (forall tag next rest loc_tag loc_next,
       Bs4.find (Bs4.name_endswith "loc") tag = Some loc_tag ->
       Py.strip (Bs4.text loc_tag) = sitemap_url ->
       Bs4.find (Bs4.name_endswith "loc") next = Some loc_next ->
       let next_url := Py.strip (Bs4.text loc_next) in
       exists more,
         history (snd (sitemap_tags_loop recur log_callback (tag :: next :: rest) s))
         = history s
           ++ stamped (collector s)
                (announced log_callback sitemap_url ++ failed
                 ++ announced log_callback next_url ++ [Request next_url])
           ++ more) /\
    (forall limit,
       Py.str_in ".xml" (Py.lower sitemap_url) = true ->
       requests_get w O sitemap_url = inl e ->
       fst (get_allowed_urls (S fuel) w sitemap_url disallowed limit log_callback)
         = Returns []).
Proof.
  intros fuel w u d cb s e Hfree Hfail recur failed.
  split; [exact (get_sitemap_urls_failed fuel w u d cb s e Hfree Hfail) |].
  split; [reflexivity |].
  split; [intros tag rest loc_tag Hloc Hurl;
          exact (sitemap_tags_loop_failed fuel w u d cb s e tag loc_tag rest
                   Hfree Hfail Hloc Hurl) |].
  split.
  - intros tag next rest loc_tag loc_next Hloc Hurl Hnext next_url.
    unfold recur.
    rewrite (sitemap_tags_loop_failed fuel w u d cb s e tag loc_tag (next :: rest)
               Hfree Hfail Hloc Hurl).
    fold recur. fold failed. set (s2 := after_events s (announced cb u ++ failed)).
    cbn [sitemap_tags_loop]. unfold bind at 1. unfold get_collector.
    replace (limit_reached (collector s2)) with false by (symmetry; exact Hfree).
    rewrite Hnext. fold next_url. unfold bind at 1.
    assert (Hlog : call_log emit cb
                     (String.concat "" ["[INFO] Traitement du sous-sitemap: "; next_url]) s2
                   = (tt, after_events s2 (announced cb next_url))).
    { unfold call_log, emit, ret, after_events, announced, stamped.
      destruct cb; cbn [map filter is_request List.length];
        rewrite ?app_nil_r, ?Nat.add_0_r; [reflexivity | destruct s2; reflexivity]. }
    rewrite Hlog. set (s3 := after_events s2 (announced cb next_url)).
    unfold bind at 1.
    destruct (get_sitemap_urls_requests fuel w next_url d cb s3 Hfree) as [more1 Hreq].
    fold (recur next_url) in Hreq.
    destruct (recur next_url s3) as [r s4]. cbn [snd] in Hreq.
    assert (Hend : exists more2,
               history (snd (match r with
                             | Returns _ => sitemap_tags_loop recur cb rest
                             | OutOfFuel => ret OutOfFuel
                             end s4)) = history s4 ++ more2).
    { destruct r as [l |].
      - destruct (sitemap_tags_loop_step d cb recur
                    (fun u0 s0 => get_sitemap_urls_step d w cb (S fuel) u0 s0) rest s4)
          as [_ [_ [more2 [Hh _]]]].
        exists more2. exact Hh.
      - exists []. rewrite app_nil_r. reflexivity. }
    destruct Hend as [more2 Hend]. exists (more1 ++ more2).
    rewrite Hend, Hreq. unfold s3, s2, after_events. cbn [collector history].
    rewrite !stamped_app, <- !app_assoc. reflexivity.
  - intros lim Hxml Hroot. unfold get_allowed_urls. rewrite Hxml. unfold bind at 1.
    rewrite (get_sitemap_urls_failed fuel w u d cb _ e);
      [reflexivity | | exact Hroot].
    apply limit_reached_false. unfold URLCollector_init, Py.len.
    cbn [collector limit urls List.length]. lia.
Qed.

Lemma C7_failed_fetch_contributes_nothing_witness :
  let s := {| collector := {| limit := 4; urls := ["https://ex.org/a1"] |};
              history := []; asked := 2%nat |} in
  let w := sample_world 9 0 in
  let sitemap_url := "https://ex.org/gone.xml" in
  let recur := fun u => get_sitemap_urls 3 w u ["/private/"] true in
  let failed := failed_fetch sitemap_url "404 Client Error: Not Found" true in
  get_sitemap_urls 3 w sitemap_url ["/private/"] true s
    = (Returns [], after_events s failed) /\
  collector (after_events s failed) = collector s /\
  (forall tag rest loc_tag,
     Bs4.find (Bs4.name_endswith "loc") tag = Some loc_tag ->
     Py.strip (Bs4.text loc_tag) = sitemap_url ->
     sitemap_tags_loop recur true (tag :: rest) s
       = sitemap_tags_loop recur true rest
           (after_events s (announced true sitemap_url ++ failed))) /\
  (forall tag next rest loc_tag loc_next,
     Bs4.find (Bs4.name_endswith "loc") tag = Some loc_tag ->
     Py.strip (Bs4.text loc_tag) = sitemap_url ->
     Bs4.find (Bs4.name_endswith "loc") next = Some loc_next ->
     let next_url := Py.strip (Bs4.text loc_next) in
     exists more,
       history (snd (sitemap_tags_loop recur true (tag :: next :: rest) s))
       = history s
         ++ stamped (collector s)
              (announced true sitemap_url ++ failed
               ++ announced true next_url ++ [Request next_url])
         ++ more) /\
  (forall limit,
     Py.str_in ".xml" (Py.lower sitemap_url) = true ->
     requests_get w O sitemap_url = inl "404 Client Error: Not Found" ->
     fst (get_allowed_urls 3 w sitemap_url ["/private/"] limit true) = Returns []).
Proof.
  intros s w sitemap_url.
  apply (C7_failed_fetch_contributes_nothing 2 w sitemap_url ["/private/"] true s
           "404 Client Error: Not Found").
  - reflexivity.
  - reflexivity.
Defined.

(** The failing third entry of the sample index, with the collector
    holding three URLs of at most five: the fourth entry is requested
    after it, and its two allowed URLs fill the collector. *)
Example failed_branch_then_sibling :
  let s := {| collector := {| limit := 5; urls := ["https://ex.org/b1"; "https://ex.org/b2";
                                                   "https://ex.org/b3"] |};
              history := []; asked := 3%nat |} in
  let recur := fun u => get_sitemap_urls 3 (sample_world 9 0) u ["/private/"] false in
  let s' := snd (sitemap_tags_loop recur false
                   [Tag "sitemap" [] [loc "https://ex.org/gone.xml"];
                    Tag "sitemap" [] [loc "https://ex.org/a.xml"]] s) in
  filter is_request (map event (history s'))
    = [Request "https://ex.org/gone.xml"; Request "https://ex.org/a.xml"] /\
  urls (collector s')
    = ["https://ex.org/b1"; "https://ex.org/b2"; "https://ex.org/b3";
       "https://ex.org/a1"; "https://ex.org/a3"].
Proof. vm_compute. split; reflexivity. Qed.

(** ** Filtering *)

Lemma single_url_path (fuel : nat) (w : World) (u : string) (d : list string)
  (lim : Z) (log_callback : bool) :
  Py.str_in ".xml" (Py.lower u) = false ->
  fst (get_allowed_urls fuel w u d lim log_callback)
    = Returns (if is_allowed u d then [u] else []).
Proof.
  intros Hpage. unfold get_allowed_urls. rewrite Hpage.
  unfold bind, get_collector, collector_add_urls, call_log, emit, ret.
  destruct (is_allowed u d); [| reflexivity].
  assert (Hadd : add_urls (URLCollector_init lim) [u]
                 = (true, {| limit := lim; urls := [u] |})).
  { unfold add_urls, URLCollector_init, extend, Py.len. simpl.
    destruct (Z.leb_spec lim 0); [reflexivity |].
    destruct (Z.leb_spec (lim - 0) 0); [lia |].
    destruct (Z.gtb_spec 1 (lim - 0)); [lia | reflexivity]. }
  simpl. rewrite Hadd. destruct log_callback; reflexivity.
Qed.

Lemma get_allowed_urls_result (fuel : nat) (w : World) (u : string) (d : list string)
  (lim : Z) (log_callback : bool) :
  let '(r, s) := get_allowed_urls fuel w u d lim log_callback in
  (forall l, r = Returns l -> l = urls (collector s)) /\
  discovery_step d (start_discovery lim) s.
Proof.
  unfold get_allowed_urls. fold (start_discovery lim).
  destruct (Py.str_in ".xml" (Py.lower u)).
  - unfold bind.
    pose proof (get_sitemap_urls_step d w log_callback fuel u (start_discovery lim)) as H.
    destruct (get_sitemap_urls fuel w u d log_callback (start_discovery lim)) as [r s].
    simpl in H. destruct r; unfold get_collector, ret; simpl.
    + split; [intros l Hl; congruence | exact H].
    + split; [intros l Hl; discriminate | exact H].
  - unfold bind. destruct (is_allowed u d) eqn:Ha.
    + unfold bind.
      assert (Hf : Forall (fun x => is_allowed x d = true) [u]) by (constructor; auto).
      pose proof (collector_add_urls_step d [u] (start_discovery lim) Hf) as H1.
      destruct (collector_add_urls [u] (start_discovery lim)) as [b s1]. simpl in H1.
      match goal with |- context [call_log emit log_callback ?m s1] =>
        pose proof (call_log_step d log_callback m s1) as H2;
        destruct (call_log emit log_callback m s1) as [[] s2] end.
      simpl in H2. unfold get_collector, ret. simpl.
      split; [intros l Hl; congruence |].
      eapply discovery_step_trans; eassumption.
    + unfold ret, get_collector. simpl.
      split; [intros l Hl; congruence | apply discovery_step_refl].
Qed.

(** C6. [is_allowed] rejects a URL exactly when some configured fragment
    occurs in it as a (case-sensitive) substring. On the single-URL path the
    result is the URL itself when it is allowed and nothing when it is not,
    whatever the limit. On the url-set path the collector receives the
    allowed [loc] texts in document order, all of them when there is no
    limit or room for all, else the first ones up to the limit. And
    whatever the entry point, no URL of the final collector contains a
    fragment. *)
Theorem C6_disallowed_fragments_filtered :
  forall (fuel : nat) (w : World) (disallowed : list string) (log_callback : bool),
    (forall u, is_allowed u disallowed = false <->
               exists fragment, In fragment disallowed /\ Substring fragment u) /\
    (forall u lim,
       Py.str_in ".xml" (Py.lower u) = false ->
       fst (get_allowed_urls fuel w u disallowed lim log_callback)
         = Returns (if is_allowed u disallowed then [u] else [])) /\
    (forall u s resp urlset_tag,
       limit_reached (collector s) = false ->
       requests_get w (asked s) u = inr resp ->
       Bs4.find (Bs4.name_endswith "sitemapindex") (soup resp) = None ->
       Bs4.find (Bs4.name_endswith "urlset") (soup resp) = Some urlset_tag ->
       let locs := map Bs4.get_text_strip
                     (Bs4.find_all (Bs4.name_endswith "loc") urlset_tag) in
       let c' := collector (snd (get_sitemap_urls (S fuel) w u disallowed log_callback s)) in
       exists added dropped,
         urls c' = urls (collector s) ++ added /\
         filter (fun x => is_allowed x disallowed) locs = added ++ dropped /\
         (forall x, In x added ->
                    In x locs /\ forall f, In f disallowed -> ~ Substring f x) /\
         (limit (collector s) <= 0 \/
          Py.len (urls (collector s))
            + Py.len (filter (fun x => is_allowed x disallowed) locs)
            <= limit (collector s) ->
          forall x, In x locs -> (forall f, In f disallowed -> ~ Substring f x) ->
                    In x added)) /\
    (forall u lim x,
       In x (urls (collector (snd (get_allowed_urls fuel w u disallowed lim log_callback)))) ->
       forall f, In f disallowed -> ~ Substring f x).
Proof.
  intros fuel w d cb. repeat split.
  - apply is_allowed_false.
  - apply is_allowed_false.
  - intros u lim Hpage. apply single_url_path. exact Hpage.
  - intros u s resp urlset_tag Hfree Hok Hindex Hset locs c'.
    pose proof (get_sitemap_urls_urlset fuel w u d cb s resp urlset_tag
                  Hfree Hok Hindex Hset) as H.
    cbv zeta in H. fold locs in H.
    unfold c'. destruct (get_sitemap_urls (S fuel) w u d cb s) as [r s'].
    destruct H as [Hc _]. simpl. rewrite Hc.
    destruct (add_urls_appends (collector s) (filter (fun x => is_allowed x d) locs))
      as [added [dropped [Hu [Hn Hroom]]]].
    exists added, dropped. repeat split.
    + exact Hu.
    + exact Hn.
    + assert (Hin : In x (filter (fun x => is_allowed x d) locs))
        by (rewrite Hn; apply in_or_app; auto).
      apply filter_In in Hin. tauto.
    + assert (Hin : In x (filter (fun x => is_allowed x d) locs))
        by (rewrite Hn; apply in_or_app; auto).
      apply filter_In in Hin. apply is_allowed_spec. tauto.
    + intros Hr x Hx Hfree'. specialize (Hroom Hr). subst dropped.
      rewrite app_nil_r in Hn. rewrite <- Hn. apply filter_In. split; [exact Hx |].
      apply is_allowed_spec. exact Hfree'.
  - intros u lim x Hx.
    pose proof (get_allowed_urls_result fuel w u d lim cb) as H.
    destruct (get_allowed_urls fuel w u d lim cb) as [r s].
    destruct H as [_ [_ [[added [Hu Ha]] _]]]. simpl in Hx, Hu.
    rewrite Hu in Hx. rewrite Forall_forall in Ha.
    apply is_allowed_spec. apply Ha. exact Hx.
Qed.

Lemma C6_disallowed_fragments_filtered_witness :
  fst (get_allowed_urls 3 (sample_world 100 0) "https://ex.org/private/a2" ["/private/"] 4 true)
    = Returns [] /\
  fst (get_allowed_urls 3 (sample_world 100 0) "https://ex.org/a1" ["/private/"] 4 true)
    = Returns ["https://ex.org/a1"] /\
  (let locs := map Bs4.get_text_strip
                 (Bs4.find_all (Bs4.name_endswith "loc") sample_urlset_a) in
   let c' := collector (snd (get_sitemap_urls 2 (sample_world 100 0) "https://ex.org/a.xml"
                               ["/private/"] true (start_discovery 4))) in
   exists added dropped,
     urls c' = urls (collector (start_discovery 4)) ++ added /\
     filter (fun x => is_allowed x ["/private/"]) locs = added ++ dropped /\
     (forall x, In x added ->
                In x locs /\ forall f, In f ["/private/"] -> ~ Substring f x) /\
     (limit (collector (start_discovery 4)) <= 0 \/
      Py.len (urls (collector (start_discovery 4)))
        + Py.len (filter (fun x => is_allowed x ["/private/"]) locs)
        <= limit (collector (start_discovery 4)) ->
      forall x, In x locs -> (forall f, In f ["/private/"] -> ~ Substring f x) ->
                In x added)).
Proof.
  destruct (C6_disallowed_fragments_filtered 1 (sample_world 100 0) ["/private/"] true)
    as [_ [Hsingle [Hset _]]].
  split; [| split].
  - exact (Hsingle "https://ex.org/private/a2" 4 eq_refl).
  - exact (Hsingle "https://ex.org/a1" 4 eq_refl).
  - exact (Hset "https://ex.org/a.xml" (start_discovery 4)
             {| status_code := 200; soup := sample_leaf_a |} sample_urlset_a
             eq_refl eq_refl eq_refl eq_refl).
Defined.

(** C9. With an empty disallowed list [is_allowed] is [True] for every
    URL; the single-URL path returns the URL; and the url-set path hands
    every [loc] text to the collector. *)
Theorem C9_empty_disallowed_allows_all :
  forall (fuel : nat) (w : World) (log_callback : bool),
    (forall u, is_allowed u [] = true) /\
    (forall u lim,
       Py.str_in ".xml" (Py.lower u) = false ->
       fst (get_allowed_urls fuel w u [] lim log_callback) = Returns [u]) /\
    (forall u s resp urlset_tag,
       limit_reached (collector s) = false ->
       requests_get w (asked s) u = inr resp ->
       Bs4.find (Bs4.name_endswith "sitemapindex") (soup resp) = None ->
       Bs4.find (Bs4.name_endswith "urlset") (soup resp) = Some urlset_tag ->
       let locs := map Bs4.get_text_strip
                     (Bs4.find_all (Bs4.name_endswith "loc") urlset_tag) in
       collector (snd (get_sitemap_urls (S fuel) w u [] log_callback s))
         = snd (add_urls (collector s) locs)).
Proof.
  intros fuel w cb. repeat split.
  - intros u lim Hpage. rewrite single_url_path by exact Hpage. reflexivity.
  - intros u s resp urlset_tag Hfree Hok Hindex Hset locs.
    pose proof (get_sitemap_urls_urlset fuel w u [] cb s resp urlset_tag
                  Hfree Hok Hindex Hset) as H.
    cbv zeta in H. fold locs in H.
    destruct (get_sitemap_urls (S fuel) w u [] cb s) as [r s'].
    destruct H as [Hc _]. simpl. rewrite Hc, filter_is_allowed_nil. reflexivity.
Qed.

Lemma C9_empty_disallowed_allows_all_witness :
  is_allowed "https://ex.org/private/a2" [] = true /\
  fst (get_allowed_urls 3 (sample_world 100 0) "https://ex.org/private/a2" [] 4 true)
    = Returns ["https://ex.org/private/a2"] /\
  collector (snd (get_sitemap_urls 2 (sample_world 100 0) "https://ex.org/a.xml" [] true
                    (start_discovery 4)))
    = snd (add_urls (collector (start_discovery 4))
             (map Bs4.get_text_strip
                (Bs4.find_all (Bs4.name_endswith "loc") sample_urlset_a))).
Proof.
  destruct (C9_empty_disallowed_allows_all 1 (sample_world 100 0) true)
    as [Hall [Hsingle Hset]].
  split; [| split].
  - exact (Hall "https://ex.org/private/a2").
  - exact (Hsingle "https://ex.org/private/a2" 4 eq_refl).
  - exact (Hset "https://ex.org/a.xml" (start_discovery 4)
             {| status_code := 200; soup := sample_leaf_a |} sample_urlset_a
             eq_refl eq_refl eq_refl eq_refl).
Defined.

(** ** [scrape_content] *)

Lemma wait_while_paused_run (w : World) :
  forall fuel s,
    let '(r, s') := wait_while_paused fuel w s in
    (exists k, events s' = events s ++ repeat PollSleep k) /\
    requested s' = requested s /\
    (reads s <= reads s')%nat /\
    (r = Returns false -> (reads s < reads s')%nat).
Proof.
  induction fuel as [| fuel IH]; intros s; simpl.
  - unfold ret. repeat split; [exists O; simpl; now rewrite app_nil_r | lia | discriminate].
  - unfold bind, read_pause.
    destruct (pause_is_set w (reads s)).
    + unfold task_emit, read_stop. cbn [events reads requested].
      destruct (stop_is_set w (S (reads s))).
      * unfold ret. cbn. repeat split; [exists 1%nat; reflexivity | lia | discriminate].
      * match goal with |- context [wait_while_paused fuel w ?s1] =>
          specialize (IH s1); destruct (wait_while_paused fuel w s1) as [r s'] end.
        cbn [events reads requested] in IH.
        destruct IH as [[k Hk] [Hq [Hr Hlt]]].
        repeat split; [| exact Hq | lia | intros; lia].
        exists (S k). rewrite Hk, <- app_assoc. reflexivity.
    + unfold ret. cbn. repeat split; [exists O; simpl; now rewrite app_nil_r | lia | intros; lia].
Qed.

Lemma fetch_soup_run (w : World) (url : string) (log_callback js_enabled : bool) (s : Task) :
  let '(r, s') := fetch_soup w url log_callback js_enabled s in
  reads s' = reads s /\
  ((r = None /\ fetch_fails w js_enabled (requested s) url /\
    exists msg, events s' = events s ++ fetch_event js_enabled url :: logged ERROR log_callback msg) \/
   (r <> None /\ ~ fetch_fails w js_enabled (requested s) url /\
    exists msg, events s' = events s ++ fetch_event js_enabled url :: logged INFO log_callback msg)).
Proof.
  unfold fetch_soup, fetch_fails, fetch_event, logged.
  destruct js_enabled.
  - unfold bind, task_render. destruct (playwright_content w url) as [e | content];
      unfold task_emit, call_log, ret; destruct log_callback; cbn;
      (split; [reflexivity |]).
    1,2: left; repeat split; [eexists; reflexivity |];
      eexists; rewrite <- ?app_assoc; reflexivity.
    1,2: right; repeat split; [discriminate | intros [e H]; discriminate |];
      eexists; rewrite <- ?app_assoc; reflexivity.
  - unfold bind, task_request. destruct (requests_get w (requested s) url) as [e | response];
      unfold task_emit, call_log, ret; destruct log_callback; cbn;
      (split; [reflexivity |]).
    1,2: left; repeat split; [eexists; reflexivity |];
      eexists; rewrite <- ?app_assoc; reflexivity.
    1,2: right; repeat split; [discriminate | intros [e H]; discriminate |];
      eexists; rewrite <- ?app_assoc; reflexivity.
Qed.

(** Every run of [scrape_content] has one of four shapes: it ends before
    the fetch; the fetch fails; it ends between the fetch and the delay; or
    it sleeps the delay and returns the record. *)
Lemma scrape_content_cases (fuel : nat) (w : World) (u : string) (min_delay max_delay : Q)
  (log_callback js_enabled : bool) (s : Task) :
  let '(r, s') := scrape_content fuel w u min_delay max_delay log_callback js_enabled s in
  (exists k1,
     (r = Returns None \/ r = OutOfFuel) /\
     events s' = events s ++ repeat PollSleep k1) \/
  (exists k1 msg,
     fetch_fails w js_enabled (requested s) u /\ r = Returns None /\
     events s' = events s ++ repeat PollSleep k1
                   ++ fetch_event js_enabled u :: logged ERROR log_callback msg) \/
  (exists k1 msg k2,
     ~ fetch_fails w js_enabled (requested s) u /\
     (r = Returns None \/ r = OutOfFuel) /\
     events s' = events s ++ repeat PollSleep k1
                   ++ fetch_event js_enabled u :: logged INFO log_callback msg
                   ++ repeat PollSleep k2) \/
  (exists k1 msg k2 msg2 data,
     ~ fetch_fails w js_enabled (requested s) u /\
     r = Returns (Some data) /\ (reads s + 4 <= reads s')%nat /\
     events s' = events s ++ repeat PollSleep k1
                   ++ fetch_event js_enabled u :: logged INFO log_callback msg
                   ++ repeat PollSleep k2
                   ++ (if log_callback then [LogCallback msg2] else [])
                   ++ [DelaySleep (uniform w min_delay max_delay)]).
Proof.
  unfold scrape_content. unfold bind at 1. unfold read_stop at 1.
  destruct (stop_is_set w (reads s)).
  { left. exists O. simpl. rewrite app_nil_r. auto. }
  unfold bind at 1.
  match goal with |- context [wait_while_paused fuel w ?s0] =>
    pose proof (wait_while_paused_run w fuel s0) as W1;
    destruct (wait_while_paused fuel w s0) as [r1 s1] end.
  cbn [events reads requested] in W1. destruct W1 as [[k1 E1] [Q1 [R1 L1]]].
  destruct r1 as [[|] |].
  1,3: left; exists k1; unfold ret; cbn; auto.
  specialize (L1 eq_refl).
  unfold bind at 1.
  pose proof (fetch_soup_run w u log_callback js_enabled s1) as F.
  destruct (fetch_soup w u log_callback js_enabled s1) as [r2 s2].
  rewrite Q1 in F.
  destruct F as [R2 [[Hnone [Hfail [msg E2]]] | [Hsome [Hok [msg E2]]]]].
  { subst r2. right. left. exists k1, msg. unfold ret. cbn.
    repeat split; [exact Hfail |]. rewrite E2, E1, <- app_assoc. reflexivity. }
  destruct r2 as [page |]; [| congruence].
  unfold bind at 1. unfold read_stop at 1.
  destruct (stop_is_set w (reads s2)).
  { right. right. left. exists k1, msg, O. unfold ret. cbn.
    repeat split; [exact Hok | auto |].
    rewrite E2, E1, <- app_assoc, app_nil_r. reflexivity. }
  unfold bind at 1.
  match goal with |- context [wait_while_paused fuel w ?s0] =>
    pose proof (wait_while_paused_run w fuel s0) as W3;
    destruct (wait_while_paused fuel w s0) as [r3 s3] end.
  cbn [events reads requested] in W3. destruct W3 as [[k2 E3] [Q3 [R3 L3]]].
  assert (E : events s3 = events s ++ repeat PollSleep k1
                            ++ fetch_event js_enabled u :: logged INFO log_callback msg
                            ++ repeat PollSleep k2).
  { rewrite E3, E2, E1, <- !app_assoc. reflexivity. }
  destruct r3 as [[|] |].
  1,3: right; right; left; exists k1, msg, k2; unfold ret; cbn; auto.
  specialize (L3 eq_refl).
  match goal with |- context [call_log task_emit log_callback ?m] => set (msg2 := m) end.
  unfold bind, call_log, task_emit, ret.
  destruct log_callback; cbn [events reads requested];
    right; right; right;
    eexists k1, msg, k2, msg2, _; (repeat split; [exact Hok | lia |]);
    rewrite E, <- !app_assoc; cbn; rewrite <- ?app_assoc; reflexivity.
Qed.

Lemma no_delay_polls (k : nat) :
  Forall (fun e => is_delay e = false) (repeat PollSleep k).
Proof. apply Forall_forall. intros e H. apply repeat_spec in H. now subst. Qed.

Lemma no_delay_logged (lv : Level) (cb : bool) (msg : string) :
  Forall (fun e => is_delay e = false) (logged lv cb msg).
Proof. unfold logged. destruct cb; repeat constructor. Qed.

Lemma no_delay_fetch_event (js : bool) (u : string) :
  is_delay (fetch_event js u) = false.
Proof. destruct js; reflexivity. Qed.

Lemma no_delay_not_in (l : list Event) (d : Q) :
  Forall (fun e => is_delay e = false) l -> ~ In (DelaySleep d) l.
Proof.
  intros H Hin. rewrite Forall_forall in H. specialize (H _ Hin). discriminate.
Qed.

Lemma no_delay_before_fetch (k : nat) (js : bool) (u : string) (lv : Level) (cb : bool)
  (msg : string) (rest : list Event) :
  Forall (fun e => is_delay e = false) rest ->
  Forall (fun e => is_delay e = false)
    (repeat PollSleep k ++ fetch_event js u :: logged lv cb msg ++ rest).
Proof.
  intros H. apply Forall_app. split; [apply no_delay_polls |].
  constructor; [apply no_delay_fetch_event |].
  apply Forall_app. split; [apply no_delay_logged | exact H].
Qed.

(** C5. Called with the stop flag already set, [scrape_content] returns
    the empty dict having emitted nothing: no request, no render, no
    sleep. *)
Theorem C5_stop_preset_no_network_call :
  forall (fuel : nat) (w : World) (u : string) (min_delay max_delay : Q)
         (log_callback js_enabled : bool) (s : Task),
    stop_is_set w (reads s) = true ->
    let '(r, s') := scrape_content fuel w u min_delay max_delay log_callback js_enabled s in
    r = Returns None /\ events s' = events s /\ requested s' = requested s.
Proof.
  intros fuel w u mn mx cb js s Hstop.
  unfold scrape_content, bind, read_stop. rewrite Hstop.
  unfold ret. cbn. auto.
Qed.

Lemma C5_stop_preset_no_network_call_witness :
  let '(r, s') := scrape_content 5 (sample_world 0 0) "https://ex.org/a1" 1 3 true false
                    start_task in
  r = Returns None /\ events s' = events start_task /\ requested s' = requested start_task.
Proof.
  apply (C5_stop_preset_no_network_call 5 (sample_world 0 0) "https://ex.org/a1" 1 3
           true false start_task).
  reflexivity.
Defined.

(** C10. When the fetch of [scrape_content] fails (the request or the
    browser render), the call never sleeps the politeness delay, and once
    the fetch was issued it returns the empty dict with nothing after the
    error lines. A politeness delay appears in a run only when the fetch
    succeeded: it is then the last thing the call does, after the fetch and
    after the second round of flag checks, and the call returns the
    record. *)
Theorem C10_no_delay_on_fetch_failure :
  forall (fuel : nat) (w : World) (u : string) (min_delay max_delay : Q)
         (log_callback js_enabled : bool),
    let '(r, s') := scrape_content fuel w u min_delay max_delay log_callback js_enabled
                      start_task in
    (fetch_fails w js_enabled 0 u ->
     (forall d, ~ In (DelaySleep d) (events s')) /\
     (In (fetch_event js_enabled u) (events s') ->
      r = Returns None /\
      exists k msg,
        events s' = repeat PollSleep k
                      ++ fetch_event js_enabled u :: logged ERROR log_callback msg)) /\
    (forall d, In (DelaySleep d) (events s') ->
       ~ fetch_fails w js_enabled 0 u /\
       (4 <= reads s')%nat /\
       exists data pre,
         r = Returns (Some data) /\
         events s' = pre ++ [DelaySleep d] /\
         In (fetch_event js_enabled u) pre /\
         (forall e, In e pre -> is_delay e = false)).
Proof.
  intros fuel w u mn mx cb js.
  pose proof (scrape_content_cases fuel w u mn mx cb js start_task) as H.
  destruct (scrape_content fuel w u mn mx cb js start_task) as [r s'].
  cbn [start_task events reads requested app Nat.add] in H.
  destruct H as [[k1 [Hr E]] | [[k1 [msg [Hfail [Hr E]]]] | [[k1 [msg [k2 [Hok [Hr E]]]]]
                | [k1 [msg [k2 [msg2 [data [Hok [Hr [Hreads E]]]]]]]]]]].
  - (* the call ended before the fetch *)
    split.
    + intros _. split.
      * intros d. rewrite E. apply no_delay_not_in, no_delay_polls.
      * rewrite E. intros Hin. apply repeat_spec in Hin.
        destruct js; discriminate.
    + intros d. rewrite E. intros Hin. exfalso.
      exact (no_delay_not_in _ d (no_delay_polls k1) Hin).
  - (* the fetch failed *)
    assert (Hnd : Forall (fun e => is_delay e = false) (events s')).
    { rewrite E. rewrite <- (app_nil_r (logged ERROR cb msg)).
      apply no_delay_before_fetch. constructor. }
    split.
    + intros _. split.
      * intros d. apply no_delay_not_in. exact Hnd.
      * intros _. split; [exact Hr |]. exists k1, msg. exact E.
    + intros d Hin. exfalso. exact (no_delay_not_in _ d Hnd Hin).
  - (* the call ended between the fetch and the delay *)
    assert (Hnd : Forall (fun e => is_delay e = false) (events s')).
    { rewrite E. apply no_delay_before_fetch. apply no_delay_polls. }
    split.
    + intros Hfail. contradiction.
    + intros d Hin. exfalso. exact (no_delay_not_in _ d Hnd Hin).
  - (* the record is returned *)
    split.
    + intros Hfail. contradiction.
    + intros d Hin.
      set (pre := repeat PollSleep k1 ++ fetch_event js u :: logged INFO cb msg
                    ++ repeat PollSleep k2 ++ (if cb then [LogCallback msg2] else [])).
      assert (Hpre : Forall (fun e => is_delay e = false) pre).
      { unfold pre. apply no_delay_before_fetch. apply Forall_app.
        split; [apply no_delay_polls |]. destruct cb; repeat constructor. }
      assert (E' : events s' = pre ++ [DelaySleep (uniform w mn mx)]).
      { rewrite E. unfold pre. rewrite <- !app_assoc. cbn [app].
        rewrite <- !app_assoc. reflexivity. }
      rewrite E' in Hin. apply in_app_or in Hin. destruct Hin as [Hin | Hin].
      { exfalso. exact (no_delay_not_in _ d Hpre Hin). }
      destruct Hin as [Hd | []]. inversion Hd; subst d.
      split; [exact Hok |]. split; [lia |].
      exists data, pre. repeat split.
      * exact Hr.
      * exact E'.
      * unfold pre. apply in_or_app. right. left. reflexivity.
      * rewrite Forall_forall in Hpre. exact Hpre.
Qed.

Lemma C10_no_delay_on_fetch_failure_witness :
  let '(r, s') := scrape_content 3 (sample_world 100 2) "https://ex.org/zz" 1 3 true false
                    start_task in
  (forall d, ~ In (DelaySleep d) (events s')) /\ r = Returns None.
Proof.
  pose proof (C10_no_delay_on_fetch_failure 3 (sample_world 100 2) "https://ex.org/zz"
                1%Q 3%Q true false) as H.
  destruct (scrape_content 3 (sample_world 100 2) "https://ex.org/zz" 1 3 true false
              start_task) as [r s'] eqn:E.
  destruct H as [[Hnd Himm] _].
  - exists "404 Client Error: Not Found". reflexivity.
  - split; [exact Hnd |]. apply Himm.
    vm_compute in E. inversion E. simpl. auto.
Defined.

(** ** [scrape_all_urls] *)

Lemma nth_error_remove_nth {A : Type} (l : list A) :
  forall k x, nth_error l k = Some x ->
              Permutation (x :: remove_nth k l) l /\
              S (List.length (remove_nth k l)) = List.length l.
Proof.
  induction l as [| a l IH]; intros k x H.
  - destruct k; discriminate.
  - destruct k as [| k]; simpl in H.
    + inversion H; subst. simpl. split; [apply Permutation_refl | reflexivity].
    + destruct (IH k x H) as [Hp Hl]. simpl. split.
      * eapply Permutation_trans; [apply perm_swap |]. apply perm_skip. exact Hp.
      * now rewrite Hl.
Qed.

Lemma as_completed_permutation (ex : Executor) :
  forall n turn pending,
    List.length pending = n ->
    Permutation (as_completed ex turn n pending) pending.
Proof.
  induction n as [| n IH]; intros turn pending Hlen; simpl.
  - destruct pending; [apply Permutation_refl | discriminate].
  - destruct (nth_error pending (completes_next ex turn mod List.length pending)%nat)
      as [fut |] eqn:Hnth.
    + destruct (nth_error_remove_nth pending _ fut Hnth) as [Hp Hl].
      eapply Permutation_trans; [| exact Hp].
      apply perm_skip. apply IH. lia.
    + exfalso. apply nth_error_None in Hnth.
      assert (completes_next ex turn mod List.length pending < List.length pending)%nat
        by (apply Nat.mod_upper_bound; lia).
      lia.
Qed.

Lemma enumerate_length {A : Type} (xs : list A) :
  forall start, List.length (enumerate start xs) = List.length xs.
Proof. induction xs as [| x xs IH]; intros start; simpl; [reflexivity | now rewrite IH]. Qed.

Lemma submit_all_length (urls : list string) (mn mx : Q) (pe se lc js : bool) :
  List.length (submit_all urls mn mx pe se lc js) = List.length urls.
Proof.
  unfold submit_all.
  etransitivity; [exact (enumerate_length _ _) | apply length_map].
Qed.

Lemma seen_never_stopped (w : World) (stop_event : bool) (done : list Future) :
  forall t,
    (stop_event = true ->
     forall n, (n < t + List.length done)%nat -> stop_is_set w n = false) ->
    seen w stop_event t done = done.
Proof.
  induction done as [| fut rest IH]; intros t H; simpl; [reflexivity |].
  destruct stop_event.
  - rewrite (H eq_refl t) by (simpl; lia).
    rewrite IH; [reflexivity |]. intros _ n Hn. apply H; [reflexivity | simpl; lia].
  - rewrite IH; [reflexivity | discriminate].
Qed.

(** One turn of the loop of [scrape_all_urls]. *)
Lemma completion_loop_cons (w : World) (ex : Executor) (total : Z) (pc se lc dc : bool)
  (i : Z) (fut : Future) (rest : list Future) (s : Crawl) :
  completion_loop w ex total pc se lc dc i (fut :: rest) s =
  if (if se then stop_is_set w (observed s) else false)
  then (tt, {| results := results s; emitted := emitted s; observed := S (observed s) |})
  else completion_loop w ex total pc se lc dc (i + 1) rest
         {| results := results s ++ successes ex [fut];
            emitted := emitted s
                       ++ completion_events "Échec ou annulé" ex total pc lc dc (i, fut);
            observed := S (observed s) |}.
Proof.
  cbn [completion_loop]. unfold bind at 1. unfold crawl_stop_is_set.
  destruct (if se then stop_is_set w (observed s) else false); [reflexivity |].
  unfold successes, completion_events, status_message. cbn [flat_map snd].
  destruct (future_result ex fut) as [exc | [data |]];
    unfold bind, results_append, crawl_emit, call_log, ret;
    destruct dc, pc, lc; cbn [results emitted observed app];
    rewrite <- ?app_assoc, ?app_nil_r; reflexivity.
Qed.

(** The loop of [scrape_all_urls], over the completions it looks at. *)
Lemma completion_loop_run (w : World) (ex : Executor) (total : Z) (pc se lc dc : bool) :
  forall done i s,
    let s' := snd (completion_loop w ex total pc se lc dc i done s) in
    results s' = results s ++ successes ex (seen w se (observed s) done) /\
    emitted s' = emitted s
                 ++ flat_map (completion_events "Échec ou annulé" ex total pc lc dc)
                      (numbered_from i (seen w se (observed s) done)).
Proof.
  induction done as [| fut rest IH]; intros i s.
  - cbn. rewrite !app_nil_r. auto.
  - cbv zeta. rewrite completion_loop_cons. cbn [seen].
    destruct (if se then stop_is_set w (observed s) else false).
    + cbn. rewrite !app_nil_r. auto.
    + match goal with |- context [completion_loop w ex total pc se lc dc (i + 1) rest ?s1] =>
        specialize (IH (i + 1) s1) end.
      cbv zeta in IH. cbn [results emitted observed] in IH.
      destruct IH as [IHr IHe]. rewrite IHr, IHe.
      cbn [numbered_from flat_map]. unfold successes. cbn [flat_map].
      rewrite <- !app_assoc, ?app_nil_r. auto.
Qed.

Lemma scrape_all_urls_run (w : World) (ex : Executor) (urls : list string) (mn mx : Q)
  (workers : Z) (pc pe se lc dc js : bool) :
  1 <= workers ->
  let futs := submit_all urls mn mx pe se lc js in
  let done := as_completed ex O (List.length futs) futs in
  let '(r, s) := scrape_all_urls w ex urls mn mx workers pc pe se lc dc js in
  r = inr (successes ex (seen w se O done)) /\
  emitted s = flat_map (completion_events "Échec ou annulé" ex (Py.len urls) pc lc dc)
                (numbered_from 1 (seen w se O done)).
Proof.
  intros Hw futs done. unfold scrape_all_urls.
  destruct (Z.eqb_spec (Py.len urls) 0) as [Hz | Hz].
  - assert (Hnil : urls = []) by (destruct urls; [reflexivity | unfold Py.len in Hz; simpl in Hz; lia]).
    subst urls. unfold bind, get_results, ret. simpl. auto.
  - destruct (Z.leb_spec workers 0); [lia |].
    fold futs. fold done. unfold bind at 1.
    pose proof (completion_loop_run w ex (Py.len urls) pc se lc dc done 1 start_crawl) as Hrun.
    cbv zeta in Hrun.
    destruct (completion_loop w ex (Py.len urls) pc se lc dc 1 done start_crawl) as [[] s1].
    cbn [snd start_crawl results emitted observed app] in Hrun. destruct Hrun as [Hr He].
    unfold bind, get_results, ret. cbn. rewrite Hr, He. auto.
Qed.

Lemma progress_numbers_completion (empty_text : string) (ex : Executor) (total : Z)
  (lc dc : bool) (i : Z) (fut : Future) :
  progress_numbers (completion_events empty_text ex total true lc dc (i, fut)) = [i].
Proof.
  unfold completion_events, progress_numbers.
  destruct (future_result ex fut) as [exc | [data |]]; destruct dc, lc; reflexivity.
Qed.

Lemma progress_numbers_run (empty_text : string) (ex : Executor) (total : Z) (lc dc : bool) :
  forall futs n,
    progress_numbers
      (flat_map (completion_events empty_text ex total true lc dc)
         (numbered_from (Z.of_nat n) futs))
    = map Z.of_nat (seq n (List.length futs)).
Proof.
  induction futs as [| fut rest IH]; intros n; [reflexivity |].
  cbn [numbered_from flat_map List.length seq map].
  unfold progress_numbers in *. rewrite flat_map_app.
  fold (progress_numbers (completion_events empty_text ex total true lc dc (Z.of_nat n, fut))).
  rewrite progress_numbers_completion.
  replace (Z.of_nat n + 1) with (Z.of_nat (S n)) by lia.
  rewrite IH. reflexivity.
Qed.

(** C4 (amended). When the stop flag is not seen set at any completion, a
    run of [scrape_all_urls] over N URLs with at least one worker invokes
    the progress callback exactly N times, numbered 1..N; the completions
    are the submitted tasks in some order; the returned list holds the
    records of the tasks that produced one, in completion order, and has as
    many items as there are such tasks. *)
Theorem C4_progress_and_results_when_not_stopped :
  all_completions_reported never_stopped.
Proof.
  intros w ex urls mn mx workers pe se lc dc js Hw Hstop futs done.
  pose proof (scrape_all_urls_run w ex urls mn mx workers true pe se lc dc js Hw) as Hrun.
  cbv zeta in Hrun. fold futs in Hrun. fold done in Hrun.
  destruct (scrape_all_urls w ex urls mn mx workers true pe se lc dc js) as [r s].
  destruct Hrun as [Hr He].
  assert (Hperm : Permutation done futs)
    by (apply as_completed_permutation; reflexivity).
  assert (Hlen : List.length done = List.length urls).
  { rewrite (Permutation_length Hperm). apply submit_all_length. }
  assert (Hseen : seen w se O done = done).
  { apply seen_never_stopped. intros Hse n Hn. apply Hstop; [exact Hse | lia]. }
  rewrite Hseen in Hr, He.
  repeat split.
  - rewrite He. change 1 with (Z.of_nat 1).
    rewrite progress_numbers_run, Hlen. reflexivity.
  - exact Hperm.
  - exact Hr.
  - apply Permutation_length. unfold successes. apply Permutation_flat_map. exact Hperm.
Qed.

Lemma C4_progress_and_results_when_not_stopped_witness :
  let urls := ["https://ex.org/zz"; "https://ex.org/a1"; "https://ex.org/yy"] in
  let futs := submit_all urls 1 3 true true true false in
  let done := as_completed sample_executor O (List.length futs) futs in
  let '(r, s) := scrape_all_urls (sample_world 100 0) sample_executor urls 1 3 2 true
                   true true true true false in
  progress_numbers (emitted s) = map Z.of_nat (seq 1 (List.length urls)) /\
  Permutation done futs /\
  r = inr (successes sample_executor done) /\
  List.length (successes sample_executor done) = List.length (successes sample_executor futs).
Proof.
  intros urls.
  apply (C4_progress_and_results_when_not_stopped (sample_world 100 0) sample_executor
           urls 1%Q 3%Q 2 true true true true false).
  - lia.
  - intros _ n Hn. simpl in Hn. unfold sample_world. cbn [stop_is_set].
    apply Nat.leb_gt. lia.
Defined.

(** The claim C4 as it is stated, for every run, fails. With one URL whose
    task produced a record, and the stop flag set when the first completion
    is looked at, the loop breaks: no progress notification is made and the
    record is not returned. *)
Lemma C4_counterexample_stop_breaks_loop :
  (let '(r, s) := scrape_all_urls (sample_world 0 0) sample_executor ["https://ex.org/a1"]
                    1 3 1 true true true true true false in
   progress_numbers (emitted s) = [] /\
   r = inr [] /\
   List.length (successes sample_executor
                  (submit_all ["https://ex.org/a1"] 1 3 true true true false)) = 1%nat) /\
  ~ all_completions_reported (fun _ _ _ => True).
Proof.
  split.
  - vm_compute. repeat split.
  - intros H.
    specialize (H (sample_world 0 0) sample_executor ["https://ex.org/a1"] 1%Q 3%Q 1
                  true true true true false ltac:(lia) I).
    vm_compute in H. destruct H as [H _]. discriminate H.
Qed.

(** C8 (amended). Every completion the loop of [scrape_all_urls] looks at
    emits its status message to the log file, to the progress callback
    and to the log callback, and nothing else but the record to the data
    callback: "[i/total] OK: url" for a non-empty record and
    "[i/total] Échec ou annulé: url" for an empty result. *)
Theorem C8_status_messages :
  status_messages_are "Échec ou annulé".
Proof.
  intros w ex urls mn mx workers pc pe se lc dc js Hw futs done.
  pose proof (scrape_all_urls_run w ex urls mn mx workers pc pe se lc dc js Hw) as Hrun.
  cbv zeta in Hrun. fold futs in Hrun. fold done in Hrun.
  destruct (scrape_all_urls w ex urls mn mx workers pc pe se lc dc js) as [r s].
  destruct Hrun as [_ He]. exact He.
Qed.

Lemma C8_status_messages_witness :
  emitted (snd (scrape_all_urls (sample_world 100 0) sample_executor
                  ["https://ex.org/zz"; "https://ex.org/a1"] 1 3 1 true true true true true false))
  = [DataCallback (extract (sample_world 100 0) "https://ex.org/a1" sample_page);
     Logging INFO "[1/2] OK: https://ex.org/a1";
     ProgressCallback 1 2 "[1/2] OK: https://ex.org/a1";
     LogCallback "[1/2] OK: https://ex.org/a1";
     Logging INFO "[2/2] Échec ou annulé: https://ex.org/zz";
     ProgressCallback 2 2 "[2/2] Échec ou annulé: https://ex.org/zz";
     LogCallback "[2/2] Échec ou annulé: https://ex.org/zz"].
Proof.
  rewrite (C8_status_messages (sample_world 100 0) sample_executor
             ["https://ex.org/zz"; "https://ex.org/a1"] 1%Q 3%Q 1
             true true true true true false);
    [reflexivity | lia].
Defined.

(** The claim C8 as it is stated fails. For one URL whose task returned
    the empty dict, the message emitted is the French one, not
    "[1/1] skipped/cancelled: url". *)
Lemma C8_counterexample_empty_result_message :
  emitted (snd (scrape_all_urls (sample_world 100 0) sample_executor ["https://ex.org/zz"]
                  1 3 1 true true true true true false))
  = [Logging INFO "[1/1] Échec ou annulé: https://ex.org/zz";
     ProgressCallback 1 1 "[1/1] Échec ou annulé: https://ex.org/zz";
     LogCallback "[1/1] Échec ou annulé: https://ex.org/zz"] /\
  ~ status_messages_are "skipped/cancelled".
Proof.
  split.
  - vm_compute. reflexivity.
  - intros H.
    specialize (H (sample_world 100 0) sample_executor ["https://ex.org/zz"] 1%Q 3%Q 1
                  true true true true true false ltac:(lia)).
    vm_compute in H. discriminate H.
Qed.

(** * Further properties of the code *)

(** ** [URLCollector]: what a sequence of calls collects *)

Lemma firstn_firstn_app {A : Type} (n : nat) (a b : list A) :
  firstn n (firstn n a ++ b) = firstn n (a ++ b).
Proof.
  rewrite !firstn_app, firstn_firstn, Nat.min_id, length_firstn.
  destruct (Nat.le_ge_cases n (List.length a)) as [H | H].
  - rewrite Nat.min_l by exact H.
    replace (n - n)%nat with O by lia.
    replace (n - List.length a)%nat with O by lia. reflexivity.
  - rewrite Nat.min_r by exact H. reflexivity.
Qed.

Lemma add_urls_firstn (c : URLCollector) (new_urls : list string) :
  0 < limit c -> Py.len (urls c) <= limit c ->
  urls (snd (add_urls c new_urls))
    = firstn (Z.to_nat (limit c)) (urls c ++ new_urls).
Proof.
  intros Hpos Hle. unfold add_urls, Py.len in *.
  destruct (Z.leb_spec (limit c) 0); [lia |].
  destruct (Z.leb_spec (limit c - Z.of_nat (List.length (urls c))) 0) as [Hr | Hr].
  { simpl. rewrite firstn_app.
    replace (Z.to_nat (limit c)) with (List.length (urls c)) by lia.
    rewrite firstn_all, Nat.sub_diag, firstn_O, app_nil_r. reflexivity. }
  destruct (Z.gtb_spec (Z.of_nat (List.length new_urls))
              (limit c - Z.of_nat (List.length (urls c)))) as [Hg | Hg]; simpl.
  - rewrite slice_to_firstn by lia. rewrite firstn_app.
    rewrite (firstn_all2 (urls c)) by lia.
    f_equal. f_equal. lia.
  - symmetry. apply firstn_all2. rewrite length_app. lia.
Qed.

Lemma add_urls_seq_firstn (calls : list (list string)) :
  forall c, 0 < limit c -> Py.len (urls c) <= limit c ->
            urls (snd (add_urls_seq c calls))
              = firstn (Z.to_nat (limit c)) (urls c ++ List.concat calls).
Proof.
  induction calls as [| new_urls rest IH]; intros c Hpos Hle; simpl.
  - rewrite app_nil_r. symmetry. apply firstn_all2. unfold Py.len in Hle. lia.
  - pose proof (add_urls_limit c new_urls) as Hl.
    pose proof (add_urls_bounded c new_urls Hpos Hle) as Hb.
    pose proof (add_urls_firstn c new_urls Hpos Hle) as Hf.
    destruct (add_urls c new_urls) as [r c1]. simpl in Hl, Hb, Hf.
    specialize (IH c1). destruct (add_urls_seq c1 rest) as [rs c2]. simpl in *.
    rewrite IH by lia. rewrite Hl, Hf, firstn_firstn_app, app_assoc. reflexivity.
Qed.

Lemma add_urls_seq_unlimited (calls : list (list string)) :
  forall c, limit c <= 0 ->
            add_urls_seq c calls
              = (repeat true (List.length calls),
                 {| limit := limit c; urls := urls c ++ List.concat calls |}).
Proof.
  induction calls as [| new_urls rest IH]; intros c Hl; simpl.
  - rewrite app_nil_r. destruct c; reflexivity.
  - unfold add_urls. destruct (Z.leb_spec (limit c) 0); [| lia].
    rewrite IH by exact Hl. simpl. rewrite app_assoc. reflexivity.
Qed.

(** X1. A collector created with a limit and fed any sequence of
    [add_urls] calls holds the concatenation of the inputs when the limit
    is [<= 0], and its first [limit] items when the limit is positive. *)
Theorem X1_add_urls_seq_collects :
  forall (lim : Z) (calls : list (list string)),
    urls (snd (add_urls_seq (URLCollector_init lim) calls))
      = if lim <=? 0 then List.concat calls
        else firstn (Z.to_nat lim) (List.concat calls).
Proof.
  intros lim calls. destruct (Z.leb_spec lim 0) as [H | H].
  - rewrite add_urls_seq_unlimited by exact H. reflexivity.
  - rewrite add_urls_seq_firstn; simpl; try lia.
    + reflexivity.
    + unfold Py.len. simpl. lia.
Qed.

(** X2. What the answer of [add_urls] tells: [True] means every new URL
    was appended; [False] means the limit is positive and the collector is
    full after the call. The converse of the second fails: new URLs that
    fill the collector exactly are answered with [True]. *)
Theorem X2_add_urls_answer :
  forall (c : URLCollector) (new_urls : list string),
    let '(r, c') := add_urls c new_urls in
    (r = true -> urls c' = urls c ++ new_urls) /\
    (r = false -> 0 < limit c /\ limit c <= Py.len (urls c')) /\
    (0 < Py.len new_urls -> Py.len (urls c) + Py.len new_urls = limit c ->
     r = true /\ Py.len (urls c') = limit c).
Proof.
  intros c new_urls. unfold add_urls.
  pose proof (len_nonneg (urls c)) as Hn.
  destruct (Z.leb_spec (limit c) 0) as [Hl | Hl].
  { simpl. rewrite len_app. repeat split; intros; try discriminate; try reflexivity; lia. }
  destruct (Z.leb_spec (limit c - Py.len (urls c)) 0) as [Hr | Hr].
  { simpl. repeat split; intros; try discriminate; lia. }
  destruct (Z.gtb_spec (Py.len new_urls) (limit c - Py.len (urls c))) as [Hg | Hg]; simpl.
  - rewrite len_app, len_slice_to by lia.
    repeat split; intros; try discriminate; lia.
  - rewrite len_app. repeat split; intros; try discriminate; try reflexivity; lia.
Qed.

Lemma X2_add_urls_answer_witness :
  let '(r, c') := add_urls {| limit := 2; urls := ["a"] |} ["b"] in
  r = true /\ Py.len (urls c') = 2.
Proof.
  pose proof (X2_add_urls_answer {| limit := 2; urls := ["a"] |} ["b"]) as H.
  destruct (add_urls {| limit := 2; urls := ["a"] |} ["b"]) as [r c'].
  destruct H as [_ [_ H]]. apply H; vm_compute; reflexivity.
Defined.

(** ** [is_allowed]: how fragment lists combine *)

(** X3. Filtering by two fragment lists at once is filtering by each:
    [is_allowed] of a concatenated list is the conjunction. So adding
    fragments never admits a URL that was rejected before. *)
Theorem X3_is_allowed_app :
  forall (u : string) (d1 d2 : list string),
    is_allowed u (d1 ++ d2) = is_allowed u d1 && is_allowed u d2.
Proof.
  intros u d1 d2. unfold is_allowed.
  rewrite existsb_app, negb_orb. reflexivity.
Qed.

Lemma startswith_empty (s : string) : Py.startswith "" s = true.
Proof. destruct s; reflexivity. Qed.

(** X4. An empty fragment is a substring of everything: a fragment list
    that contains the empty string rejects every URL. *)
Theorem X4_empty_fragment_rejects_all :
  forall (u : string) (d : list string),
    In "" d -> is_allowed u d = false.
Proof.
  intros u d Hin. apply is_allowed_false. exists "". split; [exact Hin |].
  exists "", u. reflexivity.
Qed.

Lemma X4_empty_fragment_rejects_all_witness :
  is_allowed "https://ex.org/a1" ["/private/"; ""] = false.
Proof.
  apply X4_empty_fragment_rejects_all. simpl. auto.
Defined.

(** ** Discovery: bounds, growth and the role of the limit *)

Section DiscoveryKeeps.

Variable cb : bool.

Lemma discovery_keeps_refl (s : Discovery) : discovery_keeps cb s s.
Proof.
  repeat split; auto. exists []. rewrite app_nil_r. auto.
Qed.

Lemma discovery_keeps_trans (s1 s2 s3 : Discovery) :
  discovery_keeps cb s1 s2 -> discovery_keeps cb s2 s3 -> discovery_keeps cb s1 s3.
Proof.
  intros [L1 [B1 [n1 [H1 F1]]]] [L2 [B2 [n2 [H2 F2]]]]. repeat split.
  - congruence.
  - intros Hpos Hle. rewrite <- L1. apply B2; rewrite L1; auto.
  - exists (n1 ++ n2). rewrite H2, H1, app_assoc. split; [reflexivity |].
    apply Forall_app; auto.
Qed.

Lemma emit_keeps (e : Event) (s : Discovery) :
  discovery_event cb e -> discovery_keeps cb s (snd (emit e s)).
Proof.
  intros He. unfold emit. simpl. repeat split; auto.
  eexists. split; [reflexivity |]. repeat constructor. exact He.
Qed.

Lemma call_log_keeps (msg : string) (s : Discovery) :
  discovery_keeps cb s (snd (call_log emit cb msg s)).
Proof.
  unfold call_log. destruct cb eqn:E.
  - unfold emit. simpl. repeat split; auto.
    eexists. split; [reflexivity |]. repeat constructor.
  - unfold ret. simpl. repeat split; auto.
    exists []. rewrite app_nil_r. auto.
Qed.

Lemma do_request_keeps (w : World) (u : string) (s : Discovery) :
  discovery_keeps cb s (snd (do_request w u s)).
Proof.
  unfold do_request. simpl. repeat split; auto.
  eexists. split; [reflexivity |]. repeat constructor.
Qed.

Lemma collector_add_urls_keeps (new_urls : list string) (s : Discovery) :
  discovery_keeps cb s (snd (collector_add_urls new_urls s)).
Proof.
  unfold collector_add_urls.
  pose proof (add_urls_limit (collector s) new_urls) as Hl.
  pose proof (add_urls_bounded (collector s) new_urls) as Hb.
  destruct (add_urls (collector s) new_urls) as [r c]. simpl in *.
  repeat split; auto. exists []. rewrite app_nil_r. auto.
Qed.

End DiscoveryKeeps.

#[local] Hint Resolve discovery_keeps_refl : discovery.

Ltac next_kept cb :=
  let H := fresh "Hkept" in
  match goal with
  | |- context [emit ?ev ?s0] =>
      pose proof (emit_keeps cb ev s0 I) as H;
      destruct (emit ev s0) as [[] ?]
  | |- context [call_log emit cb ?m ?s0] =>
      pose proof (call_log_keeps cb m s0) as H;
      destruct (call_log emit cb m s0) as [[] ?]
  | |- context [collector_add_urls ?new ?s0] =>
      pose proof (collector_add_urls_keeps cb new s0) as H;
      destruct (collector_add_urls new s0) as [? ?]
  end;
  cbn [snd] in H.

Ltac chain_kept :=
  cbn [snd];
  repeat (eapply discovery_keeps_trans; [eassumption |]);
  eauto with discovery.

Section DiscoveryBound.

Variable d : list string.
Variable w : World.
Variable cb : bool.

Lemma sitemap_tags_loop_keeps (recur : string -> M Discovery (Run (list string))) :
  (forall u s, discovery_keeps cb s (snd (recur u s))) ->
  forall tags s,
    discovery_keeps cb s (snd (sitemap_tags_loop recur cb tags s)).
Proof.
  intros Hrec tags. induction tags as [| tag rest IH]; intros s; cbn [sitemap_tags_loop].
  - apply discovery_keeps_refl.
  - unfold bind, get_collector.
    destruct (limit_reached (collector s)); [apply discovery_keeps_refl |].
    destruct (Bs4.find (Bs4.name_endswith "loc") tag) as [loc_tag |]; [| apply IH].
    next_kept cb.
    match goal with |- context [recur ?u ?s0] =>
      pose proof (Hrec u s0) as Hsub; destruct (recur u s0) as [[] s2]; cbn [snd] in Hsub
    end.
    + eapply discovery_keeps_trans; [eassumption |].
      eapply discovery_keeps_trans; [eassumption | apply IH].
    + chain_kept.
Qed.

Lemma get_sitemap_urls_keeps :
  forall fuel u s,
    discovery_keeps cb s (snd (get_sitemap_urls fuel w u d cb s)).
Proof.
  induction fuel as [| fuel IH]; intros u s; cbn [get_sitemap_urls].
  - apply discovery_keeps_refl.
  - unfold bind, get_collector.
    destruct (limit_reached (collector s)) eqn:Hfull; [apply discovery_keeps_refl |].
    pose proof (do_request_keeps cb w u s) as Hreq.
    destruct (do_request w u s) as [[e | resp] s1]; cbn [snd] in Hreq.
    { do 2 next_kept cb. chain_kept. }
    do 2 next_kept cb.
    destruct (Bs4.find (Bs4.name_endswith "sitemapindex") (soup resp)) as [index_tag |].
    { match goal with |- context [sitemap_tags_loop ?rc cb ?tags ?s0] =>
        pose proof (sitemap_tags_loop_keeps rc (fun u0 s0 => IH u0 s0) tags s0) as Hloop;
        destruct (sitemap_tags_loop rc cb tags s0) as [[] s4]; cbn [snd] in Hloop
      end; chain_kept. }
    destruct (Bs4.find (Bs4.name_endswith "urlset") (soup resp)) as [urlset_tag |];
      do 2 next_kept cb; chain_kept.
Qed.

Lemma get_allowed_urls_keeps (fuel : nat) (u : string) (lim : Z) :
  discovery_keeps cb (start_discovery lim) (snd (get_allowed_urls fuel w u d lim cb)).
Proof.
  unfold get_allowed_urls. fold (start_discovery lim).
  destruct (Py.str_in ".xml" (Py.lower u)).
  - unfold bind.
    pose proof (get_sitemap_urls_keeps fuel u (start_discovery lim)) as H.
    destruct (get_sitemap_urls fuel w u d cb (start_discovery lim)) as [[] s];
      unfold get_collector, ret; exact H.
  - unfold bind. destruct (is_allowed u d).
    + unfold bind. do 2 next_kept cb. unfold get_collector, ret. chain_kept.
    + unfold ret, get_collector. apply discovery_keeps_refl.
Qed.

End DiscoveryBound.

(** X5. With a positive limit, the list that [get_allowed_urls] returns
    is the collector's list and never has more than [limit] items,
    whatever the sitemaps answer and however deep they nest. *)
Theorem X5_get_allowed_urls_bounded :
  forall (fuel : nat) (w : World) (u : string) (d : list string) (lim : Z) (cb : bool)
         (l : list string),
    0 < lim ->
    fst (get_allowed_urls fuel w u d lim cb) = Returns l ->
    Py.len l <= lim /\
    l = urls (collector (snd (get_allowed_urls fuel w u d lim cb))).
Proof.
  intros fuel w u d lim cb l Hpos Hr.
  pose proof (get_allowed_urls_result fuel w u d lim cb) as Hres.
  pose proof (get_allowed_urls_keeps d w cb fuel u lim) as Hk.
  destruct (get_allowed_urls fuel w u d lim cb) as [r s]. simpl in *.
  destruct Hres as [Hl _]. specialize (Hl l Hr). subst l.
  destruct Hk as [_ [Hb _]]. split; [| reflexivity].
  apply Hb; simpl; [exact Hpos | unfold Py.len; simpl; lia].
Qed.

Lemma X5_get_allowed_urls_bounded_witness :
  Py.len ["https://ex.org/a1"; "https://ex.org/a3"; "https://ex.org/b1"] <= 3 /\
  ["https://ex.org/a1"; "https://ex.org/a3"; "https://ex.org/b1"]
  = urls (collector (snd (get_allowed_urls 5 (sample_world 100 0)
                            "https://ex.org/sitemap.xml" ["/private/"] 3 true))).
Proof.
  apply (X5_get_allowed_urls_bounded 5 (sample_world 100 0) "https://ex.org/sitemap.xml"
           ["/private/"] 3 true).
  - lia.
  - vm_compute. reflexivity.
Defined.

(** X6. A call of [get_sitemap_urls] never changes the limit of the
    collector and never removes or reorders what it held: the list before
    the call is a prefix of the list after it, in every run. *)
Theorem X6_get_sitemap_urls_only_appends :
  forall (fuel : nat) (w : World) (u : string) (d : list string) (cb : bool) (s : Discovery),
    let c' := collector (snd (get_sitemap_urls fuel w u d cb s)) in
    limit c' = limit (collector s) /\
    exists added, urls c' = urls (collector s) ++ added.
Proof.
  intros fuel w u d cb s c'.
  destruct (get_sitemap_urls_step d w cb fuel u s) as [Hl [[added [Hu _]] _]].
  split; [exact Hl |]. exists added. exact Hu.
Qed.

(** X7. A fetched document that holds neither a sitemap index nor a url
    set leaves the collector as it was; the call returns the collected
    list and writes one WARNING line. *)
Theorem X7_unrecognized_document :
  forall (fuel : nat) (w : World) (u : string) (d : list string) (cb : bool) (s : Discovery)
         (resp : Response),
    limit_reached (collector s) = false ->
    requests_get w (asked s) u = inr resp ->
    Bs4.find (Bs4.name_endswith "sitemapindex") (soup resp) = None ->
    Bs4.find (Bs4.name_endswith "urlset") (soup resp) = None ->
    let '(r, s') := get_sitemap_urls (S fuel) w u d cb s in
    r = Returns (urls (collector s)) /\
    collector s' = collector s /\
    filter (fun e => match e with Logging WARNING _ => true | _ => false end)
      (map event (history s'))
    = filter (fun e => match e with Logging WARNING _ => true | _ => false end)
        (map event (history s))
      ++ [Logging WARNING
            (String.concat ""
               ["[WARN] '"; u; "' n'est pas un sitemapindex ni un urlset reconnu."])].
Proof.
  intros fuel w u d cb s resp Hfree Hok Hindex Hset.
  cbn [get_sitemap_urls]. unfold bind, get_collector, do_request.
  rewrite Hfree, Hok. unfold call_log, emit, ret.
  destruct cb; cbn [fst snd collector history asked]; rewrite Hindex, Hset;
    cbn [fst snd collector history asked];
    (split; [reflexivity |]); (split; [reflexivity |]);
    rewrite !map_app, !filter_app; cbn [map filter event app];
    rewrite ?app_nil_r; reflexivity.
Qed.

Lemma X7_unrecognized_document_witness :
  let w := {| requests_get := fun _ _ =>
                inr {| status_code := 200;
                       soup := Tag "[document]" [] [Tag "html" [] []] |};
              playwright_content := fun _ => inl "none";
              stop_is_set := fun _ => false;
              pause_is_set := fun _ => false;
              uniform := fun a _ => a;
              format_2f := fun _ => "0.00";
              urljoin := fun _ x => x |} in
  let '(r, s') := get_sitemap_urls 1 w "feed.xml" [] false (start_discovery 0) in
  r = Returns (urls (collector (start_discovery 0))) /\
  collector s' = collector (start_discovery 0) /\
  filter (fun e => match e with Logging WARNING _ => true | _ => false end)
    (map event (history s'))
  = filter (fun e => match e with Logging WARNING _ => true | _ => false end)
      (map event (history (start_discovery 0)))
    ++ [Logging WARNING
          (String.concat ""
             ["[WARN] '"; "feed.xml"; "' n'est pas un sitemapindex ni un urlset reconnu."])].
Proof.
  intros w.
  apply (X7_unrecognized_document 0 w "feed.xml" [] false (start_discovery 0)
           {| status_code := 200; soup := Tag "[document]" [] [Tag "html" [] []] |});
    reflexivity.
Defined.

(** ** Discovery: the limit only truncates *)

Lemma call_log_collector (cb : bool) (msg : string) (s : Discovery) :
  collector (snd (call_log emit cb msg s)) = collector s /\
  asked (snd (call_log emit cb msg s)) = asked s.
Proof. unfold call_log, emit, ret. destruct cb; auto. Qed.

Section DiscoveryCollect.

Variable d : list string.
Variable w : World.
Variable cb : bool.
Hypothesis Hsteady : steady w.

Lemma sitemap_tags_loop_collect
  (recur : string -> M Discovery (Run (list string)))
  (recur_c : string -> URLCollector -> Run URLCollector) :
  (forall u s, let '(r, s') := recur u s in agrees r s' (recur_c u (collector s))) ->
  forall tags s,
    let '(r, s') := sitemap_tags_loop recur cb tags s in
    agrees r s' (collect_loop recur_c tags (collector s)).
Proof.
  intros Hrec tags. induction tags as [| tag rest IH]; intros s;
    cbn [sitemap_tags_loop collect_loop].
  - unfold ret. simpl. split; [eexists; reflexivity | reflexivity].
  - unfold bind, get_collector.
    destruct (limit_reached (collector s)).
    { unfold ret. simpl. split; [eexists; reflexivity | reflexivity]. }
    destruct (Bs4.find (Bs4.name_endswith "loc") tag) as [loc_tag |]; [| apply IH].
    match goal with |- context [call_log emit cb ?m s] =>
      destruct (call_log_collector cb m s) as [Hc _];
      destruct (call_log emit cb m s) as [[] s1] end.
    cbn [snd] in Hc. rewrite <- Hc.
    specialize (Hrec (Py.strip (Bs4.text loc_tag)) s1).
    destruct (recur (Py.strip (Bs4.text loc_tag)) s1) as [r s2].
    destruct (recur_c (Py.strip (Bs4.text loc_tag)) (collector s1)) as [c1 |];
      cbn [agrees] in Hrec.
    + destruct Hrec as [[x Hx] Hc2]. subst r c1. apply IH.
    + subst r. simpl. reflexivity.
Qed.

Lemma get_sitemap_urls_collect :
  forall fuel u s,
    let '(r, s') := get_sitemap_urls fuel w u d cb s in
    agrees r s' (collect fuel (requests_get w O) d u (collector s)).
Proof.
  induction fuel as [| fuel IH]; intros u s; cbn [get_sitemap_urls collect].
  - reflexivity.
  - unfold bind, get_collector.
    destruct (limit_reached (collector s)).
    { unfold ret. simpl. split; [eexists; reflexivity | reflexivity]. }
    unfold do_request. rewrite (Hsteady (asked s) u).
    destruct (requests_get w O u) as [e | resp]; unfold emit at 1; cbn beta iota zeta;
      match goal with |- context [call_log emit cb ?m ?s0] =>
        destruct (call_log_collector cb m s0) as [Hc _];
        destruct (call_log emit cb m s0) as [[] s1] end;
      cbn [snd collector] in Hc.
    { unfold ret. simpl. split; [eexists; reflexivity | exact Hc]. }
    destruct (Bs4.find (Bs4.name_endswith "sitemapindex") (soup resp)) as [index_tag |].
    { match goal with
      | |- context [sitemap_tags_loop ?rc cb ?tags s1] =>
          pose proof (sitemap_tags_loop_collect rc (collect fuel (requests_get w O) d)
                        (fun u0 s0 => IH u0 s0) tags s1) as Hloop;
          destruct (sitemap_tags_loop rc cb tags s1) as [r s4]
      end.
      rewrite Hc in Hloop.
      destruct (collect_loop (collect fuel (requests_get w O) d) _ (collector s)) as [c1 |];
        cbn [agrees] in Hloop.
      - destruct Hloop as [[x Hx] Hc4]. subst r. unfold get_collector, ret. simpl.
        split; [eexists; reflexivity | exact Hc4].
      - subst r. reflexivity. }
    destruct (Bs4.find (Bs4.name_endswith "urlset") (soup resp)) as [urlset_tag |].
    + unfold collector_add_urls. rewrite Hc.
      destruct (add_urls (collector s) _) as [b c]. cbn beta iota zeta.
      match goal with |- context [call_log emit cb ?m ?s0] =>
        destruct (call_log_collector cb m s0) as [Hc2 _];
        destruct (call_log emit cb m s0) as [[] s2] end.
      cbn [snd collector] in Hc2. unfold ret. simpl.
      split; [eexists; reflexivity | exact Hc2].
    + unfold emit at 1. cbn beta iota zeta.
      match goal with |- context [call_log emit cb ?m ?s0] =>
        destruct (call_log_collector cb m s0) as [Hc2 _];
        destruct (call_log emit cb m s0) as [[] s2] end.
      cbn [snd collector] in Hc2. unfold ret. simpl.
      split; [eexists; reflexivity | congruence].
Qed.

End DiscoveryCollect.

Section CollectTruncates.

Variable answer : string -> string + Response.
Variable d : list string.

Lemma collect_loop_appends (recur : string -> URLCollector -> Run URLCollector) :
  (forall u c c', recur u c = Returns c' ->
                  limit c' = limit c /\ exists added, urls c' = urls c ++ added) ->
  forall tags c c',
    collect_loop recur tags c = Returns c' ->
    limit c' = limit c /\ exists added, urls c' = urls c ++ added.
Proof.
  intros Hrec tags. induction tags as [| tag rest IH]; intros c c' H; cbn [collect_loop] in H.
  - inversion H; subst. split; [reflexivity |]. exists []. now rewrite app_nil_r.
  - destruct (limit_reached c).
    { inversion H; subst. split; [reflexivity |]. exists []. now rewrite app_nil_r. }
    destruct (Bs4.find (Bs4.name_endswith "loc") tag) as [loc_tag |]; [| now apply IH].
    destruct (recur (Py.strip (Bs4.text loc_tag)) c) as [c1 |] eqn:E; [| discriminate].
    destruct (Hrec _ _ _ E) as [L1 [a1 U1]].
    destruct (IH _ _ H) as [L2 [a2 U2]].
    split; [congruence |]. exists (a1 ++ a2). rewrite U2, U1, app_assoc. reflexivity.
Qed.

Lemma collect_appends :
  forall fuel u c c',
    collect fuel answer d u c = Returns c' ->
    limit c' = limit c /\ exists added, urls c' = urls c ++ added.
Proof.
  induction fuel as [| fuel IH]; intros u c c' H; cbn [collect] in H; [discriminate |].
  assert (Hsame : forall x, Returns c = Returns x ->
                            limit x = limit c /\ exists added, urls x = urls c ++ added).
  { intros x Hx. inversion Hx; subst. split; [reflexivity |].
    exists []. now rewrite app_nil_r. }
  destruct (limit_reached c); [now apply Hsame |].
  destruct (answer u) as [e | resp]; [now apply Hsame |].
  destruct (Bs4.find (Bs4.name_endswith "sitemapindex") (soup resp)) as [index_tag |].
  { eapply collect_loop_appends; [| exact H]. intros u0 c0 c0' H0. now apply IH with u0. }
  destruct (Bs4.find (Bs4.name_endswith "urlset") (soup resp)) as [urlset_tag |];
    [| now apply Hsame].
  inversion H; subst. split; [apply add_urls_limit |].
  destruct (add_urls_appends c (filter (fun u0 => is_allowed u0 d)
              (map Bs4.get_text_strip
                 (Bs4.find_all (Bs4.name_endswith "loc") urlset_tag))))
    as [added [_ [Hu _]]].
  exists added. exact Hu.
Qed.

Variable lim : Z.
Hypothesis Hpos : 0 < lim.

Lemma truncates_not_full (cl cu : URLCollector) :
  truncates lim cl cu -> limit_reached cu = false.
Proof. intros [_ [H _]]. apply limit_reached_false. left. exact H. Qed.

Lemma truncates_bounded (cl cu : URLCollector) :
  truncates lim cl cu -> Py.len (urls cl) <= lim.
Proof.
  intros [_ [_ H]]. unfold Py.len. rewrite H, length_firstn. lia.
Qed.

(** Once the limited collector is full, nothing the unlimited one appends
    shows in its first [lim] items. *)
Lemma truncates_full (cl cu cu' : URLCollector) :
  truncates lim cl cu -> limit_reached cl = true ->
  limit cu' = limit cu -> (exists added, urls cu' = urls cu ++ added) ->
  truncates lim cl cu'.
Proof.
  intros [Hl [Hu Ht]] Hfull Hl' [added Ha].
  apply limit_reached_true in Hfull. destruct Hfull as [_ Hfull].
  repeat split; [exact Hl | lia |].
  rewrite Ha, firstn_app, <- Ht.
  unfold Py.len in Hfull. rewrite Ht, length_firstn in Hfull.
  replace (Z.to_nat lim - List.length (urls cu))%nat with O by lia.
  rewrite firstn_O, app_nil_r. reflexivity.
Qed.

Lemma truncates_add_urls (cl cu : URLCollector) (new_urls : list string) :
  truncates lim cl cu ->
  truncates lim (snd (add_urls cl new_urls)) (snd (add_urls cu new_urls)).
Proof.
  intros T. pose proof (truncates_bounded cl cu T) as Hb.
  destruct T as [Hl [Hu Ht]].
  repeat split.
  - rewrite add_urls_limit. exact Hl.
  - rewrite add_urls_limit. exact Hu.
  - rewrite add_urls_firstn by lia. rewrite Hl, Ht, firstn_firstn_app.
    unfold add_urls. destruct (Z.leb_spec (limit cu) 0); [reflexivity | lia].
Qed.

Lemma collect_loop_truncates
  (recur : string -> URLCollector -> Run URLCollector) :
  (forall u c c', recur u c = Returns c' ->
                  limit c' = limit c /\ exists added, urls c' = urls c ++ added) ->
  (forall u cl cu cu', truncates lim cl cu -> recur u cu = Returns cu' ->
                       exists cl', recur u cl = Returns cl' /\ truncates lim cl' cu') ->
  forall tags cl cu cu',
    truncates lim cl cu -> collect_loop recur tags cu = Returns cu' ->
    exists cl', collect_loop recur tags cl = Returns cl' /\ truncates lim cl' cu'.
Proof.
  intros Happ Hrec tags. induction tags as [| tag rest IH]; intros cl cu cu' T H.
  - cbn [collect_loop] in *. inversion H; subst. exists cl. auto.
  - cbn [collect_loop]. destruct (limit_reached cl) eqn:Hfull.
    { exists cl. split; [reflexivity |].
      destruct (collect_loop_appends recur Happ _ _ _ H) as [L A].
      eapply truncates_full; eassumption. }
    cbn [collect_loop] in H. rewrite (truncates_not_full cl cu T) in H.
    destruct (Bs4.find (Bs4.name_endswith "loc") tag) as [loc_tag |]; [| now apply IH with cu].
    destruct (recur (Py.strip (Bs4.text loc_tag)) cu) as [cu1 |] eqn:E; [| discriminate].
    destruct (Hrec _ _ _ _ T E) as [cl1 [El T1]]. rewrite El.
    now apply IH with cu1.
Qed.

Lemma collect_truncates :
  forall fuel u cl cu cu',
    truncates lim cl cu -> collect fuel answer d u cu = Returns cu' ->
    exists cl', collect fuel answer d u cl = Returns cl' /\ truncates lim cl' cu'.
Proof.
  induction fuel as [| fuel IH]; intros u cl cu cu' T H; [discriminate |].
  cbn [collect]. destruct (limit_reached cl) eqn:Hfull.
  { exists cl. split; [reflexivity |].
    destruct (collect_appends _ _ _ _ H) as [L A].
    eapply truncates_full; eassumption. }
  cbn [collect] in H. rewrite (truncates_not_full cl cu T) in H.
  destruct (answer u) as [e | resp].
  { inversion H; subst. exists cl. auto. }
  destruct (Bs4.find (Bs4.name_endswith "sitemapindex") (soup resp)) as [index_tag |].
  { eapply collect_loop_truncates; [| | exact T | exact H].
    - intros u0 c0 c0' H0. now apply collect_appends with fuel u0.
    - intros u0 cl0 cu0 cu0' T0 H0. now apply IH with cu0. }
  destruct (Bs4.find (Bs4.name_endswith "urlset") (soup resp)) as [urlset_tag |].
  - inversion H; subst. eexists. split; [reflexivity |].
    apply truncates_add_urls. exact T.
  - inversion H; subst. exists cl. auto.
Qed.

End CollectTruncates.

(** X8. The limit only truncates. In a world whose answers do not change
    over time, when discovery without a limit returns a list, discovery
    with a positive limit returns the first [limit] items of that list
    (and needs no deeper recursion to do so). *)
Theorem X8_limit_only_truncates :
  forall (fuel : nat) (w : World) (u : string) (d : list string) (lim : Z)
         (cb cb' : bool) (l : list string),
    steady w ->
    0 < lim ->
    fst (get_allowed_urls fuel w u d 0 cb) = Returns l ->
    fst (get_allowed_urls fuel w u d lim cb') = Returns (firstn (Z.to_nat lim) l).
Proof.
  intros fuel w u d lim cb cb' l Hsteady Hpos Hun.
  destruct (Py.str_in ".xml" (Py.lower u)) eqn:Hxml.
  - unfold get_allowed_urls in *. rewrite Hxml in *. unfold bind in *.
    pose proof (get_sitemap_urls_collect d w cb Hsteady fuel u
                  {| collector := URLCollector_init 0; history := []; asked := O |}) as Hu.
    pose proof (get_sitemap_urls_collect d w cb' Hsteady fuel u
                  {| collector := URLCollector_init lim; history := []; asked := O |}) as Hl.
    destruct (get_sitemap_urls fuel w u d cb _) as [ru su].
    destruct (get_sitemap_urls fuel w u d cb' _) as [rl sl].
    cbn [collector] in Hu, Hl.
    destruct ru as [xu |]; [| discriminate].
    unfold get_collector, ret in Hun. cbn [fst] in Hun. inversion Hun; subst l.
    destruct (collect fuel (requests_get w O) d u (URLCollector_init 0)) as [cu' |] eqn:Eu;
      cbn [agrees] in Hu; [| discriminate].
    destruct Hu as [_ Hcu].
    assert (T : truncates lim (URLCollector_init lim) (URLCollector_init 0)).
    { repeat split; simpl; [lia |]. now rewrite firstn_nil. }
    destruct (collect_truncates (requests_get w O) d lim Hpos fuel u _ _ _ T Eu)
      as [cl' [El [_ [_ Tl]]]].
    rewrite El in Hl. cbn [agrees] in Hl. destruct Hl as [[xl Hxl] Hcl]. subst rl.
    unfold get_collector, ret. cbn [fst]. rewrite Hcl, Tl, Hcu. reflexivity.
  - rewrite single_url_path in * by exact Hxml. inversion Hun; subst l.
    f_equal. destruct (is_allowed u d); [| now rewrite firstn_nil].
    symmetry. apply firstn_all2. simpl. lia.
Qed.

Lemma X8_limit_only_truncates_witness :
  fst (get_allowed_urls 5 (sample_world 100 0) "https://ex.org/sitemap.xml" ["/private/"] 4 true)
  = Returns (firstn (Z.to_nat 4)
               ["https://ex.org/a1"; "https://ex.org/a3";
                "https://ex.org/b1"; "https://ex.org/b2"; "https://ex.org/b3";
                "https://ex.org/a1"; "https://ex.org/a3"]).
Proof.
  apply (X8_limit_only_truncates 5 (sample_world 100 0) "https://ex.org/sitemap.xml"
           ["/private/"] 4 false true).
  - intros n u. reflexivity.
  - lia.
  - vm_compute. reflexivity.
Defined.

(** X23. The log callback only listens: in a world whose answers do not
    change over time, discovery returns the same list, or runs out of
    depth alike, whether a log callback is passed or not. *)
Theorem X23_log_callback_does_not_change_result :
  forall (fuel : nat) (w : World) (u : string) (d : list string) (lim : Z) (cb cb' : bool),
    steady w ->
    fst (get_allowed_urls fuel w u d lim cb) = fst (get_allowed_urls fuel w u d lim cb').
Proof.
  intros fuel w u d lim cb cb' Hsteady.
  destruct (Py.str_in ".xml" (Py.lower u)) eqn:Hxml.
  - unfold get_allowed_urls. rewrite Hxml. unfold bind.
    pose proof (get_sitemap_urls_collect d w cb Hsteady fuel u
                  {| collector := URLCollector_init lim; history := []; asked := O |}) as H1.
    pose proof (get_sitemap_urls_collect d w cb' Hsteady fuel u
                  {| collector := URLCollector_init lim; history := []; asked := O |}) as H2.
    destruct (get_sitemap_urls fuel w u d cb _) as [r1 s1].
    destruct (get_sitemap_urls fuel w u d cb' _) as [r2 s2].
    cbn [collector] in H1, H2.
    destruct (collect fuel (requests_get w O) d u (URLCollector_init lim)) as [c |];
      cbn [agrees] in H1, H2.
    + destruct H1 as [[x1 ->] Hc1]. destruct H2 as [[x2 ->] Hc2].
      unfold get_collector, ret. cbn [fst]. congruence.
    + subst r1 r2. reflexivity.
  - rewrite !single_url_path by exact Hxml. reflexivity.
Qed.

Lemma X23_log_callback_does_not_change_result_witness :
  fst (get_allowed_urls 5 (sample_world 100 0) "https://ex.org/sitemap.xml" ["/private/"] 4 true)
  = fst (get_allowed_urls 5 (sample_world 100 0) "https://ex.org/sitemap.xml" ["/private/"] 4
           false).
Proof.
  apply (X23_log_callback_does_not_change_result 5 (sample_world 100 0)
           "https://ex.org/sitemap.xml" ["/private/"] 4 true false).
  intros n u. reflexivity.
Defined.

(** ** [scrape_content]: what one call may do *)

Lemma filter_none {A : Type} (f : A -> bool) (l : list A) :
  Forall (fun x => f x = false) l -> filter f l = [].
Proof.
  induction 1 as [| x l Hx _ IH]; simpl; [reflexivity |]. now rewrite Hx.
Qed.

Lemma no_fetch_polls (k : nat) :
  Forall (fun e => is_fetch e = false) (repeat PollSleep k).
Proof. apply Forall_forall. intros e H. apply repeat_spec in H. now subst. Qed.

Lemma no_fetch_logged (lv : Level) (cb : bool) (msg : string) :
  Forall (fun e => is_fetch e = false) (logged lv cb msg).
Proof. unfold logged. destruct cb; repeat constructor. Qed.

Lemma is_fetch_fetch_event (js : bool) (u : string) : is_fetch (fetch_event js u) = true.
Proof. destruct js; reflexivity. Qed.

(** X9. One call of [scrape_content] fetches at most once, with the
    engine chosen by [js_enabled] and for the URL it was given, and sleeps
    at most one politeness delay, whose length is the value drawn from
    [random.uniform(min_delay, max_delay)]. *)
Theorem X9_scrape_content_effects :
  forall (fuel : nat) (w : World) (u : string) (min_delay max_delay : Q)
         (log_callback js_enabled : bool),
    let s' := snd (scrape_content fuel w u min_delay max_delay log_callback js_enabled
                     start_task) in
    (filter is_fetch (events s') = [] \/
     filter is_fetch (events s') = [fetch_event js_enabled u]) /\
    (filter is_delay (events s') = [] \/
     filter is_delay (events s') = [DelaySleep (uniform w min_delay max_delay)]).
Proof.
  intros fuel w u mn mx cb js s'. subst s'.
  pose proof (scrape_content_cases fuel w u mn mx cb js start_task) as H.
  destruct (scrape_content fuel w u mn mx cb js start_task) as [r s'].
  cbn [start_task events reads requested app Nat.add snd] in *.
  assert (Hf1 : forall k lv msg rest,
             Forall (fun e => is_fetch e = false) rest ->
             filter is_fetch
               (repeat PollSleep k ++ fetch_event js u :: logged lv cb msg ++ rest)
             = [fetch_event js u]).
  { intros k lv msg rest Hrest.
    rewrite filter_app, (filter_none _ _ (no_fetch_polls k)).
    cbn [app filter]. rewrite is_fetch_fetch_event, filter_app.
    rewrite (filter_none _ _ (no_fetch_logged lv cb msg)), (filter_none _ _ Hrest).
    reflexivity. }
  destruct H as [[k1 [Hr E]] | [[k1 [msg [Hfail [Hr E]]]] | [[k1 [msg [k2 [Hok [Hr E]]]]]
                | [k1 [msg [k2 [msg2 [data [Hok [Hr [Hreads E]]]]]]]]]]]; rewrite E.
  - split; left.
    + apply filter_none, no_fetch_polls.
    + apply filter_none, no_delay_polls.
  - split; [right | left].
    + rewrite <- (app_nil_r (logged ERROR cb msg)). apply Hf1. constructor.
    + apply filter_none. rewrite <- (app_nil_r (logged ERROR cb msg)).
      apply no_delay_before_fetch. constructor.
  - split; [right | left].
    + apply Hf1, no_fetch_polls.
    + apply filter_none, no_delay_before_fetch, no_delay_polls.
  - split; right.
    + apply Hf1. apply Forall_app. split; [apply no_fetch_polls |].
      destruct cb; repeat constructor.
    + set (pre := repeat PollSleep k1 ++ fetch_event js u :: logged INFO cb msg
                    ++ repeat PollSleep k2 ++ (if cb then [LogCallback msg2] else [])).
      assert (Hpre : Forall (fun e => is_delay e = false) pre).
      { unfold pre. apply no_delay_before_fetch. apply Forall_app.
        split; [apply no_delay_polls |]. destruct cb; repeat constructor. }
      match goal with |- filter is_delay ?l = _ =>
        replace l with (pre ++ [DelaySleep (uniform w mn mx)])
          by (unfold pre; rewrite <- !app_assoc; cbn [app];
              rewrite <- !app_assoc; reflexivity) end.
      rewrite filter_app, (filter_none _ _ Hpre). reflexivity.
Qed.

(** ** White space *)

Lemma isspace_spec (c : string) : Py.isspace c = true <-> In c Py.whitespace.
Proof.
  unfold Py.isspace. rewrite existsb_exists. split.
  - intros [x [Hx He]]. apply String.eqb_eq in He. now subst.
  - intros H. exists c. split; [exact H | apply String.eqb_refl].
Qed.

(** A white space character is one, two or three bytes long, and none is
    the beginning of another. *)
Lemma whitespace_width (c : string) :
  In c Py.whitespace ->
  (exists a, c = String a "") \/
  (exists a b, c = String a (String b "") /\ Py.isspace (String a "") = false) \/
  (exists a b x, c = String a (String b (String x "")) /\
                 Py.isspace (String a "") = false /\
                 Py.isspace (String a (String b "")) = false).
Proof.
  intros H. vm_compute in H.
  repeat (destruct H as [<- | H];
          [first [ left; eexists; reflexivity
                 | right; left; do 2 eexists; split; [reflexivity | vm_compute; reflexivity]
                 | right; right; do 3 eexists;
                   split; [reflexivity | split; vm_compute; reflexivity] ] |]).
  contradiction.
Qed.

Lemma lstrip_space (c t : string) :
  In c Py.whitespace -> Py.lstrip (c ++ t)%string = Py.lstrip t.
Proof.
  intros H. pose proof (proj2 (isspace_spec c) H) as Hc.
  destruct (whitespace_width c H) as [[a ->] | [[a [b [-> E1]]] | [a [b [x [-> [E1 E2]]]]]]];
    cbn [append Py.lstrip].
  - rewrite Hc. reflexivity.
  - rewrite E1, Hc. reflexivity.
  - rewrite E1, E2, Hc. reflexivity.
Qed.

Lemma not_startswith_space (s : string) :
  (forall c, In c Py.whitespace -> forall t, s <> (c ++ t)%string) ->
  forall c, In c Py.whitespace -> Py.startswith c s = false.
Proof.
  intros H c Hc. destruct (Py.startswith c s) eqn:Hs; [exfalso | reflexivity].
  apply startswith_spec in Hs. destruct Hs as [t Ht]. exact (H c Hc t Ht).
Qed.

(** Induction along [lstrip]: it removes white space characters one by
    one, and stops at a text that begins with none. *)
Lemma lstrip_ind (P : string -> string -> Prop) :
  (forall c s r, In c Py.whitespace -> P s r -> P (c ++ s)%string r) ->
  (forall s, (forall c, In c Py.whitespace -> Py.startswith c s = false) -> P s s) ->
  forall s, P s (Py.lstrip s).
Proof.
  intros Hstep Hstop.
  assert (Hlen : forall n s, (String.length s <= n)%nat -> P s (Py.lstrip s)).
  { induction n as [| n IH]; intros s Hn.
    - destruct s; [| simpl in Hn; lia]. apply Hstop. intros c Hc.
      destruct (whitespace_width c Hc) as [[a ->] | [[a [b [-> _]]] | [a [b [x [-> _]]]]]];
        reflexivity.
    - destruct s as [| a s1].
      { apply Hstop. intros c Hc.
        destruct (whitespace_width c Hc) as [[a ->] | [[a [b [-> _]]] | [a [b [x [-> _]]]]]];
          reflexivity. }
      cbn [String.length] in Hn. cbn [Py.lstrip].
      destruct (Py.isspace (String a "")) eqn:E1.
      { apply (Hstep (String a "") s1); [apply isspace_spec; exact E1 | apply IH; lia]. }
      assert (Hstop' :
                (match s1 with
                 | "" => True
                 | String b s2 =>
                     Py.isspace (String a (String b "")) = false /\
                     match s2 with
                     | "" => True
                     | String x _ => Py.isspace (String a (String b (String x ""))) = false
                     end
                 end) -> P (String a s1) (String a s1)).
      { intros Hno. apply Hstop. apply not_startswith_space. intros c Hc t Ht.
        pose proof (proj2 (isspace_spec c) Hc) as Hsp.
        destruct (whitespace_width c Hc) as [[x ->] | [[x [y [-> _]]] | [x [y [z [-> _]]]]]];
          cbn [append] in Ht.
        - inversion Ht; subst. congruence.
        - destruct s1 as [| b s2]; inversion Ht; subst. destruct Hno. congruence.
        - destruct s1 as [| b [| x0 s3]]; inversion Ht; subst. destruct Hno. congruence. }
      destruct s1 as [| b s2]; [apply Hstop'; exact I |].
      destruct (Py.isspace (String a (String b ""))) eqn:E2.
      { apply (Hstep (String a (String b "")) s2); [apply isspace_spec; exact E2 |].
        apply IH. cbn [String.length] in Hn. lia. }
      destruct s2 as [| x s3]; [apply Hstop'; split; first [reflexivity | assumption | exact I] |].
      destruct (Py.isspace (String a (String b (String x "")))) eqn:E3.
      { apply (Hstep (String a (String b (String x ""))) s3); [apply isspace_spec; exact E3 |].
        apply IH. cbn [String.length] in Hn. lia. }
      apply Hstop'. split; first [reflexivity | assumption]. }
  intros s. apply (Hlen (String.length s)). lia.
Qed.

Lemma whitespace_not_empty (c : string) : In c Py.whitespace -> c <> "".
Proof.
  intros Hc.
  destruct (whitespace_width c Hc) as [[a ->] | [[a [b [-> _]]] | [a [b [x [-> _]]]]]];
    discriminate.
Qed.

Lemma append_assoc (a b c : string) : ((a ++ b) ++ c = a ++ (b ++ c))%string.
Proof. induction a as [| x a IH]; simpl; [reflexivity | now rewrite IH]. Qed.

Lemma append_empty_r (a : string) : (a ++ "")%string = a.
Proof. induction a as [| x a IH]; simpl; [reflexivity | now rewrite IH]. Qed.

Lemma chars_append (a b : string) :
  list_ascii_of_string (a ++ b) = list_ascii_of_string a ++ list_ascii_of_string b.
Proof. induction a as [| x a IH]; simpl; [reflexivity | now rewrite IH]. Qed.

Lemma blank_append (a b : string) : blank a -> blank b -> blank (a ++ b).
Proof.
  induction 1 as [| c s Hc Hs IH]; intros Hb; simpl; [exact Hb |].
  rewrite append_assoc. apply blank_space; auto.
Qed.

Lemma lstrip_blank (b t : string) : blank b -> Py.lstrip (b ++ t) = Py.lstrip t.
Proof.
  induction 1 as [| c s Hc Hs IH]; simpl; [reflexivity |].
  rewrite append_assoc, lstrip_space by exact Hc. exact IH.
Qed.

(** What [lstrip] removes is white space, and what it leaves begins with
    none. *)
Lemma lstrip_split (s : string) :
  exists b, blank b /\ s = (b ++ Py.lstrip s)%string /\
            forall c, In c Py.whitespace -> Py.startswith c (Py.lstrip s) = false.
Proof.
  apply (lstrip_ind (fun s r => exists b, blank b /\ s = (b ++ r)%string /\
                       forall c, In c Py.whitespace -> Py.startswith c r = false)).
  - intros c s0 r Hc [b [Hb [Hs Hr]]]. exists (c ++ b)%string.
    split; [apply blank_space; assumption |].
    split; [rewrite append_assoc; congruence | exact Hr].
  - intros s0 Hs. exists "". split; [constructor | split; [reflexivity | exact Hs]].
Qed.

Lemma lstrip_empty (s : string) : Py.lstrip s = "" <-> blank s.
Proof.
  split.
  - intros H. destruct (lstrip_split s) as [b [Hb [Hs _]]].
    rewrite H, append_empty_r in Hs. congruence.
  - intros H. rewrite <- (append_empty_r s). rewrite lstrip_blank by exact H. reflexivity.
Qed.

(** What [rstrip] removes is white space. *)
Lemma rstrip_split (s : string) :
  exists b, blank b /\ s = (Py.rstrip s ++ b)%string.
Proof.
  induction s as [| a s [b [Hb IH]]]; cbn [Py.rstrip].
  - exists "". split; [constructor | reflexivity].
  - destruct (Py.lstrip (String a s)) eqn:E.
    + exists (String a s). split; [apply lstrip_empty; exact E | reflexivity].
    + exists b. split; [exact Hb |]. simpl. congruence.
Qed.

Lemma rstrip_empty (s : string) : Py.rstrip s = "" <-> blank s.
Proof.
  split.
  - intros H. destruct (rstrip_split s) as [b [Hb Hs]]. rewrite H in Hs. simpl in Hs.
    congruence.
  - intros H. apply lstrip_empty in H. destruct s as [| a s]; [reflexivity |].
    cbn [Py.rstrip]. rewrite H. reflexivity.
Qed.

(** [strip] gives the empty text exactly for a text of white space only. *)
Lemma strip_empty (s : string) : Py.strip s = "" <-> blank s.
Proof.
  unfold Py.strip. rewrite rstrip_empty. split.
  - intros H. destruct (lstrip_split s) as [b [Hb [Hs _]]]. rewrite Hs.
    apply blank_append; assumption.
  - intros H. apply lstrip_empty in H. rewrite H. constructor.
Qed.

Lemma endswith_unfold (suffix s : string) :
  Py.endswith suffix s =
  if String.eqb s suffix then true
  else match s with
       | EmptyString => false
       | String _ s' => Py.endswith suffix s'
       end.
Proof. destruct s; reflexivity. Qed.

(** What [rstrip] leaves ends with no white space character. *)
Lemma rstrip_end (s c : string) :
  In c Py.whitespace -> Py.endswith c (Py.rstrip s) = false.
Proof.
  intros Hc. induction s as [| a s IH]; cbn [Py.rstrip].
  - rewrite endswith_unfold. destruct (String.eqb_spec "" c) as [E | _]; [| reflexivity].
    symmetry in E. exfalso. exact (whitespace_not_empty c Hc E).
  - destruct (Py.lstrip (String a s)) eqn:E; [| rewrite endswith_unfold, IH].
    + rewrite endswith_unfold. destruct (String.eqb_spec "" c) as [E' | _]; [| reflexivity].
      symmetry in E'. exfalso. exact (whitespace_not_empty c Hc E').
    + destruct (String.eqb_spec (String a (Py.rstrip s)) c) as [E' | _]; [| reflexivity].
      exfalso. destruct (rstrip_split s) as [b [Hb Hs]].
      assert (Hall : Py.lstrip (String a s) = "").
      { rewrite Hs.
        change (String a (Py.rstrip s ++ b)) with (String a (Py.rstrip s) ++ b)%string.
        rewrite E', lstrip_space by exact Hc. apply lstrip_empty. exact Hb. }
      congruence.
Qed.

Lemma startswith_append (p s t : string) :
  Py.startswith p s = true -> Py.startswith p (s ++ t) = true.
Proof.
  intros H. apply startswith_spec in H. destruct H as [post ->].
  apply startswith_spec. exists (post ++ t)%string. apply append_assoc.
Qed.

(** [strip] leaves no white space character at either end. *)
Lemma strip_trimmed (s : string) : trimmed (Py.strip s).
Proof.
  intros c Hc. unfold Py.strip. split; [| apply rstrip_end; exact Hc].
  destruct (lstrip_split s) as [_ [_ [_ Hhead]]]. specialize (Hhead c Hc).
  destruct (rstrip_split (Py.lstrip s)) as [b [_ Hs]].
  destruct (Py.startswith c (Py.rstrip (Py.lstrip s))) eqn:E; [| reflexivity].
  apply (startswith_append _ _ b) in E. rewrite <- Hs in E. congruence.
Qed.

Lemma strip_keeps_no_char (c : ascii) (s : string) :
  In c (list_ascii_of_string (Py.strip s)) -> In c (list_ascii_of_string s).
Proof.
  intros H. unfold Py.strip in H.
  destruct (lstrip_split s) as [b1 [_ [Hs _]]].
  destruct (rstrip_split (Py.lstrip s)) as [b2 [_ Ht]].
  rewrite Hs, Ht, !chars_append. apply in_or_app. right. apply in_or_app. left. exact H.
Qed.

Lemma truthy_spec (s : string) : Py.truthy s = true <-> s <> "".
Proof. destruct s; simpl; split; congruence. Qed.

(** ** [get_text(strip=True)] and the record of a page *)

Lemma concat_empty (l : list string) :
  Forall (fun x => x <> "") l -> String.concat "" l = "" -> l = [].
Proof.
  intros Hl H. destruct l as [| x l]; [reflexivity | exfalso].
  inversion Hl as [| ? ? Hx _]; subst. apply Hx.
  destruct l as [| y l]; simpl in H; [exact H |].
  destruct x; [reflexivity | discriminate].
Qed.

(** [get_text(strip=True)] gives the empty text exactly for a tag whose
    strings are all white space. *)
Lemma get_text_strip_empty (t : Node) :
  Bs4.get_text_strip t = "" <-> Forall blank (Bs4.all_strings t).
Proof.
  unfold Bs4.get_text_strip. split.
  - intros H. apply concat_empty in H.
    + apply Forall_forall. intros x Hx. apply strip_empty.
      destruct (Py.strip x) eqn:E; [reflexivity | exfalso].
      assert (Hin : In (Py.strip x) (filter Py.truthy (map Py.strip (Bs4.all_strings t)))).
      { apply filter_In. split; [apply in_map; exact Hx | rewrite E; reflexivity]. }
      rewrite H in Hin. exact Hin.
    + apply Forall_forall. intros x Hx. apply filter_In in Hx.
      destruct Hx as [_ Hx]. destruct x; [discriminate | discriminate].
  - intros H. induction H as [| x l Hx _ IH]; [reflexivity |].
    cbn [map filter]. apply strip_empty in Hx. rewrite Hx. exact IH.
Qed.

Lemma paragraphs_nonempty (w : World) (u : string) (page : Node) :
  Forall (fun p => p <> "") (paragraphs (extract w u page)).
Proof.
  unfold extract. cbn [paragraphs]. apply Forall_forall. intros p Hp.
  apply filter_In in Hp. destruct Hp as [_ Hp]. destruct p; [discriminate | discriminate].
Qed.

(** The paragraphs of a record: the [p] tags that hold some text other
    than white space, and no others. *)
Lemma paragraphs_kept (w : World) (u : string) (page : Node) :
  paragraphs (extract w u page)
  = map Bs4.get_text_strip
      (filter (fun t => Py.truthy (Bs4.get_text_strip t))
         (Bs4.find_all (Bs4.named ["p"]) page)) /\
  forall t, Py.truthy (Bs4.get_text_strip t) = true <->
            Exists (fun x => ~ blank x) (Bs4.all_strings t).
Proof.
  split.
  - unfold extract. cbn [paragraphs].
    induction (Bs4.find_all (Bs4.named ["p"]) page) as [| t l IH]; [reflexivity |].
    cbn [map filter]. destruct (Py.truthy (Bs4.get_text_strip t)); cbn [map]; now rewrite IH.
  - intros t. rewrite truthy_spec, get_text_strip_empty.
    rewrite <- Exists_Forall_neg; [tauto |].
    intros x. destruct (Py.strip x) eqn:E.
    + left. apply strip_empty. exact E.
    + right. intros Hb. apply strip_empty in Hb. congruence.
Qed.

(** X10. A record returned by [scrape_content] is the extraction of the
    page that the fetch answered, by the engine that [js_enabled] chose:
    its [url] is the URL the call was given; its headings are the texts of
    the heading tags, one for each; its paragraphs are the texts of the
    [p] tags that hold some text other than white space (Unicode's white
    space: a paragraph of a no-break space is dropped), in the order of
    the page; and none of its paragraphs is the empty string. *)
Theorem X10_scrape_content_record :
  forall (fuel : nat) (w : World) (u : string) (min_delay max_delay : Q)
         (log_callback js_enabled : bool) (data : ScrapeRecord),
    fst (scrape_content fuel w u min_delay max_delay log_callback js_enabled start_task)
      = Returns (Some data) ->
    exists page,
      (if js_enabled then playwright_content w u = inr page
       else exists status, requests_get w O u = inr {| status_code := status; soup := page |}) /\
      data = extract w u page /\
      url data = u /\
      headings data
      = map Bs4.get_text_strip
          (Bs4.find_all (Bs4.named ["h1"; "h2"; "h3"; "h4"; "h5"; "h6"]) page) /\
      (exists kept,
         paragraphs data = map Bs4.get_text_strip kept /\
         forall t, In t kept <->
                   In t (Bs4.find_all (Bs4.named ["p"]) page) /\
                   Exists (fun x => ~ blank x) (Bs4.all_strings t)) /\
      Forall (fun p => p <> "") (paragraphs data).
Proof.
  intros fuel w u mn mx cb js data H.
  assert (Hpage : exists page,
             data = extract w u page /\
             if js then playwright_content w u = inr page
             else exists status,
                 requests_get w O u = inr {| status_code := status; soup := page |}).
  { unfold scrape_content in H. unfold bind at 1 in H. unfold read_stop at 1 in H.
    cbn [start_task reads events requested] in H.
    destruct (stop_is_set w 0); [discriminate |].
    unfold bind at 1 in H.
    match type of H with context [wait_while_paused fuel w ?s0] =>
      pose proof (wait_while_paused_run w fuel s0) as W1;
      destruct (wait_while_paused fuel w s0) as [r1 s1] end.
    cbn [events reads requested] in W1. destruct W1 as [_ [Q1 _]].
    destruct r1 as [[|] |]; try discriminate.
    unfold bind at 1 in H. unfold fetch_soup in H.
    assert (Hrest : forall page s2,
               fst ((stopped <- read_stop w ;;
                     if stopped then ret (Returns None)
                     else
                       waited <- wait_while_paused fuel w ;;
                       match waited with
                       | OutOfFuel => ret OutOfFuel
                       | Returns true => ret (Returns None)
                       | Returns false =>
                           call_log task_emit cb
                             (String.concat ""
                                ["[INFO] Pause de "; format_2f w (uniform w mn mx);
                                 " secondes avant la prochaine requête."]) ;;
                           task_emit (DelaySleep (uniform w mn mx)) ;;
                           ret (Returns (Some (extract w u page)))
                       end) s2) = Returns (Some data) ->
               data = extract w u page).
    { intros page s2 Hs2. unfold bind at 1 in Hs2. unfold read_stop at 1 in Hs2.
      destruct (stop_is_set w (reads s2)); [discriminate |].
      unfold bind at 1 in Hs2.
      match type of Hs2 with context [wait_while_paused fuel w ?s0] =>
        destruct (wait_while_paused fuel w s0) as [[[|] |] s3] end; try discriminate.
      unfold bind, call_log, task_emit, ret in Hs2.
      destruct cb; cbn [fst] in Hs2; congruence. }
    destruct js.
    - unfold bind at 1 in H. unfold task_render at 1 in H.
      destruct (playwright_content w u) as [e | page].
      + unfold bind, task_emit, call_log, ret in H. destruct cb; discriminate.
      + exists page. split; [| reflexivity].
        unfold bind at 1 in H. unfold task_emit at 1 in H. cbv beta iota zeta in H.
        unfold bind at 1 in H.
        match type of H with context [call_log task_emit cb ?m ?s0] =>
          destruct (call_log task_emit cb m s0) as [[] s2] end.
        unfold ret at 1 in H. cbv beta iota zeta in H.
        apply (Hrest page s2). exact H.
    - unfold bind at 1 in H. unfold task_request at 1 in H. rewrite Q1 in H.
      cbn [requested] in H.
      destruct (requests_get w 0 u) as [e | [status page]].
      + unfold bind, task_emit, call_log, ret in H. destruct cb; discriminate.
      + exists page. split; [| exists status; reflexivity].
        unfold bind at 1 in H. unfold task_emit at 1 in H. cbv beta iota zeta in H.
        unfold bind at 1 in H.
        match type of H with context [call_log task_emit cb ?m ?s0] =>
          destruct (call_log task_emit cb m s0) as [[] s2] end.
        unfold ret at 1 in H. cbv beta iota zeta in H. cbn [soup] in H.
        apply (Hrest page s2). exact H. }
  destruct Hpage as [page [Hd Hengine]]. exists page.
  split; [exact Hengine |]. split; [exact Hd |]. subst data.
  split; [reflexivity |]. split; [reflexivity |].
  split; [| apply paragraphs_nonempty].
  destruct (paragraphs_kept w u page) as [Hp Hkept].
  exists (filter (fun t => Py.truthy (Bs4.get_text_strip t))
            (Bs4.find_all (Bs4.named ["p"]) page)).
  split; [exact Hp |].
  intros t. rewrite filter_In, Hkept. reflexivity.
Qed.

Lemma X10_scrape_content_record_witness :
  let w := nbsp_world in
  let u := "https://ex.org/nbsp" in
  let data := {| url := u; headings := ["Titre"]; paragraphs := ["ok"]; images := [];
                 meta_description := ""; meta_keywords := ""; meta_og_title := "" |} in
  exists page,
    (exists status, requests_get w O u = inr {| status_code := status; soup := page |}) /\
    data = extract w u page /\
    url data = u /\
    headings data
    = map Bs4.get_text_strip
        (Bs4.find_all (Bs4.named ["h1"; "h2"; "h3"; "h4"; "h5"; "h6"]) page) /\
    (exists kept,
       paragraphs data = map Bs4.get_text_strip kept /\
       forall t, In t kept <->
                 In t (Bs4.find_all (Bs4.named ["p"]) page) /\
                 Exists (fun x => ~ blank x) (Bs4.all_strings t)) /\
    Forall (fun p => p <> "") (paragraphs data).
Proof.
  intros w u data.
  apply (X10_scrape_content_record 5 w u 1%Q 3%Q true false data).
  vm_compute. reflexivity.
Defined.

(** The page with [<p>&nbsp;</p>]: the paragraph of a no-break space and
    the one of an em space and a space are dropped, and the heading loses
    its ideographic and no-break spaces. *)
Example extract_nbsp_page :
  let data := extract nbsp_world "https://ex.org/nbsp" nbsp_page in
  headings data = ["Titre"] /\ paragraphs data = ["ok"].
Proof. vm_compute. split; reflexivity. Qed.

Lemma wait_while_paused_never_resumes (w : World) :
  (forall n, pause_is_set w n = true) ->
  forall fuel s, fst (wait_while_paused fuel w s) <> Returns false.
Proof.
  intros Hp. induction fuel as [| fuel IH]; intros s; cbn [wait_while_paused].
  - discriminate.
  - unfold bind, read_pause. rewrite Hp.
    unfold task_emit, read_stop. cbn [events reads requested].
    destruct (stop_is_set w (S (reads s))); [discriminate | apply IH].
Qed.

(** X11. As long as the pause flag reads set, [scrape_content] issues no
    request and no render and returns no record: it only polls, until it
    sees the stop flag. *)
Theorem X11_paused_never_fetches :
  forall (fuel : nat) (w : World) (u : string) (min_delay max_delay : Q)
         (log_callback js_enabled : bool),
    (forall n, pause_is_set w n = true) ->
    let '(r, s') := scrape_content fuel w u min_delay max_delay log_callback js_enabled
                      start_task in
    (r = Returns None \/ r = OutOfFuel) /\
    (exists k, events s' = repeat PollSleep k) /\
    requested s' = O.
Proof.
  intros fuel w u mn mx cb js Hp.
  unfold scrape_content. unfold bind at 1. unfold read_stop at 1.
  cbn [start_task reads events requested].
  destruct (stop_is_set w 0).
  { unfold ret. cbn. repeat split; auto. exists O. reflexivity. }
  unfold bind at 1.
  match goal with |- context [wait_while_paused fuel w ?s0] =>
    pose proof (wait_while_paused_run w fuel s0) as W1;
    pose proof (wait_while_paused_never_resumes w Hp fuel s0) as N1;
    destruct (wait_while_paused fuel w s0) as [r1 s1] end.
  cbn [events reads requested app fst] in *. destruct W1 as [Hk [Q1 _]].
  destruct r1 as [[|] |]; [| congruence |]; unfold ret; cbn; auto.
Qed.

Lemma X11_paused_never_fetches_witness :
  let '(r, s') := scrape_content 3 (paused_world 100) "https://ex.org/a1" 1 3 true false
                    start_task in
  (r = Returns None \/ r = OutOfFuel) /\
  (exists k, events s' = repeat PollSleep k) /\
  requested s' = O.
Proof.
  apply (X11_paused_never_fetches 3 (paused_world 100) "https://ex.org/a1" 1%Q 3%Q true false).
  intros n. reflexivity.
Defined.

Lemma wait_while_paused_sees_stop (w : World) :
  (forall n, pause_is_set w n = true) ->
  forall k fuel s,
    stop_is_set w (reads s + 1 + 2 * k) = true -> (k < fuel)%nat ->
    fst (wait_while_paused fuel w s) = Returns true.
Proof.
  intros Hp. induction k as [| k IH]; intros fuel s Hs Hf;
    (destruct fuel as [| fuel]; [lia |]); cbn [wait_while_paused];
    unfold bind, read_pause; rewrite Hp;
    unfold task_emit, read_stop; cbn [events reads requested].
  - replace (reads s + 1 + 2 * 0)%nat with (S (reads s)) in Hs by lia.
    rewrite Hs. reflexivity.
  - destruct (stop_is_set w (S (reads s))); [reflexivity |].
    apply IH; [| lia]. cbn [reads].
    replace (S (S (reads s)) + 1 + 2 * k)%nat with (reads s + 1 + 2 * S k)%nat by lia.
    exact Hs.
Qed.

(** X12. A stop request is seen during a pause: when the pause flag stays
    set and the stop flag is set at the call's [k]-th look at it (the
    [2k]-th flag reading), the call returns the empty dict, provided the
    loop is given that many turns. *)
Theorem X12_stop_seen_while_paused :
  forall (k fuel : nat) (w : World) (u : string) (min_delay max_delay : Q)
         (log_callback js_enabled : bool),
    (forall n, pause_is_set w n = true) ->
    stop_is_set w (2 * k) = true ->
    (k <= fuel)%nat ->
    fst (scrape_content fuel w u min_delay max_delay log_callback js_enabled start_task)
      = Returns None.
Proof.
  intros k fuel w u mn mx cb js Hp Hs Hf.
  unfold scrape_content. unfold bind at 1. unfold read_stop at 1.
  cbn [start_task reads events requested].
  destruct (stop_is_set w 0) eqn:H0; [reflexivity |].
  destruct k as [| k]; [simpl in Hs; congruence |].
  unfold bind at 1.
  match goal with |- context [wait_while_paused fuel w ?s0] =>
    pose proof (wait_while_paused_sees_stop w Hp k fuel s0) as W;
    destruct (wait_while_paused fuel w s0) as [r1 s1] end.
  cbn [reads fst] in W.
  rewrite W; [reflexivity | | lia].
  replace (1 + 1 + 2 * k)%nat with (2 * S k)%nat by lia. exact Hs.
Qed.

Lemma X12_stop_seen_while_paused_witness :
  fst (scrape_content 2 (paused_world 4) "https://ex.org/a1" 1 3 true false start_task)
    = Returns None.
Proof.
  apply (X12_stop_seen_while_paused 2 2 (paused_world 4) "https://ex.org/a1" 1%Q 3%Q
           true false).
  - intros n. reflexivity.
  - reflexivity.
  - lia.
Defined.

(** ** [scrape_all_urls]: partial runs, callbacks and edge cases *)

Lemma seen_prefix (w : World) (se : bool) (done : list Future) :
  forall t, exists rest, done = seen w se t done ++ rest.
Proof.
  induction done as [| fut done IH]; intros t; cbn [seen].
  - exists []. reflexivity.
  - destruct (if se then stop_is_set w t else false).
    + exists (fut :: done). reflexivity.
    + destruct (IH (S t)) as [rest Hrest]. exists rest. cbn [app]. congruence.
Qed.

(** Every run of [scrape_all_urls] works through a list [l] of futures:
    some of the submitted ones, none when no pool was made. *)
Lemma scrape_all_urls_shape (w : World) (ex : Executor) (urls : list string) (mn mx : Q)
  (workers : Z) (pc pe se lc dc js : bool) :
  let '(r, s) := scrape_all_urls w ex urls mn mx workers pc pe se lc dc js in
  exists l,
    emitted s = flat_map (completion_events "Échec ou annulé" ex (Py.len urls) pc lc dc)
                  (numbered_from 1 l) /\
    (r = inr (successes ex l) \/ (l = [] /\ exists e, r = inl e)) /\
    incl l (submit_all urls mn mx pe se lc js) /\
    (List.length l <= List.length urls)%nat.
Proof.
  destruct (Z.leb_spec workers 0) as [Hw | Hw].
  - unfold scrape_all_urls.
    destruct (Z.eqb_spec (Py.len urls) 0) as [Hz | Hz].
    + unfold bind, get_results, ret. simpl. exists []. simpl.
      repeat split; auto using incl_nil_l. lia.
    + destruct (Z.leb_spec workers 0); [| lia]. unfold ret. simpl. exists []. simpl.
      repeat split; eauto using incl_nil_l. lia.
  - pose proof (scrape_all_urls_run w ex urls mn mx workers pc pe se lc dc js
                  ltac:(lia)) as Hrun.
    cbv zeta in Hrun.
    destruct (scrape_all_urls w ex urls mn mx workers pc pe se lc dc js) as [r s].
    destruct Hrun as [Hr He].
    set (futs := submit_all urls mn mx pe se lc js) in *.
    set (done := as_completed ex O (List.length futs) futs) in *.
    assert (Hperm : Permutation done futs)
      by (apply as_completed_permutation; reflexivity).
    destruct (seen_prefix w se done O) as [rest Hrest].
    exists (seen w se O done). repeat split.
    + exact He.
    + left. exact Hr.
    + intros fut Hin. apply (Permutation_in _ Hperm).
      rewrite Hrest. apply in_or_app. left. exact Hin.
    + rewrite <- (submit_all_length urls mn mx pe se lc js).
      fold futs. rewrite <- (Permutation_length Hperm).
      rewrite Hrest at 2. rewrite length_app. lia.
Qed.

(** X13. [scrape_all_urls] over an empty list returns the empty list at
    once, without making a pool: not even a worker count below 1 is an
    error then. Over a non-empty list a worker count below 1 raises the
    pool's ValueError before anything is emitted. *)
Theorem X13_scrape_all_urls_no_pool :
  forall (w : World) (ex : Executor) (urls : list string) (min_delay max_delay : Q)
         (workers : Z)
         (progress_callback pause_event stop_event log_callback data_callback js_enabled : bool),
    let run := scrape_all_urls w ex urls min_delay max_delay workers progress_callback
                 pause_event stop_event log_callback data_callback js_enabled in
    (urls = [] -> run = (inr [], start_crawl)) /\
    (urls <> [] -> workers <= 0 ->
     run = (inl "max_workers must be greater than 0", start_crawl)).
Proof.
  intros w ex urls mn mx workers pc pe se lc dc js run. subst run. split.
  - intros ->. reflexivity.
  - intros Hne Hw. unfold scrape_all_urls.
    destruct (Z.eqb_spec (Py.len urls) 0) as [Hz | Hz].
    + destruct urls; [congruence | unfold Py.len in Hz; simpl in Hz; lia].
    + destruct (Z.leb_spec workers 0); [reflexivity | lia].
Qed.

Lemma X13_scrape_all_urls_no_pool_witness :
  scrape_all_urls (sample_world 100 0) sample_executor [] 1 3 0 true true true true true false
    = (inr [], start_crawl) /\
  scrape_all_urls (sample_world 100 0) sample_executor ["https://ex.org/a1"] 1 3 0
    true true true true true false
    = (inl "max_workers must be greater than 0", start_crawl).
Proof.
  split.
  - apply (X13_scrape_all_urls_no_pool (sample_world 100 0) sample_executor [] 1%Q 3%Q 0
             true true true true true false). reflexivity.
  - apply (X13_scrape_all_urls_no_pool (sample_world 100 0) sample_executor
             ["https://ex.org/a1"] 1%Q 3%Q 0 true true true true true false).
    + discriminate.
    + lia.
Defined.

Lemma data_callbacks_run (ex : Executor) (total : Z) (pc lc : bool) :
  forall l i,
    data_callbacks
      (flat_map (completion_events "Échec ou annulé" ex total pc lc true) (numbered_from i l))
    = successes ex l.
Proof.
  induction l as [| fut l IH]; intros i; [reflexivity |].
  cbn [numbered_from flat_map]. unfold data_callbacks in *. rewrite flat_map_app.
  unfold successes. cbn [flat_map]. fold (successes ex l). rewrite IH.
  f_equal. unfold completion_events.
  destruct (future_result ex fut) as [exc | [data |]]; destruct pc, lc; reflexivity.
Qed.

(** X14. What [scrape_all_urls] returns is what it streamed: when a data
    callback is passed, the records handed to it, in order, are exactly
    the returned list, also when the run is cut short by a stop. (A caller
    that accumulates them, as the window does, ends with the returned
    list.) *)
Theorem X14_data_callback_stream_is_result :
  forall (w : World) (ex : Executor) (urls : list string) (min_delay max_delay : Q)
         (workers : Z) (progress_callback pause_event stop_event log_callback js_enabled : bool),
    let '(r, s) := scrape_all_urls w ex urls min_delay max_delay workers progress_callback
                     pause_event stop_event log_callback true js_enabled in
    match r with
    | inr l => data_callbacks (emitted s) = l
    | inl _ => emitted s = []
    end.
Proof.
  intros w ex urls mn mx workers pc pe se lc js.
  pose proof (scrape_all_urls_shape w ex urls mn mx workers pc pe se lc true js) as H.
  destruct (scrape_all_urls w ex urls mn mx workers pc pe se lc true js) as [r s].
  destruct H as [l [He [[Hr | [Hl [e Hr]]] _]]]; subst r.
  - rewrite He. apply data_callbacks_run.
  - subst l. exact He.
Qed.

Lemma successes_length (ex : Executor) (l : list Future) :
  (List.length (successes ex l) <= List.length l)%nat.
Proof.
  induction l as [| fut l IH]; [simpl; lia |].
  unfold successes in *. cbn [flat_map]. rewrite length_app.
  destruct (future_result ex fut) as [exc | [data |]]; simpl; lia.
Qed.

Lemma successes_in (ex : Executor) (l : list Future) (data : ScrapeRecord) :
  In data (successes ex l) ->
  exists fut, In fut l /\ future_result ex fut = inr (Some data).
Proof.
  unfold successes. rewrite in_flat_map. intros [fut [Hin Hd]].
  exists fut. split; [exact Hin |].
  destruct (future_result ex fut) as [exc | [d |]]; simpl in Hd; try contradiction.
  destruct Hd as [-> | []]. reflexivity.
Qed.

(** X15. In every run of [scrape_all_urls], stopped or not, the progress
    callback is invoked with the numbers 1..k without a gap, for some
    [k <= N]; the returned list has at most [k] records; and each of them
    is the record held by the future of a submitted URL. *)
Theorem X15_partial_run :
  forall (w : World) (ex : Executor) (urls : list string) (min_delay max_delay : Q)
         (workers : Z) (pause_event stop_event log_callback data_callback js_enabled : bool)
         (l : list ScrapeRecord),
    let '(r, s) := scrape_all_urls w ex urls min_delay max_delay workers true
                     pause_event stop_event log_callback data_callback js_enabled in
    r = inr l ->
    exists k,
      (k <= List.length urls)%nat /\
      progress_numbers (emitted s) = map Z.of_nat (seq 1 k) /\
      (List.length l <= k)%nat /\
      forall data, In data l ->
        exists fut,
          In fut (submit_all urls min_delay max_delay pause_event stop_event
                    log_callback js_enabled) /\
          future_result ex fut = inr (Some data).
Proof.
  intros w ex urls mn mx workers pe se lc dc js l.
  pose proof (scrape_all_urls_shape w ex urls mn mx workers true pe se lc dc js) as H.
  destruct (scrape_all_urls w ex urls mn mx workers true pe se lc dc js) as [r s].
  intros Hr. destruct H as [futs [He [Hres [Hincl Hlen]]]].
  destruct Hres as [Hres | [_ [e Hres]]]; [| congruence].
  assert (l = successes ex futs) by congruence. subst l.
  exists (List.length futs). repeat split.
  - exact Hlen.
  - rewrite He. change 1 with (Z.of_nat 1). apply progress_numbers_run.
  - apply successes_length.
  - intros data Hin. destruct (successes_in ex futs data Hin) as [fut [Hf Hd]].
    exists fut. split; [apply Hincl; exact Hf | exact Hd].
Qed.

Lemma X15_partial_run_witness :
  let '(r, s) := scrape_all_urls (sample_world 1 0) sample_executor
                   ["https://ex.org/zz"; "https://ex.org/a1"; "https://ex.org/yy"]
                   1 3 2 true true true true true false in
  exists k,
    (k <= 3)%nat /\
    progress_numbers (emitted s) = map Z.of_nat (seq 1 k) /\
    (1 <= k)%nat.
Proof.
  pose proof (X15_partial_run (sample_world 1 0) sample_executor
                ["https://ex.org/zz"; "https://ex.org/a1"; "https://ex.org/yy"]
                1%Q 3%Q 2 true true true true false
                [extract (sample_world 100 0) "https://ex.org/a1" sample_page]) as H.
  destruct (scrape_all_urls (sample_world 1 0) sample_executor
              ["https://ex.org/zz"; "https://ex.org/a1"; "https://ex.org/yy"]
              1 3 2 true true true true true false) as [r s] eqn:E.
  assert (Hr : r = inr [extract (sample_world 100 0) "https://ex.org/a1" sample_page]).
  { vm_compute in E. inversion E. reflexivity. }
  destruct (H Hr) as [k [Hk [Hp [Hl _]]]].
  exists k. simpl in Hk, Hl. auto.
Defined.

(** ** Callbacks that were not passed *)

Lemma completion_events_callbacks (ex : Executor) (total : Z) (pc lc dc : bool)
  (numbered : Z * Future) :
  Forall (fun e => (is_progress_callback e = true -> pc = true) /\
                   (is_log_callback e = true -> lc = true) /\
                   (is_data_callback e = true -> dc = true))
    (completion_events "Échec ou annulé" ex total pc lc dc numbered).
Proof.
  destruct numbered as [i fut]. unfold completion_events.
  destruct (future_result ex fut) as [exc | [data |]]; destruct pc, lc, dc;
    repeat constructor; simpl; intros; congruence.
Qed.

(** X16. A callback that was not passed ([None]) is never invoked:
    discovery and [scrape_content] invoke the log callback, and
    [scrape_all_urls] invokes the progress, log and data callbacks, only
    when the corresponding argument was given. *)
Theorem X16_absent_callbacks_never_invoked :
  forall (fuel : nat) (w : World) (ex : Executor) (u : string) (d urls : list string)
         (lim workers : Z) (min_delay max_delay : Q)
         (cb pc pe se dc js : bool),
    Forall (fun en => is_log_callback (event en) = true -> cb = true)
      (history (snd (get_allowed_urls fuel w u d lim cb))) /\
    Forall (fun e => is_log_callback e = true -> cb = true)
      (events (snd (scrape_content fuel w u min_delay max_delay cb js start_task))) /\
    Forall (fun e => (is_progress_callback e = true -> pc = true) /\
                     (is_log_callback e = true -> cb = true) /\
                     (is_data_callback e = true -> dc = true))
      (emitted (snd (scrape_all_urls w ex urls min_delay max_delay workers pc pe se cb dc js))).
Proof.
  intros fuel w ex u d urls lim workers mn mx cb pc pe se dc js. repeat split.
  - destruct (get_allowed_urls_keeps d w cb fuel u lim) as [_ [_ [new [Hh Hn]]]].
    rewrite Hh. simpl.
    eapply Forall_impl; [| exact Hn]. simpl. intros en H1 H2.
    destruct (event en); simpl in *; try discriminate. exact H1.
  - destruct cb; [apply Forall_forall; auto |].
    pose proof (scrape_content_cases fuel w u mn mx false js start_task) as H.
    destruct (scrape_content fuel w u mn mx false js start_task) as [r s'].
    cbn [start_task events reads requested app Nat.add snd logged] in *.
    assert (Hp : forall k, Forall (fun e => is_log_callback e = true -> false = true)
                             (repeat PollSleep k)).
    { intros k. apply Forall_forall. intros e He. apply repeat_spec in He. now subst. }
    assert (Hf : forall e, e = fetch_event js u -> is_log_callback e = true -> false = true).
    { intros e ->. destruct js; simpl; congruence. }
    destruct H as [[k1 [Hr E]] | [[k1 [msg [Hfail [Hr E]]]] | [[k1 [msg [k2 [Hok [Hr E]]]]]
                  | [k1 [msg [k2 [msg2 [data [Hok [Hr [Hreads E]]]]]]]]]]]; rewrite E;
      repeat (apply Forall_app; split); try apply Hp;
      repeat (constructor; try (apply Hf; reflexivity); try (simpl; congruence));
      try apply Hp;
      repeat (apply Forall_app; split); try apply Hp;
      repeat (constructor; try (simpl; congruence)).
  - pose proof (scrape_all_urls_shape w ex urls mn mx workers pc pe se cb dc js) as H.
    destruct (scrape_all_urls w ex urls mn mx workers pc pe se cb dc js) as [r s].
    destruct H as [l [He _]]. cbn [snd]. rewrite He. clear He.
    generalize 1. induction l as [| fut l IH]; intros i; cbn [numbered_from flat_map].
    + constructor.
    + apply Forall_app. split; [apply completion_events_callbacks | apply IH].
Qed.

(** ** The window: parameters *)

Lemma str_split_no_sep (sep : ascii) (s : string) :
  forall piece, In piece (str_split sep s) -> ~ In sep (list_ascii_of_string piece).
Proof.
  induction s as [| c s IH]; intros piece Hin; simpl in Hin.
  - destruct Hin as [<- | []]. simpl. auto.
  - destruct (Ascii.eqb_spec c sep) as [-> | Hc].
    + destruct Hin as [<- | Hin]; [simpl; auto | now apply IH].
    + destruct (str_split sep s) as [| p rest].
      * destruct Hin as [<- | []]. simpl. intros [H | []]. congruence.
      * destruct Hin as [<- | Hin].
        -- simpl. intros [H | H]; [congruence |]. revert H. apply IH. left. reflexivity.
        -- apply IH. right. exact Hin.
Qed.

Lemma Substring_trans (a b c : string) : Substring a b -> Substring b c -> Substring a c.
Proof.
  intros [p1 [q1 ->]] [p2 [q2 ->]]. exists (p2 ++ p1)%string, (q1 ++ q2)%string.
  rewrite !append_assoc. reflexivity.
Qed.

(** The first piece of a split begins the text, and every piece is a part
    of it. *)
Lemma str_split_pieces (sep : ascii) (s : string) :
  (exists piece rest post, str_split sep s = piece :: rest /\ s = (piece ++ post)%string) /\
  forall piece, In piece (str_split sep s) -> Substring piece s.
Proof.
  induction s as [| c s [[p [rest [post [Hp Hs]]]] IH]]; cbn [str_split].
  - split; [exists "", [], ""; split; reflexivity |].
    intros piece [<- | []]. exists "", "". reflexivity.
  - destruct (Ascii.eqb c sep).
    + split; [exists "", (str_split sep s), (String c s); split; reflexivity |].
      intros piece [<- | Hin]; [exists "", (String c s); reflexivity |].
      destruct (IH piece Hin) as [pre [post' ->]]. exists (String c pre), post'. reflexivity.
    + rewrite Hp. split.
      * exists (String c p), rest, post. split; [reflexivity | simpl; congruence].
      * intros piece [<- | Hin].
        -- exists "", post. simpl. congruence.
        -- destruct (IH piece) as [pre [post' ->]]; [rewrite Hp; right; exact Hin |].
           exists (String c pre), post'. reflexivity.
Qed.

Lemma strip_Substring (s : string) : Substring (Py.strip s) s.
Proof.
  unfold Py.strip.
  destruct (lstrip_split s) as [b1 [_ [Hs _]]].
  destruct (rstrip_split (Py.lstrip s)) as [b2 [_ Ht]].
  exists b1, b2. rewrite <- Ht. exact Hs.
Qed.

(** X17. [on_start] lets a run begin exactly when the entry holds
    something other than white space (Unicode's white space: an entry of
    no-break spaces is refused), [0 <= min_delay <= max_delay], there is
    at least one worker and the limit is not negative. The parameters of
    the run are then the field values, with the entry and the file name
    stripped: the entry has no white space left at either end. A refused
    form is answered with the line of the first check that it fails, in
    the order entry, delays, workers, limit; the file name is never
    checked. *)
Theorem X17_on_start_checks :
  forall (f : Form),
    match on_start_params f with
    | inr p =>
        ~ blank (sitemap_url_var f) /\
        sitemap_or_url p = Py.strip (sitemap_url_var f) /\ sitemap_or_url p <> "" /\
        trimmed (sitemap_or_url p) /\ Substring (sitemap_or_url p) (sitemap_url_var f) /\
        (0 <= min_delay p)%Q /\ (min_delay p <= max_delay p)%Q /\
        1 <= workers p /\ 0 <= limit_ p /\
        min_delay p = min_delay_var f /\ max_delay p = max_delay_var f /\
        workers p = concurrency_var f /\ limit_ p = limit_var f /\
        js_enabled p = js_enabled_var f /\ csv_filename p = Py.strip (csv_var f)
    | inl msg =>
        (blank (sitemap_url_var f) /\
         msg = "[ERREUR] Veuillez saisir un sitemap ou une URL.") \/
        (~ blank (sitemap_url_var f) /\
         ((min_delay_var f < 0)%Q \/ (max_delay_var f < min_delay_var f)%Q) /\
         msg = "[ERREUR] Les valeurs de délai min/max sont invalides.") \/
        (~ blank (sitemap_url_var f) /\
         (0 <= min_delay_var f)%Q /\ (min_delay_var f <= max_delay_var f)%Q /\
         concurrency_var f < 1 /\
         msg = "[ERREUR] Le nombre de threads doit être >= 1.") \/
        (~ blank (sitemap_url_var f) /\
         (0 <= min_delay_var f)%Q /\ (min_delay_var f <= max_delay_var f)%Q /\
         1 <= concurrency_var f /\ limit_var f < 0 /\
         msg = "[ERREUR] La limite doit être >= 0.")
    end.
Proof.
  intros f. unfold on_start_params.
  destruct (Py.truthy (Py.strip (sitemap_url_var f))) eqn:Hs; cbn [negb].
  2: { left. split; [| reflexivity]. apply strip_empty.
       destruct (Py.strip (sitemap_url_var f)); [reflexivity | discriminate]. }
  apply truthy_spec in Hs.
  assert (Hnb : ~ blank (sitemap_url_var f)) by (intros Hb; apply strip_empty in Hb; auto).
  unfold Qlt_bool.
  destruct (Qle_bool 0 (min_delay_var f)) eqn:H0; cbn [negb orb].
  2: { right. left. split; [exact Hnb |]. split; [| reflexivity].
       left. apply Qnot_le_lt. intros H. apply Qle_bool_iff in H. congruence. }
  destruct (Qle_bool (min_delay_var f) (max_delay_var f)) eqn:H1; cbn [negb].
  2: { right. left. split; [exact Hnb |]. split; [| reflexivity].
       right. apply Qnot_le_lt. intros H. apply Qle_bool_iff in H. congruence. }
  apply Qle_bool_iff in H0, H1.
  destruct (Z.ltb_spec (concurrency_var f) 1) as [Hw | Hw].
  { right. right. left. auto. }
  destruct (Z.ltb_spec (limit_var f) 0) as [Hl | Hl].
  { right. right. right. auto 7. }
  cbn [sitemap_or_url min_delay max_delay workers limit_ js_enabled csv_filename].
  repeat split; auto; try apply strip_Substring; apply strip_trimmed; assumption.
Qed.

Example on_start_sample_form :
  on_start_params sample_form
  = inr {| sitemap_or_url := "https://ex.org/sitemap.xml";
           disallowed_list := ["/private/"; "/tmp"];
           csv_filename := "out.csv";
           min_delay := 1; max_delay := 3; workers := 2; limit_ := 4;
           js_enabled := false |}.
Proof. vm_compute. reflexivity. Qed.

(** An entry of no-break spaces only is refused, with the line of the
    first check. *)
Example on_start_refuses_nbsp :
  on_start_params
    {| sitemap_url_var := String.concat "" [nbsp; nbsp];
       disallowed_var := "";
       csv_var := "out.csv";
       min_delay_var := 1; max_delay_var := 3;
       concurrency_var := 2; limit_var := 4; js_enabled_var := false |}
  = inl "[ERREUR] Veuillez saisir un sitemap ou une URL.".
Proof. vm_compute. reflexivity. Qed.

(** The form filled in with no-break spaces: the entry is stripped of
    them, and the fragments that are nothing but white space are gone. *)
Example on_start_nbsp_form :
  on_start_params nbsp_form
  = inr {| sitemap_or_url := "https://ex.org/sitemap.xml";
           disallowed_list := ["/private/"; "/tmp"];
           csv_filename := "out.csv";
           min_delay := 1; max_delay := 3; workers := 2; limit_ := 4;
           js_enabled := false |}.
Proof. vm_compute. reflexivity. Qed.

(** X18. The disallowed list that [on_start] builds from the comma
    separated field never holds an empty fragment, a fragment with a
    comma, or one with white space (Unicode's) at either end; every
    fragment is a part of the field; and a field of white space only
    (the empty field, or one of no-break spaces) gives the empty list. So
    no run rejects every URL through an empty fragment. *)
Theorem X18_disallowed_list_fragments :
  forall (f : Form) (p : Params),
    on_start_params f = inr p ->
    Forall fragment_ok (disallowed_list p) /\
    Forall (fun x => Substring x (disallowed_var f)) (disallowed_list p) /\
    (blank (disallowed_var f) -> disallowed_list p = []).
Proof.
  intros f p H. unfold on_start_params in H.
  destruct (negb (Py.truthy (Py.strip (sitemap_url_var f)))); [discriminate |].
  destruct (Qlt_bool (min_delay_var f) 0 || Qlt_bool (max_delay_var f) (min_delay_var f));
    [discriminate |].
  destruct (concurrency_var f <? 1)%Z; [discriminate |].
  destruct (limit_var f <? 0)%Z; [discriminate |].
  inversion H; subst p; clear H. cbn [disallowed_list]. split; [| split].
  - destruct (Py.truthy (Py.strip (disallowed_var f))); [| constructor].
    apply Forall_forall. intros x Hx. apply in_map_iff in Hx.
    destruct Hx as [y [<- Hy]]. apply filter_In in Hy. destruct Hy as [Hy Ht].
    repeat split.
    + apply truthy_spec. exact Ht.
    + intros Hc. apply strip_keeps_no_char in Hc.
      exact (str_split_no_sep _ _ _ Hy Hc).
    + apply strip_trimmed; assumption.
    + apply strip_trimmed; assumption.
  - destruct (Py.truthy (Py.strip (disallowed_var f))); [| constructor].
    apply Forall_forall. intros x Hx. apply in_map_iff in Hx.
    destruct Hx as [y [<- Hy]]. apply filter_In in Hy. destruct Hy as [Hy _].
    apply (Substring_trans _ y); [apply strip_Substring |].
    apply (Substring_trans _ (Py.strip (disallowed_var f))); [| apply strip_Substring].
    apply (str_split_pieces "," (Py.strip (disallowed_var f))). exact Hy.
  - intros Hb. apply strip_empty in Hb. rewrite Hb. reflexivity.
Qed.

Lemma X18_disallowed_list_fragments_witness :
  Forall fragment_ok ["/private/"; "/tmp"] /\
  Forall (fun x => Substring x (disallowed_var nbsp_form)) ["/private/"; "/tmp"] /\
  (blank (disallowed_var nbsp_form) -> ["/private/"; "/tmp"] = []).
Proof.
  apply (X18_disallowed_list_fragments nbsp_form
           {| sitemap_or_url := "https://ex.org/sitemap.xml";
              disallowed_list := ["/private/"; "/tmp"];
              csv_filename := "out.csv";
              min_delay := 1; max_delay := 3; workers := 2; limit_ := 4;
              js_enabled := false |}).
  vm_compute. reflexivity.
Defined.

(** ** The window: buttons *)

Lemma click_invariant (clicks : list Click) :
  forall c,
    is_paused c = pause_flag c ->
    pause_button c = (if is_paused c then "Reprendre" else "Pause") ->
    let c' := fold_left click clicks c in
    is_paused c' = pause_flag c' /\
    pause_button c' = (if is_paused c' then "Reprendre" else "Pause") /\
    stop_flag c' = stop_pending (stop_flag c) clicks /\
    pause_flag c' = pause_pending (pause_flag c) clicks.
Proof.
  induction clicks as [| b clicks IH]; intros c Hp Hb; cbn [fold_left].
  - simpl. auto.
  - destruct b; cbn [click stop_pending pause_pending].
    + apply (IH (on_start_reset c)); reflexivity.
    + unfold on_pause. rewrite <- Hp.
      destruct (is_paused c); cbn [negb fst];
        match goal with |- context [fold_left click clicks ?c1] =>
          specialize (IH c1 eq_refl eq_refl) end;
        cbv zeta in IH; cbn [stop_flag pause_flag] in IH; exact IH.
    + unfold on_stop. cbn [fst].
      match goal with |- context [fold_left click clicks ?c1] =>
        specialize (IH c1 Hp Hb) end.
      cbv zeta in IH. cbn [stop_flag pause_flag] in IH. exact IH.
Qed.

(** X19. Whatever buttons are clicked, in whatever order, from the fresh
    window on: [is_paused] tells whether the pause flag is set, the pause
    button reads "Reprendre" exactly then, the pause flag is set exactly
    when the pause button was clicked an odd number of times since the
    last "Commencer", and the stop flag is set exactly when "Arrêter" was
    clicked since the last "Commencer". *)
Theorem X19_controls_invariant :
  forall (clicks : list Click),
    let c := fold_left click clicks controls_init in
    is_paused c = pause_flag c /\
    pause_button c = (if is_paused c then "Reprendre" else "Pause") /\
    stop_flag c = stop_pending false clicks /\
    pause_flag c = pause_pending false clicks.
Proof.
  intros clicks. apply (click_invariant clicks controls_init); reflexivity.
Qed.

(** ** The window: the background task *)

Lemma core_events_app (a b : list GuiEvent) :
  core_events (a ++ b) = core_events a ++ core_events b.
Proof. unfold core_events. apply flat_map_app. Qed.

Lemma core_events_map (l : list Event) : core_events (map Core l) = l.
Proof. induction l as [| e l IH]; simpl; [reflexivity | now rewrite IH]. Qed.

Lemma saves_app (a b : list GuiEvent) : saves (a ++ b) = saves a ++ saves b.
Proof. unfold saves. apply flat_map_app. Qed.

Lemma saves_map (l : list Event) : saves (map Core l) = [].
Proof. induction l as [| e l IH]; simpl; [reflexivity | exact IH]. Qed.

Lemma progress_maxima_app (a b : list GuiEvent) :
  progress_maxima (a ++ b) = progress_maxima a ++ progress_maxima b.
Proof. unfold progress_maxima. apply flat_map_app. Qed.

Lemma progress_maxima_map (l : list Event) : progress_maxima (map Core l) = [].
Proof. induction l as [| e l IH]; simpl; [reflexivity | exact IH]. Qed.

Lemma data_callbacks_app (a b : list Event) :
  data_callbacks (a ++ b) = data_callbacks a ++ data_callbacks b.
Proof. unfold data_callbacks. apply flat_map_app. Qed.

Lemma data_callbacks_discovery (cb : bool) (l : list Entry) :
  Forall (fun en => discovery_event cb (event en)) l ->
  data_callbacks (map event l) = [].
Proof.
  induction 1 as [| en l Hen _ IH]; simpl; [reflexivity |].
  destruct (event en); simpl in *; try contradiction; exact IH.
Qed.

Lemma scrape_all_urls_streams (w : World) (ex : Executor) (urls : list string) (mn mx : Q)
  (nworkers : Z) (pc pe se lc js : bool) :
  let '(r, s) := scrape_all_urls w ex urls mn mx nworkers pc pe se lc true js in
  forall l, r = inr l -> data_callbacks (emitted s) = l.
Proof.
  pose proof (scrape_all_urls_shape w ex urls mn mx nworkers pc pe se lc true js) as H.
  destruct (scrape_all_urls w ex urls mn mx nworkers pc pe se lc true js) as [r s].
  destruct H as [l0 [He [[Hr | [_ [e Hr]]] _]]]; intros l Hl; [| congruence].
  rewrite He, data_callbacks_run. congruence.
Qed.

Lemma get_allowed_urls_bounded (fuel : nat) (w : World) (u : string) (d : list string)
  (lim : Z) (cb : bool) (l : list string) :
  0 < lim ->
  fst (get_allowed_urls fuel w u d lim cb) = Returns l ->
  Py.len l <= lim.
Proof.
  intros Hpos Hr.
  pose proof (get_allowed_urls_result fuel w u d lim cb) as Hres.
  pose proof (get_allowed_urls_keeps d w cb fuel u lim) as Hk.
  destruct (get_allowed_urls fuel w u d lim cb) as [r s]. simpl in *.
  destruct Hres as [Hl _]. specialize (Hl l Hr). subst l.
  destruct Hk as [_ [Hb _]].
  apply Hb; simpl; [exact Hpos | unfold Py.len; simpl; lia].
Qed.

Lemma on_start_params_workers (f : Form) (p : Params) :
  on_start_params f = inr p -> 1 <= workers p.
Proof.
  unfold on_start_params. intros H.
  destruct (negb (Py.truthy (Py.strip (sitemap_url_var f)))); [discriminate |].
  destruct (Qlt_bool (min_delay_var f) 0 || Qlt_bool (max_delay_var f) (min_delay_var f));
    [discriminate |].
  destruct (Z.ltb_spec (concurrency_var f) 1); [discriminate |].
  destruct (limit_var f <? 0); [discriminate |].
  inversion H. simpl. lia.
Qed.

(** A sitemap index that lists itself: discovery nests until the
    interpreter gives up, and the background task ends with that
    exception, after the two acts of its [finally] clause. *)
Example background_task_self_index :
  background_task 3 self_world sample_executor None
    {| sitemap_or_url := "https://ex.org/self.xml";
       disallowed_list := [];
       csv_filename := "out.csv";
       min_delay := 1; max_delay := 3; workers := 2; limit_ := 4;
       js_enabled := false |}
  = (Raised RecursionError,
     map Core
       (flat_map (fun _ =>
                    [Request "https://ex.org/self.xml";
                     Logging INFO "[OK] Récupération sitemap: https://ex.org/self.xml (status=200)";
                     LogCallback "[OK] Récupération sitemap: https://ex.org/self.xml (status=200)";
                     LogCallback "[INFO] Traitement du sous-sitemap: https://ex.org/self.xml"])
          [1; 2; 3])
     ++ [ExecutorNone; StartButtonNormal]).
Proof. vm_compute. reflexivity. Qed.

Lemma not_finally_core (l : list Event) :
  Forall (fun g => g <> ExecutorNone /\ g <> StartButtonNormal) (map Core l).
Proof.
  apply Forall_forall. intros g Hg. apply in_map_iff in Hg. destruct Hg as [e [<- _]].
  split; discriminate.
Qed.

(** Solves a goal that says that a trace holds no act of the [finally]
    clause. *)
Ltac not_finally :=
  repeat first [ assumption
               | apply not_finally_core
               | apply Forall_nil
               | apply Forall_cons; [split; discriminate |]
               | apply Forall_app; split ].

(** X20. For parameters that [on_start] accepted, the background task
    never fails on the thread pool. It ends with an exception in two cases
    only: [RecursionError], exactly when the sitemaps nest deeper than the
    interpreter allows, and the exception raised by writing the CSV file.
    And however it ends, normally or with either exception, its last two
    acts are those of the [finally] clause, done once: the executor is
    reset and the start button is enabled again. *)
Theorem X20_background_task_ends :
  forall (fuel : nat) (w : World) (ex : Executor) (disk_error : option string)
         (f : Form) (p : Params),
    on_start_params f = inr p ->
    let found :=
      fst (get_allowed_urls fuel w (sitemap_or_url p) (disallowed_list p) (limit_ p) true) in
    let '(e, trace) := background_task fuel w ex disk_error p in
    (found = OutOfFuel <-> e = Raised RecursionError) /\
    (forall exc, e = Raised exc ->
       exc = RecursionError \/
       exists msg, exc = CsvError msg /\ disk_error = Some msg /\ saves trace <> []) /\
    exists pre,
      trace = pre ++ [ExecutorNone; StartButtonNormal] /\
      Forall (fun g => g <> ExecutorNone /\ g <> StartButtonNormal) pre.
Proof.
  intros fuel w ex disk f p Hp found. apply on_start_params_workers in Hp.
  subst found. unfold background_task.
  destruct (get_allowed_urls fuel w (sitemap_or_url p) (disallowed_list p) (limit_ p) true)
    as [[urls |] discovery]; cbn [fst]; rewrite <- map_map.
  2: { split; [split; reflexivity |]. split; [intros exc H; inversion H; auto |].
       eexists. split; [reflexivity | not_finally]. }
  destruct (Py.len urls =? 0).
  { split; [split; discriminate |]. split; [discriminate |].
    eexists. split; [rewrite app_assoc; reflexivity | not_finally]. }
  pose proof (scrape_all_urls_run w ex urls (min_delay p) (max_delay p) (workers p)
                true true true true true (js_enabled p) Hp) as Hrun.
  cbv zeta in Hrun.
  destruct (scrape_all_urls w ex urls (min_delay p) (max_delay p) (workers p)
              true true true true true (js_enabled p)) as [scraped crawl].
  destruct Hrun as [Hr _]. subst scraped.
  destruct (negb (stop_is_set w (observed crawl))).
  - destruct disk as [exc |].
    + split; [split; discriminate |]. split.
      * intros exc' H. inversion H; subst. right. exists exc.
        split; [reflexivity |]. split; [reflexivity |].
        rewrite !saves_app. cbn [saves flat_map app]. intros Hs.
        apply app_eq_nil in Hs. destruct Hs as [Hs _].
        apply app_eq_nil in Hs. destruct Hs as [_ Hs]. discriminate.
      * eexists. split; [reflexivity | not_finally].
    + split; [split; discriminate |]. split; [discriminate |].
      eexists. split; [rewrite app_assoc; reflexivity | not_finally].
  - split; [split; discriminate |]. split; [discriminate |].
    eexists. split; [rewrite app_assoc; reflexivity | not_finally].
Qed.

Lemma X20_background_task_ends_witness :
  let p := {| sitemap_or_url := "https://ex.org/sitemap.xml";
              disallowed_list := ["/private/"; "/tmp"];
              csv_filename := "out.csv";
              min_delay := 1; max_delay := 3; workers := 2; limit_ := 4;
              js_enabled := false |} in
  let found :=
    fst (get_allowed_urls 5 self_world (sitemap_or_url p) (disallowed_list p) (limit_ p) true) in
  let '(e, trace) := background_task 5 self_world sample_executor (Some "disk full") p in
  (found = OutOfFuel <-> e = Raised RecursionError) /\
  (forall exc, e = Raised exc ->
     exc = RecursionError \/
     exists msg, exc = CsvError msg /\ Some "disk full" = Some msg /\ saves trace <> []) /\
  exists pre,
    trace = pre ++ [ExecutorNone; StartButtonNormal] /\
    Forall (fun g => g <> ExecutorNone /\ g <> StartButtonNormal) pre.
Proof.
  intros p.
  apply (X20_background_task_ends 5 self_world sample_executor
           (Some "disk full") nbsp_form p).
  vm_compute. reflexivity.
Defined.

Ltac trace_simpl :=
  repeat (rewrite saves_app || rewrite core_events_app || rewrite data_callbacks_app
          || rewrite progress_maxima_app || rewrite saves_map || rewrite core_events_map
          || rewrite progress_maxima_map);
  cbn [saves core_events data_callbacks progress_maxima flat_map app finally_].

(** X21. The background task writes at most one CSV file: under the name
    from the form, and with exactly the records that were streamed to the
    data callback. A task that finishes without writing one has told the
    user why: no URL was found, or the run was stopped. *)
Theorem X21_background_task_saves :
  forall (fuel : nat) (w : World) (ex : Executor) (disk_error : option string) (p : Params),
    let '(e, trace) := background_task fuel w ex disk_error p in
    (saves trace = [] \/
     saves trace = [(data_callbacks (core_events trace), csv_filename p)]) /\
    (e = Finished -> saves trace = [] ->
     In (Core (LogCallback "[INFO] Aucune URL à scraper.")) trace \/
     In (Core (LogCallback "[INFO] Scraping interrompu par l'utilisateur.")) trace).
Proof.
  intros fuel w ex disk p. unfold background_task.
  pose proof (get_allowed_urls_keeps (disallowed_list p) w true fuel (sitemap_or_url p)
                (limit_ p)) as Hk.
  destruct (get_allowed_urls fuel w (sitemap_or_url p) (disallowed_list p) (limit_ p) true)
    as [found discovery].
  cbn [snd start_discovery history app] in Hk. destruct Hk as [_ [_ [new [Hh Hnew]]]].
  rewrite <- map_map.
  assert (Hd : data_callbacks (map event (history discovery)) = []).
  { rewrite Hh. eapply data_callbacks_discovery. exact Hnew. }
  destruct found as [urls |].
  2: { split; [left; trace_simpl; reflexivity | discriminate]. }
  destruct (Py.len urls =? 0).
  { split.
    - left. trace_simpl. reflexivity.
    - intros _ _. left. apply in_or_app. right. simpl. auto. }
  pose proof (scrape_all_urls_streams w ex urls (min_delay p) (max_delay p) (workers p)
                true true true true (js_enabled p)) as Hs.
  destruct (scrape_all_urls w ex urls (min_delay p) (max_delay p) (workers p)
              true true true true true (js_enabled p)) as [[exc | scraped_data] crawl].
  { split; [| discriminate]. left. trace_simpl. reflexivity. }
  specialize (Hs scraped_data eq_refl).
  destruct (negb (stop_is_set w (observed crawl))).
  - destruct disk as [exc |].
    + split; [| discriminate]. right. trace_simpl.
      rewrite Hd, Hs, ?app_nil_r. reflexivity.
    + split.
      * right. trace_simpl. rewrite Hd, Hs, ?app_nil_r. reflexivity.
      * intros _ Hsv. exfalso. revert Hsv. trace_simpl. discriminate.
  - split.
    + left. trace_simpl. reflexivity.
    + intros _ _. right. apply in_or_app. right. simpl. auto.
Qed.

(** X22. The background task announces at most one size to the progress
    bar: the number of URLs that discovery returned, which is positive
    and, under a positive limit, not above the limit. *)
Theorem X22_background_task_crawl_size :
  forall (fuel : nat) (w : World) (ex : Executor) (disk_error : option string) (p : Params),
    let trace := snd (background_task fuel w ex disk_error p) in
    progress_maxima trace = [] \/
    exists urls,
      fst (get_allowed_urls fuel w (sitemap_or_url p) (disallowed_list p) (limit_ p) true)
        = Returns urls /\
      progress_maxima trace = [Py.len urls] /\
      0 < Py.len urls /\
      (0 < limit_ p -> Py.len urls <= limit_ p).
Proof.
  intros fuel w ex disk p. cbv zeta. unfold background_task.
  pose proof (get_allowed_urls_bounded fuel w (sitemap_or_url p) (disallowed_list p)
                (limit_ p) true) as Hb.
  destruct (get_allowed_urls fuel w (sitemap_or_url p) (disallowed_list p) (limit_ p) true)
    as [found discovery].
  cbn [fst snd] in *. rewrite <- map_map.
  destruct found as [urls |].
  2: { left. cbn [snd]. trace_simpl. reflexivity. }
  destruct (Z.eqb_spec (Py.len urls) 0) as [Hz | Hz].
  { left. cbn [snd]. trace_simpl. reflexivity. }
  pose proof (len_nonneg urls) as Hn.
  right. exists urls. split; [reflexivity |].
  split; [| split; [lia | intros Hl; apply Hb; auto]].
  destruct (scrape_all_urls w ex urls (min_delay p) (max_delay p) (workers p)
              true true true true true (js_enabled p)) as [[exc | scraped_data] crawl];
    [| destruct (negb (stop_is_set w (observed crawl))); [destruct disk |]];
    cbn [snd]; trace_simpl; reflexivity.
Qed.
